(** * Options analytics toolkit: payoff tables, moneyness labels,
      premium heuristics and the volatility-rank proxy

    Shallow embedding of the computational parts of
    [options_learning_guide.py], [advanced_options_trading.py] and
    [options_scanner.py].

    Numbers.  The scripts compute with Python floats.  Finite values are
    idealised as real numbers with exact arithmetic (no rounding, no
    overflow, no signed zero).  What is kept of the float behaviour is what
    decides control flow: a Python float division by zero raises
    [ZeroDivisionError], whereas a numpy scalar division by zero yields
    nan or an infinity, and every ordered comparison with nan is false. *)

From Stdlib Require Import String Reals Lra Lia ZArith Bool List.
From Stdlib Require Import Sorting.Permutation Sorting.Sorted.
Import ListNotations.
Open Scope R_scope.

(** ** Python runtime fragments *)

Module Py.

(** Exceptions that the modelled code can meet: a float division by
    zero, and whatever the brokerage client raises. *)
Inductive exn : Type :=
| ZeroDivisionError
| APIError.

(** A computation either returns a value or raises. *)
Inductive result (A : Type) : Type :=
| Ok (a : A)
| Raise (e : exn).
Arguments Ok {A} a.
Arguments Raise {A} e.

Definition bind {A B : Type} (m : result A) (k : A -> result B) : result B :=
  match m with
  | Ok a => k a
  | Raise e => Raise e
  end.

(** A [for] loop that builds one value per element; the first exception
    aborts the loop. *)
Fixpoint for_each {A B : Type} (body : A -> result B) (l : list A)
  : result (list B) :=
  match l with
  | [] => Ok []
  | x :: tl =>
      bind (body x) (fun y =>
      bind (for_each body tl) (fun ys => Ok (y :: ys)))
  end.

(** [a / b] on Python floats. *)
Definition div (a b : R) : result R :=
  if Req_dec_T b 0 then Raise ZeroDivisionError else Ok (a / b).

(** [a < b] on finite floats, as a boolean. *)
Definition ltb (a b : R) : bool := if Rlt_dec a b then true else false.

(** The builtin [max(a, b)] keeps [a] unless [b > a]; [min(a, b)] keeps
    [a] unless [b < a].  Both only ever ask the comparison, so they are
    given here for any kind of number. *)
Definition max_with {A : Type} (lt : A -> A -> bool) (a b : A) : A :=
  if lt a b then b else a.

Definition min_with {A : Type} (lt : A -> A -> bool) (a b : A) : A :=
  if lt b a then b else a.

Definition max : R -> R -> R := max_with ltb.

Definition min : R -> R -> R := min_with ltb.

(** [not l] for a list: true exactly when the list is empty. *)
Definition not_list {A : Type} (l : list A) : bool :=
  match l with
  | [] => true
  | _ :: _ => false
  end.

(** [try: ... except: return None] around a body that returns a value or
    [None]. *)
Definition try_except_none {A : Type} (body : result (option A)) : option A :=
  match body with
  | Ok v => v
  | Raise _ => None
  end.

(** [l[start:]] with Python's treatment of a negative or oversized
    start. *)
Definition slice_from {A : Type} (start : Z) (l : list A) : list A :=
  let n := Z.of_nat (length l) in
  if (start <? 0)%Z
  then skipn (Z.to_nat (Z.max 0 (n + start))) l
  else skipn (Z.to_nat start) l.

(** [l[:stop]] for a non-negative stop. *)
Definition slice_to {A : Type} (stop : nat) (l : list A) : list A :=
  firstn stop l.

End Py.

Import Py.

Notation "x <- m ;; k" := (Py.bind m (fun x => k))
  (at level 61, m at next level, right associativity).

(** ** Lessons 2 and 3: profit and loss of a long option at expiration
    ([options_learning_guide.py]) *)

Module Guide.

(** One printed line of a scenario table. *)
Record Row : Type := mkRow {
  row_stock_price : R;
  row_option_value : R;
  row_profit_loss : R;
  row_pl_pct : R
}.

(** The first two assignments of the call loop body:
    [option_value = max(stock_price - strike, 0)] and
    [profit_loss = option_value - premium]. *)
Definition call_payoff (strike premium stock_price : R) : R * R :=
  let option_value := Py.max (stock_price - strike) 0 in
  let profit_loss := option_value - premium in
  (option_value, profit_loss).

(** The same for the put loop body, with
    [option_value = max(strike - stock_price, 0)]. *)
Definition put_payoff (strike premium stock_price : R) : R * R :=
  let option_value := Py.max (strike - stock_price) 0 in
  let profit_loss := option_value - premium in
  (option_value, profit_loss).

(** [pl_pct = (profit_loss / premium) * 100]. *)
Definition pl_pct (profit_loss premium : R) : result R :=
  q <- Py.div profit_loss premium ;;
  Ok (q * 100).

(** Whole body of the loop of [lesson_2_analyze_call_option]. *)
Definition call_row (strike premium stock_price : R) : result Row :=
  let '(option_value, profit_loss) := call_payoff strike premium stock_price in
  pct <- pl_pct profit_loss premium ;;
  Ok (mkRow stock_price option_value profit_loss pct).

(** Whole body of the loop of [lesson_3_analyze_put_option]. *)
Definition put_row (strike premium stock_price : R) : result Row :=
  let '(option_value, profit_loss) := put_payoff strike premium stock_price in
  pct <- pl_pct profit_loss premium ;;
  Ok (mkRow stock_price option_value profit_loss pct).

(** The example premium both lessons assume. *)
Definition premium : R := 3.

(** Scenario list of lesson 2. *)
Definition call_scenarios (current_price strike : R) : list (string * R) :=
  [ ("Stock drops to"%string, current_price - 10);
    ("Stock stays same"%string, current_price);
    ("Stock up slightly"%string, strike + premium / 2);
    ("Stock at breakeven"%string, strike + premium);
    ("Stock up nicely"%string, strike + premium + 5);
    ("Stock up big"%string, strike + premium + 10) ].

(** Scenario list of lesson 3. *)
Definition put_scenarios (current_price strike : R) : list (string * R) :=
  [ ("Stock up big"%string, current_price + 10);
    ("Stock up slightly"%string, current_price + 5);
    ("Stock stays same"%string, current_price);
    ("Stock at breakeven"%string, strike - premium);
    ("Stock down nicely"%string, strike - premium - 5);
    ("Stock down big"%string, strike - premium - 10) ].

(** The table of [lesson_2_analyze_call_option], for the quote and the
    at-the-money strike the brokerage returned. *)
Definition lesson_2_analyze_call_option (current_price strike : R)
  : result (list Row) :=
  Py.for_each (fun sc => call_row strike premium (snd sc))
              (call_scenarios current_price strike).

(** The table of [lesson_3_analyze_put_option]. *)
Definition lesson_3_analyze_put_option (current_price strike : R)
  : result (list Row) :=
  Py.for_each (fun sc => put_row strike premium (snd sc))
              (put_scenarios current_price strike).

(** Lesson 1 marks a strike with a star, "near current price (ATM)", when
    [abs(strike_price - current_price) < 5]. *)
Definition near_current_price (strike_price current_price : R) : bool :=
  Py.ltb (Rabs (strike_price - current_price)) 5.

End Guide.

(** ** numpy float64 scalars and the pandas reduction used by the scanner *)

Module Np.

(** A float64: a finite value, an infinity, or nan. *)
Inductive float64 : Type :=
| Fin (x : R)
| PInf
| NInf
| NaN.

(** Ordered comparison; false as soon as one side is nan. *)
Definition ltb (a b : float64) : bool :=
  match a, b with
  | NaN, _ | _, NaN => false
  | Fin x, Fin y => Py.ltb x y
  | NInf, Fin _ | NInf, PInf | Fin _, PInf => true
  | _, _ => false
  end.

(** Product; [0 * inf] is nan. *)
Definition mul (a b : float64) : float64 :=
  match a, b with
  | NaN, _ | _, NaN => NaN
  | Fin x, Fin y => Fin (x * y)
  | Fin x, PInf | PInf, Fin x =>
      if Rlt_dec 0 x then PInf else if Rlt_dec x 0 then NInf else NaN
  | Fin x, NInf | NInf, Fin x =>
      if Rlt_dec 0 x then NInf else if Rlt_dec x 0 then PInf else NaN
  | PInf, PInf | NInf, NInf => PInf
  | PInf, NInf | NInf, PInf => NInf
  end.

(** Quotient of two scalars.  Dividing by zero does not raise: numpy
    warns and yields nan for [0 / 0] and an infinity otherwise. *)
Definition div (a b : float64) : float64 :=
  match a, b with
  | NaN, _ | _, NaN => NaN
  | Fin x, Fin y =>
      if Req_dec_T y 0
      then (if Rlt_dec 0 x then PInf else if Rlt_dec x 0 then NInf else NaN)
      else Fin (x / y)
  | Fin _, PInf | Fin _, NInf => Fin 0
  | PInf, Fin y => if Rlt_dec y 0 then NInf else PInf
  | NInf, Fin y => if Rlt_dec y 0 then PInf else NInf
  | _, _ => NaN
  end.

Definition max : float64 -> float64 -> float64 := Py.max_with ltb.

Definition min : float64 -> float64 -> float64 := Py.min_with ltb.

End Np.

Module Pd.

Definition sum (l : list R) : R := fold_right Rplus 0 l.

Definition mean (l : list R) : R := sum l / INR (length l).

(** Sum of squared deviations from the mean. *)
Definition sum_sq_dev (l : list R) : R :=
  let m := mean l in
  sum (map (fun x => (x - m) * (x - m)) l).

(** Sample variance, with one delta degree of freedom; meaningful for two
    observations or more. *)
Definition var (l : list R) : R := sum_sq_dev l / (INR (length l) - 1).

(** [pd.Series(l).std()]: the square root of the sample variance, returned
    as a float64; nan when there are fewer than two observations. *)
Definition std (l : list R) : Np.float64 :=
  if (length l <=? 1)%nat
  then Np.NaN
  else Np.Fin (sqrt (var l)).

End Pd.

(** ** [options_scanner.py] *)

Module Scanner.

(** A daily bar; only its close is read. *)
Record Bar : Type := mkBar { close : R }.

(** An option contract of the chain; expiration dates are day numbers. *)
Record Contract : Type := mkContract {
  symbol : string;
  strike_price : R;
  expiration_date : Z
}.

(** [[(closes[i] - closes[i-1]) / closes[i-1] for i in range(1, len(closes))]] *)
Fixpoint daily_returns (closes : list R) : result (list R) :=
  match closes with
  | prev :: ((cur :: _) as tl) =>
      r <- Py.div (cur - prev) prev ;;
      rs <- daily_returns tl ;;
      Ok (r :: rs)
  | _ => Ok []
  end.

(** [pd.Series(rs).std() * (252 ** 0.5) * 100] *)
Definition annualized_vol (rs : list R) : Np.float64 :=
  Np.mul (Np.mul (Pd.std rs) (Np.Fin (sqrt 252))) (Np.Fin 100).

(** Body of the [try] block of [calculate_iv_rank], from the bars the data
    client returned (or the exception it raised). *)
Definition calculate_iv_rank_body (fetched : result (list Bar)) (days : Z)
  : result (option Np.float64) :=
  bars <- fetched ;;
  if Py.not_list bars || (length bars <? 20)%nat then Ok None else
  let closes := map close bars in
  returns <- daily_returns closes ;;
  let recent_vol := annualized_vol (Py.slice_from (- days) returns) in
  let all_vol := annualized_vol returns in
  Ok (Some (Np.min (Np.Fin 100)
              (Np.max (Np.Fin 0)
                 (Np.mul (Np.div recent_vol all_vol) (Np.Fin 100))))).

(** [calculate_iv_rank(symbol, days=30)]: a number or [None]. *)
Definition calculate_iv_rank (fetched : result (list Bar)) (days : Z)
  : option Np.float64 :=
  Py.try_except_none (calculate_iv_rank_body fetched days).

Definition default_days : Z := 30.

(** The three labels of the chain listing. *)
Inductive Moneyness : Type := ITM | ATM | OTM.

(** One printed line of the chain listing: the label and the percentage
    that the line shows next to it. *)
Record Line : Type := mkLine {
  line_strike : R;
  line_moneyness : Moneyness;
  line_pct : R
}.

(** The label chosen by the [if]/[elif]/[else] of both loops. *)
Definition label (distance : R) : Moneyness :=
  if Rlt_dec distance (-5) then ITM
  else if Rlt_dec (Rabs distance) 2 then ATM
  else OTM.

(** Body of [for call in exp_calls]: the line printed for a call, [None]
    when the strike is not within 15% of the current price. *)
Definition call_line (price : R) (call : Contract) : result (option Line) :=
  let distance := strike_price call - price in
  q <- Py.div distance price ;;
  let pct := q * 100 in
  if Rlt_dec (Rabs distance) (price * 0.15)
  then Ok (Some (mkLine (strike_price call) (label distance) pct))
  else Ok None.

(** Body of [for put in exp_puts]. *)
Definition put_line (price : R) (put : Contract) : result (option Line) :=
  let distance := price - strike_price put in
  q <- Py.div distance price ;;
  let pct := q * 100 in
  if Rlt_dec (Rabs distance) (price * 0.15)
  then Ok (Some (mkLine (strike_price put) (label distance) pct))
  else Ok None.

(** The two listings of [analyze_options_chain] for the contracts of the
    first expiration; [None] when the function returns early because
    [get_stock_price] gave [None] or a zero price. *)
Definition analyze_options_chain
  (price : option R) (exp_calls exp_puts : list Contract)
  : result (option (list (option Line) * list (option Line))) :=
  match price with
  | None => Ok None
  | Some price =>
      if Req_dec_T price 0 then Ok None else
      calls <- Py.for_each (call_line price) exp_calls ;;
      puts <- Py.for_each (put_line price) exp_puts ;;
      Ok (Some (calls, puts))
  end.

End Scanner.

(** ** [advanced_options_trading.py]: the premium heuristics of the
    covered-call and protective-put tables *)

Module Advanced.

Import Scanner.

(** [sorted(l, key=...)], stable: an element goes after every element whose
    key is not larger.  [before a b] says that key [a] must precede
    key [b]. *)
Fixpoint insert_by {A : Type} (before : R -> R -> bool) (key : A -> R)
  (x : A) (l : list A) : list A :=
  match l with
  | [] => [x]
  | y :: tl =>
      if before (key x) (key y) then x :: y :: tl
      else y :: insert_by before key x tl
  end.

Definition sorted_by {A : Type} (before : R -> R -> bool) (key : A -> R)
  (l : list A) : list A :=
  fold_left (fun acc x => insert_by before key x acc) l [].

(** [sorted(l, key=lambda x: x.strike_price)] *)
Definition sorted_by_strike (l : list Contract) : list Contract :=
  sorted_by Py.ltb strike_price l.

(** [sorted(l, key=lambda x: x.strike_price, reverse=True)] *)
Definition sorted_by_strike_desc (l : list Contract) : list Contract :=
  sorted_by (fun a b => Py.ltb b a) strike_price l.

(** One line of the covered-call table. *)
Record CallRow : Type := mkCallRow {
  cc_strike : R;
  cc_distance : R;
  cc_pct_otm : R;
  cc_est_premium : R;
  cc_total_profit : R;
  cc_annualized_return : R
}.

(** Body of [for call in calls[:5]] in [advanced_2_covered_call_strategy]. *)
Definition covered_call_row (current_price : R) (call : Contract)
  : result CallRow :=
  let distance := strike_price call - current_price in
  q <- Py.div distance current_price ;;
  let pct_otm := q * 100 in
  let est_premium := Py.max 0.5 (distance * 0.1) * 100 in
  let stock_gain := distance * 100 in
  let total_profit := stock_gain + est_premium in
  q' <- Py.div total_profit (current_price * 100) ;;
  let annualized_return := q' * (365 / 30) * 100 in
  Ok (mkCallRow (strike_price call) distance pct_otm est_premium
        total_profit annualized_return).

(** The table of [advanced_2_covered_call_strategy]: the calls above the
    current price, by strike, the first five of them; [None] when there is
    no such call and the function returns early. *)
Definition advanced_2_covered_call_strategy
  (current_price : R) (option_contracts : list Contract)
  : result (option (list CallRow)) :=
  let calls :=
    filter (fun c => Py.ltb current_price (strike_price c)) option_contracts in
  match calls with
  | [] => Ok None
  | _ =>
      let calls := sorted_by_strike calls in
      rows <- Py.for_each (covered_call_row current_price)
                (Py.slice_to 5 calls) ;;
      Ok (Some rows)
  end.

(** One line of the protective-put table. *)
Record PutRow : Type := mkPutRow {
  pp_strike : R;
  pp_days_to_exp : Z;
  pp_pct_below : R;
  pp_est_premium : R;
  pp_max_loss : R;
  pp_max_loss_pct : R
}.

(** Body of [for put in puts[:5]] in [advanced_3_protective_put_strategy];
    [today] is the day number of [datetime.now().date()]. *)
Definition protective_put_row (current_price : R) (today : Z) (put : Contract)
  : result PutRow :=
  let distance := current_price - strike_price put in
  q <- Py.div distance current_price ;;
  let pct_below := q * 100 in
  let days_to_exp := (expiration_date put - today)%Z in
  let est_premium :=
    Py.max 1.0 (distance * 0.15
                + (IZR days_to_exp / 365) * current_price * 0.02) * 100 in
  let max_loss := distance * 100 + est_premium in
  q' <- Py.div max_loss (current_price * 100) ;;
  let max_loss_pct := q' * 100 in
  Ok (mkPutRow (strike_price put) days_to_exp pct_below est_premium
        max_loss max_loss_pct).

(** The table of [advanced_3_protective_put_strategy]: the puts below the
    current price, highest strike first, the first five of them. *)
Definition advanced_3_protective_put_strategy
  (current_price : R) (today : Z) (option_contracts : list Contract)
  : result (option (list PutRow)) :=
  let puts :=
    filter (fun p => Py.ltb (strike_price p) current_price) option_contracts in
  match puts with
  | [] => Ok None
  | _ =>
      let puts := sorted_by_strike_desc puts in
      rows <- Py.for_each (protective_put_row current_price today)
                (Py.slice_to 5 puts) ;;
      Ok (Some rows)
  end.

End Advanced.

(** ** The volatility-rank formula as the specification words it *)

Module Spec.

(** Step 1: [r[i] = (close[i] - close[i-1]) / close[i-1]], undefined when
    a divisor is zero. *)
Fixpoint returns (closes : list R) : option (list R) :=
  match closes with
  | prev :: ((cur :: _) as tl) =>
      if Req_dec_T prev 0 then None
      else option_map (cons ((cur - prev) / prev)) (returns tl)
  | _ => Some []
  end.

(** Sample standard deviation, defined for two observations or more. *)
Definition stddev (l : list R) : option R :=
  let n := length l in
  if (n <? 2)%nat then None
  else
    let m := fold_right Rplus 0 l / INR n in
    Some (sqrt (fold_right Rplus 0 (map (fun x => (x - m) ^ 2) l)
                / INR (n - 1))).

(** The last [n] elements (all of them when there are fewer). *)
Definition last_n {A : Type} (n : nat) (l : list A) : list A :=
  skipn (length l - n) l.

(** Annualized volatility in percent: [stddev * sqrt(252) * 100]. *)
Definition vol (rs : list R) : option R :=
  option_map (fun s => s * sqrt 252 * 100) (stddev rs).

Definition clamp (x lo hi : R) : R := Rmax lo (Rmin x hi).

(** Step 3 on its own: the full-sample volatility of a close history. *)
Definition full_vol (closes : list R) : option R :=
  match returns closes with
  | Some rs => vol rs
  | None => None
  end.

(** Steps 1 to 4; undefined when a return, a standard deviation or the
    quotient [recent_vol / full_vol] is. *)
Definition volatility_rank (closes : list R) (window : nat) : option R :=
  match returns closes with
  | None => None
  | Some rs =>
      match vol (last_n window rs), vol rs with
      | Some recent_vol, Some full_vol =>
          if Req_dec_T full_vol 0 then None
          else Some (clamp (recent_vol / full_vol * 100) 0 100)
      | _, _ => None
      end
  end.

(** The observation threshold: [2 * N] or 20, whichever is larger. *)
Definition min_observations (window : nat) : nat := Nat.max (2 * window) 20.

End Spec.

(** ** Sample inputs *)

Module Examples.

Import Scanner.

(** Sixty daily bars that all close at 100. *)
Definition flat_history : list Bar := repeat (mkBar 100) 60.

(** Twenty daily bars: a close of 100 followed by nineteen closes of 110. *)
Definition short_history : list Bar := mkBar 100 :: repeat (mkBar 110) 19.

(** A small chain around an underlying at 100, expiring on day 30. *)
Definition chain : list Contract :=
  [ mkContract "X95" 95 30; mkContract "X105" 105 30;
    mkContract "X90" 90 30; mkContract "X110" 110 30 ].

End Examples.


(** ** More of the Python runtime: builtins that raise other exceptions *)

Module PyMore.

(** What a function of the scripts can raise when it is not wrapped in a
    [try]: an exception of the earlier kind, or one of the builtin errors
    below. *)
Inductive raised : Type :=
| Propagated (e : Py.exn)
| ValueError
| IndexError
| KeyError
| AttributeError.

Inductive outcome (A : Type) : Type :=
| Returned (a : A)
| Raised (e : raised).
Arguments Returned {A} a.
Arguments Raised {A} e.

Definition obind {A B : Type} (m : outcome A) (k : A -> outcome B)
  : outcome B :=
  match m with
  | Returned a => k a
  | Raised e => Raised e
  end.

Definition of_result {A : Type} (r : result A) : outcome A :=
  match r with
  | Ok a => Returned a
  | Raise e => Raised (Propagated e)
  end.

(** The loop of [min(l, key=key)] once a first element is at hand: a later
    element replaces the current one only when its key is strictly
    smaller. *)
Fixpoint min_from {A : Type} (key : A -> R) (best : A) (l : list A) : A :=
  match l with
  | [] => best
  | x :: tl => min_from key (if Py.ltb (key x) (key best) then x else best) tl
  end.

(** [min(l, key=key)]; raises [ValueError] on an empty list. *)
Definition min_by {A : Type} (key : A -> R) (l : list A) : outcome A :=
  match l with
  | [] => Raised ValueError
  | x :: tl => Returned (min_from key x tl)
  end.

(** [l[i]] for an index [i >= 0]. *)
Definition index {A : Type} (l : list A) (i : nat) : outcome A :=
  match nth_error l i with
  | Some x => Returned x
  | None => Raised IndexError
  end.

(** [next((x for x in l if p(x)), None)], also the [for]/[if]/[break]
    search. *)
Definition next_or_none {A : Type} (p : A -> bool) (l : list A) : option A :=
  find p l.

(** [x.attr] where [x] may be [None]. *)
Definition attr {A B : Type} (x : option A) (field : A -> B) : outcome B :=
  match x with
  | Some a => Returned (field a)
  | None => Raised AttributeError
  end.

(** [sorted(l, key=key)] and [l.sort(key=key)] for keys of any kind, stable;
    [before a b] says that key [a] must precede key [b]. *)
Fixpoint insert_on {A K : Type} (before : K -> K -> bool) (key : A -> K)
  (x : A) (l : list A) : list A :=
  match l with
  | [] => [x]
  | y :: tl =>
      if before (key x) (key y) then x :: y :: tl
      else y :: insert_on before key x tl
  end.

Definition sorted_on {A K : Type} (before : K -> K -> bool) (key : A -> K)
  (l : list A) : list A :=
  fold_left (fun acc x => insert_on before key x acc) l [].

(** [sorted(set(l))] for day numbers. *)
Fixpoint insert_date (d : Z) (l : list Z) : list Z :=
  match l with
  | [] => [d]
  | e :: tl =>
      if (d <? e)%Z then d :: e :: tl
      else if (d =? e)%Z then e :: tl
      else e :: insert_date d tl
  end.

Definition sorted_set (l : list Z) : list Z :=
  fold_left (fun acc d => insert_date d acc) l [].

(** Truth value of a float that may be [None]: false for [None] and for
    zero. *)
Definition truthy (x : option R) : bool :=
  match x with
  | None => false
  | Some v => if Req_dec_T v 0 then false else true
  end.

(** The same for a float64 that may be [None]; nan and the infinities are
    true. *)
Definition truthy64 (x : option Np.float64) : bool :=
  match x with
  | None => false
  | Some (Np.Fin v) => if Req_dec_T v 0 then false else true
  | Some _ => true
  end.

End PyMore.

Import PyMore.

Notation "x <~ m ;; k" := (PyMore.obind m (fun x => k))
  (at level 61, m at next level, right associativity).

(** ** The brokerage clients, as the scripts use them *)

Module Broker.

Import Scanner.

Record Quote : Type := mkQuote { ask_price : R; bid_price : R }.

Inductive ContractType : Type := CALL | PUT.

(** A [GetOptionContractsRequest]; the two date bounds are day numbers. *)
Record Request : Type := mkRequest {
  underlying_symbol : string;
  expiration_date_gte : Z;
  expiration_date_lte : Z;
  type : option ContractType;
  limit : nat
}.

(** A contract of a response together with its [type]. *)
Record Listing : Type := mkListing {
  listed : Contract;
  contract_type : ContractType
}.

(** The three read-only calls: latest quote, daily bars over the given
    number of calendar days back from now, option contracts.  Each
    returns its data or raises. *)
Record Client : Type := mkClient {
  get_stock_latest_quote : string -> result Quote;
  get_stock_bars : string -> Z -> result (list Bar);
  get_option_contracts : Request -> result (list Listing)
}.

(** The contracts of a response where their type is not looked at. *)
Definition option_contracts (c : Client) (request : Request)
  : result (list Contract) :=
  l <- get_option_contracts c request ;;
  Ok (map listed l).

(** [(quote.ask_price + quote.bid_price) / 2] *)
Definition mid (q : Quote) : R := (ask_price q + bid_price q) / 2.

End Broker.

(** ** [options_scanner.py]: price lookup, the two scans and the whole of
    the chain analysis *)

Module Scan.

Import Scanner Broker.

(** [get_stock_price(symbol)]: the mid price, [None] on any exception. *)
Definition get_stock_price (c : Client) (symbol : string) : option R :=
  Py.try_except_none
    (quote <- get_stock_latest_quote c symbol ;;
     Ok (Some (mid quote))).

(** [calculate_iv_rank(symbol, days)] with its own fetch of [days * 3]
    calendar days of bars. *)
Definition calculate_iv_rank (c : Client) (symbol : string) (days : Z)
  : option Np.float64 :=
  Scanner.calculate_iv_rank (get_stock_bars c symbol (days * 3)) days.

(** One entry of [results]. *)
Record Hit : Type := mkHit {
  hit_symbol : string;
  hit_price : R;
  hit_iv_rank : Np.float64;
  hit_atm_strike : R;
  hit_expiry : Z
}.

(** The request of both scans: calls expiring within 45 days, ten at
    most. *)
Definition scan_request (today : Z) (symbol : string) : Request :=
  mkRequest symbol today (today + 45) (Some CALL) 10.

(** Body of the [try] of [scan_high_iv_opportunities] for one symbol:
    the entry to append, or [None] where the loop continues or appends
    nothing. *)
Definition high_iv_candidate (c : Client) (today : Z)
  (min_price max_price : R) (symbol : string) : outcome (option Hit) :=
  let price := get_stock_price c symbol in
  match price with
  | None => Returned None
  | Some p =>
      if negb (truthy price) || Py.ltb p min_price || Py.ltb max_price p
      then Returned None else
      let iv_rank := calculate_iv_rank c symbol default_days in
      match iv_rank with
      | None => Returned None
      | Some iv =>
          if negb (truthy64 iv_rank) || Np.ltb iv (Np.Fin 50)
          then Returned None else
          options <~ of_result (option_contracts c (scan_request today symbol)) ;;
          if Py.not_list options then Returned None else
          atm_option <~ min_by (fun x => Rabs (strike_price x - p)) options ;;
          Returned (Some (mkHit symbol p iv (strike_price atm_option)
                            (expiration_date atm_option)))
      end
  end.

(** The same for [scan_low_iv_opportunities]: the rank test is
    [not iv_rank or iv_rank > 50]. *)
Definition low_iv_candidate (c : Client) (today : Z)
  (min_price max_price : R) (symbol : string) : outcome (option Hit) :=
  let price := get_stock_price c symbol in
  match price with
  | None => Returned None
  | Some p =>
      if negb (truthy price) || Py.ltb p min_price || Py.ltb max_price p
      then Returned None else
      let iv_rank := calculate_iv_rank c symbol default_days in
      match iv_rank with
      | None => Returned None
      | Some iv =>
          if negb (truthy64 iv_rank) || Np.ltb (Np.Fin 50) iv
          then Returned None else
          options <~ of_result (option_contracts c (scan_request today symbol)) ;;
          if Py.not_list options then Returned None else
          atm_option <~ min_by (fun x => Rabs (strike_price x - p)) options ;;
          Returned (Some (mkHit symbol p iv (strike_price atm_option)
                            (expiration_date atm_option)))
      end
  end.

(** [for symbol in symbols: try: ... except: continue], collecting the
    appended entries in order. *)
Fixpoint collect (body : string -> outcome (option Hit))
  (symbols : list string) : list Hit :=
  match symbols with
  | [] => []
  | symbol :: tl =>
      match body symbol with
      | Returned (Some hit) => hit :: collect body tl
      | _ => collect body tl
      end
  end.

(** One printed line of a scan. *)
Record ScanLine : Type := mkScanLine {
  sl_symbol : string;
  sl_price : R;
  sl_iv_rank : Np.float64;
  sl_strategy : string
}.

(** [scan_high_iv_opportunities(symbols, min_price, max_price)]: the lines
    printed, [None] when nothing was found. *)
Definition scan_high_iv_opportunities (c : Client) (today : Z)
  (symbols : list string) (min_price max_price : R)
  : option (list ScanLine) :=
  let results := collect (high_iv_candidate c today min_price max_price) symbols in
  if Py.not_list results then None else
  let results := sorted_on (fun a b => Np.ltb b a) hit_iv_rank results in
  Some (map (fun r =>
               mkScanLine (hit_symbol r) (hit_price r) (hit_iv_rank r)
                 (if Py.ltb (hit_price r) 200
                  then "Covered Call" else "Cash-Secured Put")%string)
            (Py.slice_to 10 results)).

(** [scan_low_iv_opportunities(symbols, min_price, max_price)] *)
Definition scan_low_iv_opportunities (c : Client) (today : Z)
  (symbols : list string) (min_price max_price : R)
  : option (list ScanLine) :=
  let results := collect (low_iv_candidate c today min_price max_price) symbols in
  if Py.not_list results then None else
  let results := sorted_on Np.ltb hit_iv_rank results in
  Some (map (fun r =>
               mkScanLine (hit_symbol r) (hit_price r) (hit_iv_rank r)
                 (if Np.ltb (hit_iv_rank r) (Np.Fin 25)
                  then "Long Call/Put" else "Debit Spread")%string)
            (Py.slice_to 10 results)).

(** The status line under the price in [analyze_options_chain]; nothing is
    printed when [iv_rank] is [None] or zero. *)
Inductive IvStatus : Type := VERY_HIGH | HIGH | LOW | MEDIUM.

Definition iv_status (iv_rank : option Np.float64) : option IvStatus :=
  match iv_rank with
  | None => None
  | Some iv =>
      if truthy64 iv_rank then
        Some (if Np.ltb (Np.Fin 75) iv then VERY_HIGH
              else if Np.ltb (Np.Fin 50) iv then HIGH
              else if Np.ltb iv (Np.Fin 25) then LOW
              else MEDIUM)
      else None
  end.

(** The block of strategy recommendations, with the strikes it quotes. *)
Inductive Advice : Type :=
| HighIV (sell_put_strike : R)
| LowIV (call_strike call_alt_strike put_strike put_alt_strike : R)
| MediumIV.

Definition recommend (iv_rank : option Np.float64) (price : R)
  (atm_call atm_put : option Contract) : outcome Advice :=
  match iv_rank with
  | None => Returned MediumIV
  | Some iv =>
      if truthy64 iv_rank && Np.ltb (Np.Fin 60) iv then
        kp <~ attr atm_put strike_price ;;
        Returned (HighIV (kp - price * 0.05))
      else if truthy64 iv_rank && Np.ltb iv (Np.Fin 40) then
        kc <~ attr atm_call strike_price ;;
        kp <~ attr atm_put strike_price ;;
        Returned (LowIV kc (kc + price * 0.05) kp (kp - price * 0.05))
      else Returned MediumIV
  end.

(** [min(l, key=lambda x: abs(x.strike_price - price)) if l else None] *)
Definition atm_or_none (price : R) (l : list Contract) : option Contract :=
  match l with
  | [] => None
  | x :: tl => Some (min_from (fun x => Rabs (strike_price x - price)) x tl)
  end.

Record Report : Type := mkReport {
  rep_price : R;
  rep_status : option IvStatus;
  rep_expirations : list (Z * Z);
  rep_first_expiration : Z;
  rep_calls : list (option Line);
  rep_puts : list (option Line);
  rep_advice : Advice
}.

(** [analyze_options_chain(symbol, days_to_expiry)]: what is printed, or
    [None] on one of the early returns. *)
Definition analyze_options_chain (c : Client) (today : Z) (symbol : string)
  (days_to_expiry : Z) : outcome (option Report) :=
  let price := get_stock_price c symbol in
  match price with
  | None => Returned None
  | Some p =>
      if negb (truthy price) then Returned None else
      let iv_rank := calculate_iv_rank c symbol default_days in
      calls <~ of_result
                 (option_contracts c
                    (mkRequest symbol today (today + days_to_expiry)
                       (Some CALL) 100)) ;;
      puts <~ of_result
                (option_contracts c
                   (mkRequest symbol today (today + days_to_expiry)
                      (Some PUT) 100)) ;;
      if Py.not_list calls && Py.not_list puts then Returned None else
      let expirations := sorted_set (map expiration_date (calls ++ puts)) in
      let shown :=
        map (fun exp => (exp, (exp - today)%Z)) (Py.slice_to 5 expirations) in
      match expirations with
      | [] => Returned None
      | exp :: _ =>
          let exp_calls :=
            Advanced.sorted_by_strike
              (filter (fun k => (expiration_date k =? exp)%Z) calls) in
          let exp_puts :=
            Advanced.sorted_by_strike
              (filter (fun k => (expiration_date k =? exp)%Z) puts) in
          let atm_call := atm_or_none p exp_calls in
          let atm_put := atm_or_none p exp_puts in
          call_lines <~ of_result (Py.for_each (call_line p) exp_calls) ;;
          put_lines <~ of_result (Py.for_each (put_line p) exp_puts) ;;
          advice <~ recommend iv_rank p atm_call atm_put ;;
          Returned (Some (mkReport p (iv_status iv_rank) shown exp
                            call_lines put_lines advice))
      end
  end.

End Scan.

(** ** [options_learning_guide.py]: the lessons from the quote and the
    chain on *)

Module Lessons.

Import Scanner Broker.

(** The dict [by_expiry]: expiration date to the pair of its ['calls'] and
    ['puts'] lists, keys in insertion order. *)
Definition Groups : Type := list (Z * (list Listing * list Listing)).

Fixpoint has_key (exp : Z) (d : Groups) : bool :=
  match d with
  | [] => false
  | (e, _) :: tl => (e =? exp)%Z || has_key exp tl
  end.

(** [d[exp]] *)
Fixpoint get (exp : Z) (d : Groups) : outcome (list Listing * list Listing) :=
  match d with
  | [] => Raised KeyError
  | (e, v) :: tl => if (e =? exp)%Z then Returned v else get exp tl
  end.

(** In-place change of the entry of a key that is present. *)
Fixpoint update (exp : Z)
  (f : list Listing * list Listing -> list Listing * list Listing)
  (d : Groups) : Groups :=
  match d with
  | [] => []
  | (e, v) :: tl =>
      if (e =? exp)%Z then (e, f v) :: tl else (e, v) :: update exp f tl
  end.

(** Body of [for opt in options.option_contracts]. *)
Definition add_option (d : Groups) (opt : Listing) : Groups :=
  let exp := expiration_date (listed opt) in
  let d := if has_key exp d then d else d ++ [(exp, ([], []))] in
  match contract_type opt with
  | CALL => update exp (fun v => (fst v ++ [opt], snd v)) d
  | PUT => update exp (fun v => (fst v, snd v ++ [opt])) d
  end.

Definition group_by_expiry (options : list Listing) : Groups :=
  fold_left add_option options [].

(** One printed line of lesson 1: a call and a put side by side, each with
    its near-the-money mark. *)
Record ChainRow : Type := mkChainRow {
  row_call : Listing;
  row_call_mark : bool;
  row_put : Listing;
  row_put_mark : bool
}.

Record ChainView : Type := mkChainView {
  view_by_expiry : Groups;
  view_first_expiry : Z;
  view_rows : list ChainRow
}.

(** [lesson_1_get_options_chain(symbol, days_to_expiry)] *)
Definition lesson_1_get_options_chain (c : Client) (today : Z)
  (symbol : string) (days_to_expiry : Z) : outcome (option ChainView) :=
  quote <~ of_result (get_stock_latest_quote c symbol) ;;
  let current_price := mid quote in
  options <~ of_result
               (get_option_contracts c
                  (mkRequest symbol today (today + days_to_expiry) None 100)) ;;
  if Py.not_list options then Returned None else
  let by_expiry := group_by_expiry options in
  first_expiry <~ index (sorted_on Z.ltb (fun e : Z => e) (map fst by_expiry)) 0 ;;
  entry <~ get first_expiry by_expiry ;;
  let calls := sorted_on Py.ltb (fun x => strike_price (listed x)) (fst entry) in
  let puts := sorted_on Py.ltb (fun x => strike_price (listed x)) (snd entry) in
  Returned
    (Some (mkChainView by_expiry first_expiry
             (map (fun cp =>
                     mkChainRow (fst cp)
                       (Guide.near_current_price
                          (strike_price (listed (fst cp))) current_price)
                       (snd cp)
                       (Guide.near_current_price
                          (strike_price (listed (snd cp))) current_price))
                  (combine (Py.slice_to 10 calls) (Py.slice_to 10 puts))))).

(** [lesson_2_analyze_call_option(symbol)]: the table and the contract it
    returns. *)
Definition lesson_2_analyze_call_option (c : Client) (today : Z)
  (symbol : string) : outcome (list Guide.Row * Contract) :=
  quote <~ of_result (get_stock_latest_quote c symbol) ;;
  let current_price := mid quote in
  calls <~ of_result
             (option_contracts c
                (mkRequest symbol today (today + 30) (Some CALL) 50)) ;;
  atm_call <~ min_by (fun x => Rabs (strike_price x - current_price)) calls ;;
  rows <~ of_result
            (Guide.lesson_2_analyze_call_option current_price
               (strike_price atm_call)) ;;
  Returned (rows, atm_call).

(** [lesson_3_analyze_put_option(symbol)] *)
Definition lesson_3_analyze_put_option (c : Client) (today : Z)
  (symbol : string) : outcome (list Guide.Row * Contract) :=
  quote <~ of_result (get_stock_latest_quote c symbol) ;;
  let current_price := mid quote in
  puts <~ of_result
            (option_contracts c
               (mkRequest symbol today (today + 30) (Some PUT) 50)) ;;
  atm_put <~ min_by (fun x => Rabs (strike_price x - current_price)) puts ;;
  rows <~ of_result
            (Guide.lesson_3_analyze_put_option current_price
               (strike_price atm_put)) ;;
  Returned (rows, atm_put).

(** The three example contracts of lesson 4; the in-the-money one comes
    with the intrinsic value printed next to it. *)
Record MoneynessExamples : Type := mkMoneynessExamples {
  ex_itm : option (Contract * R);
  ex_atm : Contract;
  ex_otm : option Contract
}.

(** The part of [lesson_4_moneyness_comparison] below the fetch. *)
Definition moneyness_examples (current_price : R)
  (option_contracts : list Contract) : outcome MoneynessExamples :=
  let calls := Advanced.sorted_by_strike option_contracts in
  let itm_call :=
    next_or_none (fun k => Py.ltb (strike_price k) (current_price - 5)) calls in
  atm_call <~ min_by (fun x => Rabs (strike_price x - current_price)) calls ;;
  let otm_call :=
    next_or_none (fun k => Py.ltb (current_price + 5) (strike_price k)) calls in
  Returned
    (mkMoneynessExamples
       (option_map (fun k => (k, current_price - strike_price k)) itm_call)
       atm_call otm_call).

(** [lesson_4_moneyness_comparison(symbol)] *)
Definition lesson_4_moneyness_comparison (c : Client) (today : Z)
  (symbol : string) : outcome MoneynessExamples :=
  quote <~ of_result (get_stock_latest_quote c symbol) ;;
  contracts <~ of_result
                 (option_contracts c
                    (mkRequest symbol today (today + 30) (Some CALL) 100)) ;;
  moneyness_examples (mid quote) contracts.

(** The loop of lesson 5, [for days in expirations: ...], threading the
    list [atm_options] that the body appends to. *)
Fixpoint for_loop {A S : Type} (body : S -> A -> outcome S) (l : list A)
  (s : S) : outcome S :=
  match l with
  | [] => Returned s
  | x :: tl => s' <~ body s x ;; for_loop body tl s'
  end.

(** The request of lesson 5 for the calls that expire exactly [days] from
    today. *)
Definition lesson_5_request (today : Z) (symbol : string) (days : Z)
  : Request :=
  mkRequest symbol (today + days) (today + days) (Some CALL) 50.

(** Whether the request for [days] is answered with at least one call:
    the test [if calls] of the loop. *)
Definition has_calls (c : Client) (today : Z) (symbol : string)
  (days : Z) : bool :=
  match option_contracts c (lesson_5_request today symbol days) with
  | Ok (_ :: _) => true
  | _ => false
  end.

(** The body of the loop: [if calls: atm = min(calls, key=...);
    atm_options.append((days, atm))]. *)
Definition lesson_5_step (c : Client) (today : Z) (symbol : string)
  (current_price : R) (atm_options : list (Z * Contract)) (days : Z)
  : outcome (list (Z * Contract)) :=
  calls <~ of_result
             (option_contracts c (lesson_5_request today symbol days)) ;;
  if Py.not_list calls then Returned atm_options else
  atm <~ min_by (fun x => Rabs (strike_price x - current_price)) calls ;;
  Returned (atm_options ++ [(days, atm)]).

Definition expirations : list Z := [7; 30; 60; 90]%Z.

(** [lesson_5_time_decay(symbol)]: the lines of the table it prints. *)
Definition lesson_5_time_decay (c : Client) (today : Z) (symbol : string)
  : outcome (list (Z * Contract)) :=
  quote <~ of_result (get_stock_latest_quote c symbol) ;;
  let current_price := mid quote in
  for_loop (lesson_5_step c today symbol current_price) expirations [].

End Lessons.

(** ** [advanced_options_trading.py]: the examples under the two strategy
    tables and the chain examples of the Greeks lesson *)

Module Strategies.

Import Scanner Broker.

(** The examples at the end of [advanced_1_greeks_explained]: the first
    call more than 10 below the price, the closest call, the first call
    more than 10 above, from the calls sorted by strike. *)
Definition greeks_examples (current_price : R)
  (option_contracts : list Contract)
  : outcome (option Contract * Contract * option Contract) :=
  let calls := Advanced.sorted_by_strike option_contracts in
  let itm :=
    next_or_none (fun k => Py.ltb (strike_price k) (current_price - 10)) calls in
  atm <~ min_by (fun x => Rabs (strike_price x - current_price)) calls ;;
  let otm :=
    next_or_none (fun k => Py.ltb (current_price + 10) (strike_price k)) calls in
  Returned (itm, atm, otm).

(** What [advanced_2_covered_call_strategy] prints: the table, the example
    call with its estimated premium, and the prices of the four
    scenarios. *)
Record CoveredCall : Type := mkCoveredCall {
  cc_rows : list Advanced.CallRow;
  cc_example_call : Contract;
  cc_example_premium : R;
  cc_scenarios : list R
}.

(** [advanced_2_covered_call_strategy], from the quote's mid price and the
    contracts of the response on. *)
Definition covered_call (current_price : R) (option_contracts : list Contract)
  : outcome (option CoveredCall) :=
  table <~ of_result
             (Advanced.advanced_2_covered_call_strategy current_price
                option_contracts) ;;
  match table with
  | None => Returned None
  | Some rows =>
      let calls :=
        Advanced.sorted_by_strike
          (filter (fun k => Py.ltb current_price (strike_price k))
                  option_contracts) in
      example_call <~ index calls 0 ;;
      let est_premium :=
        Py.max 0.5 ((strike_price example_call - current_price) * 0.1) * 100 in
      Returned
        (Some (mkCoveredCall rows example_call est_premium
                 [ current_price * 0.95; current_price;
                   strike_price example_call;
                   strike_price example_call * 1.05 ]))
  end.

(** One line of the scenario table of the protective put. *)
Record PutScenario : Type := mkPutScenario {
  ps_price : R;
  ps_stock_pl : R;
  ps_put_value : R;
  ps_net_pl : R
}.

(** Body of [for scenario, price in scenarios]. *)
Definition put_scenario (current_price strike est_premium price : R)
  : PutScenario :=
  let stock_pl := (price - current_price) * 100 in
  let put_value := Py.max (strike - price) 0 * 100 in
  let net_pl := stock_pl + put_value - est_premium in
  mkPutScenario price stock_pl put_value net_pl.

Record ProtectivePut : Type := mkProtectivePut {
  pp_rows : list Advanced.PutRow;
  pp_example_put : Contract;
  pp_example_premium : R;
  pp_scenarios : list PutScenario;
  pp_max_loss_shown : R;
  pp_cost_per_day : R
}.

(** [advanced_3_protective_put_strategy], from the quote's mid price and
    the contracts of the response on. *)
Definition protective_put (current_price : R) (today : Z)
  (option_contracts : list Contract) : outcome (option ProtectivePut) :=
  table <~ of_result
             (Advanced.advanced_3_protective_put_strategy current_price today
                option_contracts) ;;
  match table with
  | None => Returned None
  | Some rows =>
      let puts :=
        Advanced.sorted_by_strike_desc
          (filter (fun k => Py.ltb (strike_price k) current_price)
                  option_contracts) in
      example_put <~ index puts 2 ;;
      let est_premium :=
        Py.max 1.0 ((current_price - strike_price example_put) * 0.15) * 100 in
      let scenarios :=
        map (put_scenario current_price (strike_price example_put) est_premium)
            [ current_price * 0.70; current_price * 0.85;
              strike_price example_put; current_price;
              current_price * 1.10; current_price * 1.30 ] in
      let max_loss :=
        (current_price - strike_price example_put) * 100 + est_premium in
      cost_per_day <~ of_result
                        (Py.div est_premium
                           (IZR (expiration_date example_put - today))) ;;
      Returned
        (Some (mkProtectivePut rows example_put est_premium scenarios
                 max_loss cost_per_day))
  end.

End Strategies.

(** ** A sample brokerage *)

Module Samples.

Import Scanner Broker.

(** Calls and puts around an underlying at 100: a weekly call expiring on
    day 7, calls and puts expiring on day 30, and a call expiring on
    day 60. *)
Definition listings : list Listing :=
  [ mkListing (mkContract "C105" 105 30) CALL;
    mkListing (mkContract "P97" 97 30) PUT;
    mkListing (mkContract "C90" 90 30) CALL;
    mkListing (mkContract "C100W" 100 7) CALL;
    mkListing (mkContract "P99" 99 30) PUT;
    mkListing (mkContract "C120" 120 60) CALL;
    mkListing (mkContract "P85" 85 30) PUT;
    mkListing (mkContract "C95" 95 30) CALL;
    mkListing (mkContract "P92" 92 30) PUT ].

Definition same_type (a b : ContractType) : bool :=
  match a, b with
  | CALL, CALL | PUT, PUT => true
  | _, _ => false
  end.

(** The listings that match a request by type and expiration range. *)
Definition answer (request : Request) : list Listing :=
  filter (fun l =>
            match type request with
            | None => true
            | Some t => same_type t (contract_type l)
            end
            && (expiration_date_gte request <=? expiration_date (listed l))%Z
            && (expiration_date (listed l) <=? expiration_date_lte request)%Z)
         listings.

(** Four puts struck below 100, all expiring on day 30. *)
Definition puts_below : list Contract :=
  [ mkContract "P97" 97 30; mkContract "P99" 99 30;
    mkContract "P85" 85 30; mkContract "P92" 92 30 ].

(** Thirty-two daily bars: 100, then 200, then thirty closes of 220.  The
    one large move lies outside the window of the last thirty returns. *)
Definition calm_history : list Bar :=
  mkBar 100 :: mkBar 200 :: repeat (mkBar 220) 30.

(** Every symbol quotes 99 bid, 101 asked, except "NONE", which has no
    quote; "FLAT" has sixty flat bars, "THIN" nineteen bars, "CALM" the
    calm history, every other symbol the twenty bars of the short history;
    every request is answered from [listings]. *)
Definition client : Client :=
  mkClient
    (fun symbol =>
       if String.eqb symbol "NONE" then Raise APIError
       else Ok (mkQuote 101 99))
    (fun symbol _ =>
       if String.eqb symbol "FLAT" then Ok Examples.flat_history
       else if String.eqb symbol "THIN" then Ok (repeat (mkBar 100) 19)
       else if String.eqb symbol "CALM" then Ok calm_history
       else Ok Examples.short_history)
    (fun request => Ok (answer request)).

End Samples.

(** * Properties *)

(** ** The Python fragments *)

Lemma py_max_Rmax (a b : R) : Py.max a b = Rmax a b.
Proof.
  unfold Py.max, Py.max_with, Py.ltb, Rmax.
  destruct (Rlt_dec a b), (Rle_dec a b); lra.
Qed.

Lemma py_min_Rmin (a b : R) : Py.min a b = Rmin a b.
Proof.
  unfold Py.min, Py.min_with, Py.ltb, Rmin.
  destruct (Rlt_dec b a), (Rle_dec a b); lra.
Qed.

Lemma py_div_ok (a b : R) : b <> 0 -> Py.div a b = Ok (a / b).
Proof.
  intros Hb. unfold Py.div. destruct (Req_dec_T b 0); [contradiction | reflexivity].
Qed.

Lemma py_div_zero (a : R) : Py.div a 0 = Raise ZeroDivisionError.
Proof.
  unfold Py.div. destruct (Req_dec_T 0 0) as [_ | Hne]; [reflexivity | now elim Hne].
Qed.

Lemma py_ltb_true (a b : R) : a < b -> Py.ltb a b = true.
Proof. intros H. unfold Py.ltb. destruct (Rlt_dec a b); [reflexivity | contradiction]. Qed.

Lemma py_ltb_false (a b : R) : b <= a -> Py.ltb a b = false.
Proof. intros H. unfold Py.ltb. destruct (Rlt_dec a b); [lra | reflexivity]. Qed.

Lemma py_ltb_spec (a b : R) : Py.ltb a b = true <-> a < b.
Proof.
  unfold Py.ltb. destruct (Rlt_dec a b); split; intros; try assumption;
    try reflexivity; try discriminate; contradiction.
Qed.

(** ** Lessons 2 and 3 *)

Lemma call_payoff_eq (K p P : R) :
  Guide.call_payoff K p P = (Rmax (P - K) 0, Rmax (P - K) 0 - p).
Proof. unfold Guide.call_payoff. now rewrite py_max_Rmax. Qed.

Lemma put_payoff_eq (K p P : R) :
  Guide.put_payoff K p P = (Rmax (K - P) 0, Rmax (K - P) 0 - p).
Proof. unfold Guide.put_payoff. now rewrite py_max_Rmax. Qed.

Lemma call_row_ok (K p P : R) :
  p <> 0 ->
  Guide.call_row K p P =
    Ok (Guide.mkRow P (Rmax (P - K) 0) (Rmax (P - K) 0 - p)
          ((Rmax (P - K) 0 - p) / p * 100)).
Proof.
  intros Hp. unfold Guide.call_row. rewrite call_payoff_eq.
  unfold Guide.pl_pct. now rewrite py_div_ok.
Qed.

Lemma put_row_ok (K p P : R) :
  p <> 0 ->
  Guide.put_row K p P =
    Ok (Guide.mkRow P (Rmax (K - P) 0) (Rmax (K - P) 0 - p)
          ((Rmax (K - P) 0 - p) / p * 100)).
Proof.
  intros Hp. unfold Guide.put_row. rewrite put_payoff_eq.
  unfold Guide.pl_pct. now rewrite py_div_ok.
Qed.

(** Closes a linear goal with [Rmax], [Rmin] or [Rabs] in it by cases. *)
Ltac rmax_lra :=
  unfold Rmax, Rmin, Rabs in *;
  repeat match goal with
         | |- context [Rle_dec ?a ?b] => destruct (Rle_dec a b)
         | |- context [Rcase_abs ?a] => destruct (Rcase_abs a)
         | H : context [Rle_dec ?a ?b] |- _ => destruct (Rle_dec a b)
         | H : context [Rcase_abs ?a] |- _ => destruct (Rcase_abs a)
         end;
  lra.

(** C1: for strike K > 0, premium p >= 0 and price P >= 0 the loop bodies
    compute the option value max(P - K, 0) for a call and max(K - P, 0) for
    a put, both non-negative, and profit_loss = option value - premium; with
    strike 100 and premium 3 the call table over [90,100,103,108,113] has
    profit_loss [-3,-3,0,5,10] and the put table over [113,108,100,97,90]
    has [-3,-3,-3,0,7]. *)
Theorem payoff_at_expiration (K p P : R) :
  0 < K -> 0 <= p -> 0 <= P ->
  Guide.call_payoff K p P = (Rmax (P - K) 0, Rmax (P - K) 0 - p) /\
  Guide.put_payoff K p P = (Rmax (K - P) 0, Rmax (K - P) 0 - p) /\
  0 <= fst (Guide.call_payoff K p P) /\
  0 <= fst (Guide.put_payoff K p P) /\
  (exists rows,
     Py.for_each (Guide.call_row 100 Guide.premium) [90; 100; 103; 108; 113]
       = Ok rows /\
     map Guide.row_profit_loss rows = [-3; -3; 0; 5; 10]) /\
  (exists rows,
     Py.for_each (Guide.put_row 100 Guide.premium) [113; 108; 100; 97; 90]
       = Ok rows /\
     map Guide.row_profit_loss rows = [-3; -3; -3; 0; 7]).
Proof.
  intros _ _ _.
  rewrite call_payoff_eq, put_payoff_eq. cbn [fst].
  assert (H3 : Guide.premium <> 0) by (unfold Guide.premium; lra).
  repeat split; try apply Rmax_r.
  - eexists. split.
    + cbn [Py.for_each]. rewrite !call_row_ok by exact H3.
      cbn [Py.bind]. reflexivity.
    + cbn [map Guide.row_profit_loss]. unfold Guide.premium.
      repeat (apply (f_equal2 cons); [rmax_lra | ]). reflexivity.
  - eexists. split.
    + cbn [Py.for_each]. rewrite !put_row_ok by exact H3.
      cbn [Py.bind]. reflexivity.
    + cbn [map Guide.row_profit_loss]. unfold Guide.premium.
      repeat (apply (f_equal2 cons); [rmax_lra | ]). reflexivity.
Qed.

Lemma payoff_at_expiration_witness :
  Guide.call_payoff 100 3 108 = (Rmax (108 - 100) 0, Rmax (108 - 100) 0 - 3).
Proof.
  apply (payoff_at_expiration 100 3 108); lra.
Defined.

(** The two tables as the lessons print them, for a quote of 100 and an
    at-the-money strike of 100. *)
Lemma lesson_tables_at_100 :
  (exists rows,
     Guide.lesson_2_analyze_call_option 100 100 = Ok rows /\
     map Guide.row_stock_price rows = [90; 100; 101.5; 103; 108; 113] /\
     map Guide.row_profit_loss rows = [-3; -3; -1.5; 0; 5; 10]) /\
  (exists rows,
     Guide.lesson_3_analyze_put_option 100 100 = Ok rows /\
     map Guide.row_stock_price rows = [110; 105; 100; 97; 92; 87] /\
     map Guide.row_profit_loss rows = [-3; -3; -3; 0; 5; 10]).
Proof.
  assert (H3 : Guide.premium <> 0) by (unfold Guide.premium; lra).
  split; eexists; (split; [ | split]).
  - unfold Guide.lesson_2_analyze_call_option, Guide.call_scenarios.
    cbn [Py.for_each snd]. rewrite !call_row_ok by exact H3.
    cbn [Py.bind]. reflexivity.
  - cbn [map Guide.row_stock_price]. unfold Guide.premium.
    repeat (apply (f_equal2 cons); [lra | ]). reflexivity.
  - cbn [map Guide.row_profit_loss]. unfold Guide.premium.
    repeat (apply (f_equal2 cons); [rmax_lra | ]). reflexivity.
  - unfold Guide.lesson_3_analyze_put_option, Guide.put_scenarios.
    cbn [Py.for_each snd]. rewrite !put_row_ok by exact H3.
    cbn [Py.bind]. reflexivity.
  - cbn [map Guide.row_stock_price]. unfold Guide.premium.
    repeat (apply (f_equal2 cons); [lra | ]). reflexivity.
  - cbn [map Guide.row_profit_loss]. unfold Guide.premium.
    repeat (apply (f_equal2 cons); [rmax_lra | ]). reflexivity.
Qed.

(** C2: for a fixed strike K > 0 and premium p >= 0 the long-call
    profit_loss is non-decreasing in the hypothetical price and the
    long-put profit_loss is non-increasing. *)
Theorem profit_loss_monotone (K p P1 P2 : R) :
  0 < K -> 0 <= p -> P1 <= P2 ->
  snd (Guide.call_payoff K p P1) <= snd (Guide.call_payoff K p P2) /\
  snd (Guide.put_payoff K p P2) <= snd (Guide.put_payoff K p P1).
Proof.
  intros _ _ HP. rewrite !call_payoff_eq, !put_payoff_eq. cbn [snd].
  split; rmax_lra.
Qed.

Lemma profit_loss_monotone_witness :
  snd (Guide.call_payoff 100 3 90) <= snd (Guide.call_payoff 100 3 113) /\
  snd (Guide.put_payoff 100 3 113) <= snd (Guide.put_payoff 100 3 90).
Proof.
  apply (profit_loss_monotone 100 3 90 113); lra.
Defined.



(** ** Moneyness labels of the chain listing *)

Lemma label_ITM (d : R) : Scanner.label d = Scanner.ITM <-> d < -5.
Proof.
  unfold Scanner.label.
  destruct (Rlt_dec d (-5)); [tauto | ].
  destruct (Rlt_dec (Rabs d) 2); split; intros H; try discriminate; contradiction.
Qed.

Lemma label_ATM (d : R) : Scanner.label d = Scanner.ATM <-> Rabs d < 2.
Proof.
  unfold Scanner.label.
  destruct (Rlt_dec d (-5)) as [Hd | Hd].
  - split; [discriminate | ].
    intros H. apply Rabs_def2 in H. lra.
  - destruct (Rlt_dec (Rabs d) 2); split; intros H;
      try reflexivity; try assumption; try discriminate; contradiction.
Qed.

Lemma label_OTM_above (d : R) : 2 <= d -> Scanner.label d = Scanner.OTM.
Proof.
  intros Hd. unfold Scanner.label.
  destruct (Rlt_dec d (-5)); [lra | ].
  destruct (Rlt_dec (Rabs d) 2) as [H | H]; [ | reflexivity].
  apply Rabs_def2 in H. lra.
Qed.

Lemma call_line_shown (price : R) (c : Scanner.Contract) :
  price <> 0 ->
  Rabs (Scanner.strike_price c - price) < price * 0.15 ->
  Scanner.call_line price c =
    Ok (Some (Scanner.mkLine (Scanner.strike_price c)
                (Scanner.label (Scanner.strike_price c - price))
                ((Scanner.strike_price c - price) / price * 100))).
Proof.
  intros Hp Hw. unfold Scanner.call_line. rewrite py_div_ok by assumption.
  cbn [Py.bind].
  destruct (Rlt_dec _ _); [reflexivity | contradiction].
Qed.

Lemma put_line_shown (price : R) (c : Scanner.Contract) :
  price <> 0 ->
  Rabs (price - Scanner.strike_price c) < price * 0.15 ->
  Scanner.put_line price c =
    Ok (Some (Scanner.mkLine (Scanner.strike_price c)
                (Scanner.label (price - Scanner.strike_price c))
                ((price - Scanner.strike_price c) / price * 100))).
Proof.
  intros Hp Hw. unfold Scanner.put_line. rewrite py_div_ok by assumption.
  cbn [Py.bind].
  destruct (Rlt_dec _ _); [reflexivity | contradiction].
Qed.

(** C6, the code at the failing input: with the underlying at 100 the call
    struck at 97 has intrinsic value 3 > 0 and the listing labels it OTM. *)
Theorem itm_call_labelled_otm :
  0 < Py.max (100 - 97) 0 /\
  Scanner.analyze_options_chain (Some 100)
    [Scanner.mkContract "C97" 97 0] []
  = Ok (Some ([Some (Scanner.mkLine 97 Scanner.OTM ((97 - 100) / 100 * 100))],
              [])).
Proof.
  split.
  - rewrite py_max_Rmax. rmax_lra.
  - unfold Scanner.analyze_options_chain.
    destruct (Req_dec_T 100 0) as [H | _]; [lra | ].
    cbn [Py.for_each]. rewrite call_line_shown; cbn [Scanner.strike_price].
    + cbn [Py.bind]. do 5 f_equal.
      unfold Scanner.label.
      destruct (Rlt_dec (97 - 100) (-5)); [lra | ].
      destruct (Rlt_dec (Rabs (97 - 100)) 2) as [H | H]; [ | reflexivity].
      rmax_lra.
    + lra.
    + rmax_lra.
Qed.

(** C7, as the claim has it, fails: with the underlying at 100 the call
    struck at 99 is below the price yet not labelled ITM, and it is
    labelled ATM although |99 - 100| is not below min(2, 0.5% of 100). *)
Lemma call_label_not_by_strike_order :
  exists line,
    Scanner.call_line 100 (Scanner.mkContract "C99" 99 0) = Ok (Some line) /\
    ~ (Scanner.line_moneyness line = Scanner.ITM <-> 99 < 100) /\
    ~ (Scanner.line_moneyness line = Scanner.ATM
       <-> Rabs (99 - 100) < Rmin 2 (0.005 * 100)).
Proof.
  assert (Habs : Rabs (99 - 100) = 1) by rmax_lra.
  eexists. split.
  - apply call_line_shown; cbn [Scanner.strike_price]; [lra | ].
    rewrite Habs. lra.
  - cbn [Scanner.line_moneyness Scanner.strike_price]. split.
    + rewrite label_ITM. lra.
    + rewrite label_ATM, Habs. intros [H _].
      assert (H1 : 1 < 2) by lra. specialize (H H1). revert H. rmax_lra.
Qed.

(** C7, amended: for a contract listed by the scanner (strike within 15%
    of a non-zero price) the label follows fixed dollar bands, not the
    bare order of strike and price: a call is ITM whenever its strike is
    more than 5 below the price, ATM iff |strike - price| < 2, and OTM
    whenever its strike is 2 or more above the price; for puts the same
    bands apply to price - strike.  Lesson 1 stars a strike as near the
    money iff |strike - price| < 5. *)
Theorem chain_label_bands (price : R) (c : Scanner.Contract) :
  price <> 0 ->
  Rabs (Scanner.strike_price c - price) < price * 0.15 ->
  let K := Scanner.strike_price c in
  (exists line,
     Scanner.call_line price c = Ok (Some line) /\
     (K < price - 5 -> Scanner.line_moneyness line = Scanner.ITM) /\
     (Scanner.line_moneyness line = Scanner.ATM <-> Rabs (K - price) < 2) /\
     (price + 2 <= K -> Scanner.line_moneyness line = Scanner.OTM)) /\
  (exists line,
     Scanner.put_line price c = Ok (Some line) /\
     (price + 5 < K -> Scanner.line_moneyness line = Scanner.ITM) /\
     (Scanner.line_moneyness line = Scanner.ATM <-> Rabs (K - price) < 2) /\
     (K <= price - 2 -> Scanner.line_moneyness line = Scanner.OTM)) /\
  (Guide.near_current_price K price = true <-> Rabs (K - price) < 5).
Proof.
  intros Hp Hw K. subst K. split; [ | split].
  - eexists. split; [apply call_line_shown; assumption | ].
    cbn [Scanner.line_moneyness]. split; [ | split].
    + intros H. apply label_ITM. lra.
    + apply label_ATM.
    + intros H. apply label_OTM_above. lra.
  - eexists. split.
    + apply put_line_shown; [assumption | ]. now rewrite Rabs_minus_sym.
    + cbn [Scanner.line_moneyness]. split; [ | split].
      * intros H. apply label_ITM. lra.
      * rewrite label_ATM, (Rabs_minus_sym price). tauto.
      * intros H. apply label_OTM_above. lra.
  - unfold Guide.near_current_price. apply py_ltb_spec.
Qed.

Lemma chain_label_bands_witness :
  exists line,
    Scanner.call_line 100 (Scanner.mkContract "C90" 90 0) = Ok (Some line) /\
    (90 < 100 - 5 -> Scanner.line_moneyness line = Scanner.ITM) /\
    (Scanner.line_moneyness line = Scanner.ATM <-> Rabs (90 - 100) < 2) /\
    (100 + 2 <= 90 -> Scanner.line_moneyness line = Scanner.OTM).
Proof.
  assert (Hp : 100 <> 0) by lra.
  assert (Hw : Rabs (Scanner.strike_price (Scanner.mkContract "C90" 90 0) - 100)
               < 100 * 0.15).
  { cbn [Scanner.strike_price]. rmax_lra. }
  exact (proj1 (chain_label_bands 100 (Scanner.mkContract "C90" 90 0) Hp Hw)).
Defined.

(** ** Loops and sorting *)

Lemma for_each_ok {A B : Type} (body : A -> result B) (f : A -> B) (l : list A) :
  (forall x, In x l -> body x = Ok (f x)) ->
  Py.for_each body l = Ok (map f l).
Proof.
  induction l as [ | x tl IH]; intros H; cbn [Py.for_each map].
  - reflexivity.
  - rewrite (H x (or_introl eq_refl)). cbn [Py.bind].
    rewrite IH by (intros y Hy; apply H; now right).
    reflexivity.
Qed.

Lemma in_insert_by {A : Type} (before : R -> R -> bool) (key : A -> R)
  (x y : A) (l : list A) :
  In y (Advanced.insert_by before key x l) <-> y = x \/ In y l.
Proof.
  induction l as [ | z tl IH]; cbn [Advanced.insert_by In].
  - intuition congruence.
  - destruct (before (key x) (key z)); cbn [In]; [ | rewrite IH];
      intuition congruence.
Qed.

Lemma in_sorted_by {A : Type} (before : R -> R -> bool) (key : A -> R)
  (y : A) (l : list A) :
  In y (Advanced.sorted_by before key l) <-> In y l.
Proof.
  unfold Advanced.sorted_by.
  assert (G : forall acc,
             In y (fold_left (fun acc x => Advanced.insert_by before key x acc) l acc)
             <-> In y l \/ In y acc).
  { induction l as [ | x tl IH]; intros acc; cbn [fold_left In].
    - tauto.
    - rewrite IH, in_insert_by. intuition congruence. }
  rewrite G. cbn [In]. tauto.
Qed.

Lemma in_slice_to {A : Type} (n : nat) (x : A) (l : list A) :
  In x (Py.slice_to n l) -> In x l.
Proof.
  unfold Py.slice_to. revert l.
  induction n as [ | n IH]; intros [ | y tl]; cbn [firstn In]; try tauto.
  intros [H | H]; [now left | right; now apply IH].
Qed.

(** ** Premium heuristics *)

Lemma covered_call_row_ok (current_price : R) (call : Scanner.Contract) :
  current_price <> 0 ->
  Advanced.covered_call_row current_price call =
    Ok (let distance := Scanner.strike_price call - current_price in
        let est_premium := Rmax 0.5 (distance * 0.1) * 100 in
        Advanced.mkCallRow (Scanner.strike_price call) distance
          (distance / current_price * 100) est_premium
          (distance * 100 + est_premium)
          ((distance * 100 + est_premium) / (current_price * 100)
           * (365 / 30) * 100)).
Proof.
  intros Hp. unfold Advanced.covered_call_row.
  rewrite !py_div_ok by lra. cbn [Py.bind]. now rewrite py_max_Rmax.
Qed.

Lemma protective_put_row_ok (current_price : R) (today : Z)
  (put : Scanner.Contract) :
  current_price <> 0 ->
  Advanced.protective_put_row current_price today put =
    Ok (let distance := current_price - Scanner.strike_price put in
        let days_to_exp := (Scanner.expiration_date put - today)%Z in
        let est_premium :=
          Rmax 1.0 (distance * 0.15
                    + (IZR days_to_exp / 365) * current_price * 0.02) * 100 in
        Advanced.mkPutRow (Scanner.strike_price put) days_to_exp
          (distance / current_price * 100) est_premium
          (distance * 100 + est_premium)
          ((distance * 100 + est_premium) / (current_price * 100) * 100)).
Proof.
  intros Hp. unfold Advanced.protective_put_row.
  rewrite !py_div_ok by lra. cbn [Py.bind]. now rewrite py_max_Rmax.
Qed.

Lemma covered_call_table (current_price : R)
  (option_contracts : list Scanner.Contract) :
  current_price <> 0 ->
  filter (fun c => Py.ltb current_price (Scanner.strike_price c))
         option_contracts <> [] ->
  Advanced.advanced_2_covered_call_strategy current_price option_contracts
  = Ok (Some
          (map (fun call =>
                  let distance := Scanner.strike_price call - current_price in
                  let est_premium := Rmax 0.5 (distance * 0.1) * 100 in
                  Advanced.mkCallRow (Scanner.strike_price call) distance
                    (distance / current_price * 100) est_premium
                    (distance * 100 + est_premium)
                    ((distance * 100 + est_premium) / (current_price * 100)
                     * (365 / 30) * 100))
               (Py.slice_to 5
                  (Advanced.sorted_by_strike
                     (filter (fun c => Py.ltb current_price
                                         (Scanner.strike_price c))
                             option_contracts))))).
Proof.
  intros Hp Hne. unfold Advanced.advanced_2_covered_call_strategy.
  destruct (filter _ option_contracts) as [ | c0 tl] eqn:E; [now elim Hne | ].
  rewrite <- E.
  erewrite for_each_ok by (intros x _; apply covered_call_row_ok; exact Hp).
  reflexivity.
Qed.

Lemma protective_put_table (current_price : R) (today : Z)
  (option_contracts : list Scanner.Contract) :
  current_price <> 0 ->
  filter (fun p => Py.ltb (Scanner.strike_price p) current_price)
         option_contracts <> [] ->
  Advanced.advanced_3_protective_put_strategy current_price today
    option_contracts
  = Ok (Some
          (map (fun put =>
                  let distance := current_price - Scanner.strike_price put in
                  let days_to_exp :=
                    (Scanner.expiration_date put - today)%Z in
                  let est_premium :=
                    Rmax 1.0 (distance * 0.15
                              + (IZR days_to_exp / 365) * current_price * 0.02)
                    * 100 in
                  Advanced.mkPutRow (Scanner.strike_price put) days_to_exp
                    (distance / current_price * 100) est_premium
                    (distance * 100 + est_premium)
                    ((distance * 100 + est_premium) / (current_price * 100)
                     * 100))
               (Py.slice_to 5
                  (Advanced.sorted_by_strike_desc
                     (filter (fun p => Py.ltb (Scanner.strike_price p)
                                         current_price)
                             option_contracts))))).
Proof.
  intros Hp Hne. unfold Advanced.advanced_3_protective_put_strategy.
  destruct (filter _ option_contracts) as [ | c0 tl] eqn:E; [now elim Hne | ].
  rewrite <- E.
  erewrite for_each_ok by (intros x _; apply protective_put_row_ok; exact Hp).
  reflexivity.
Qed.

Lemma forall2_map {A B : Type} (P : A -> B -> Prop) (f : A -> B)
  (l : list A) :
  (forall x, In x l -> P x (f x)) -> Forall2 P l (map f l).
Proof.
  induction l as [ | x tl IH]; intros H; cbn [map]; constructor.
  - apply H. now left.
  - apply IH. intros y Hy. apply H. now right.
Qed.

(** C9, as the claim has it, fails: not every strike and price gets an
    estimate.  At a quote of 0 the covered-call loop raises
    ZeroDivisionError on the percentage it computes before the premium,
    and a call struck below the price is filtered out, so that the
    function returns early without any estimate. *)
Lemma premium_estimate_not_everywhere :
  Advanced.advanced_2_covered_call_strategy 0 [Scanner.mkContract "C5" 5 30]
  = Raise ZeroDivisionError /\
  Advanced.advanced_2_covered_call_strategy 100
    [Scanner.mkContract "C90" 90 30]
  = Ok None.
Proof.
  split.
  - unfold Advanced.advanced_2_covered_call_strategy.
    cbn [filter Scanner.strike_price]. rewrite (py_ltb_true 0 5) by lra.
    cbn [Advanced.sorted_by_strike Advanced.sorted_by fold_left
         Advanced.insert_by Py.slice_to firstn Py.for_each].
    unfold Advanced.covered_call_row. now rewrite py_div_zero.
  - unfold Advanced.advanced_2_covered_call_strategy.
    cbn [filter Scanner.strike_price]. now rewrite (py_ltb_false 100 90) by lra.
Qed.

(** C9, amended: at a quote that is not 0, each strategy table with a
    contract to list is produced and has one line for each of the
    contracts it lists (the five highest puts struck below the price,
    the five lowest calls struck above it).  The estimate on a put line
    is max(1.0, 0.15 * |strike - price| + 0.02 * (days / 365) * price)
    per share, times 100 per contract; on a call line it is
    max(0.5, 0.1 * |strike - price|), without a time term, times 100.
    Both are strictly positive. *)
Theorem premium_estimate_formula
  (current_price : R) (today : Z) (option_contracts : list Scanner.Contract) :
  current_price <> 0 ->
  (filter (fun p => Py.ltb (Scanner.strike_price p) current_price)
          option_contracts <> [] ->
   exists rows,
     Advanced.advanced_3_protective_put_strategy current_price today
       option_contracts = Ok (Some rows) /\
     Forall2
       (fun put row =>
          Advanced.pp_strike row = Scanner.strike_price put /\
          Advanced.pp_days_to_exp row
          = (Scanner.expiration_date put - today)%Z /\
          Advanced.pp_est_premium row
          = Rmax 1.0
              (Rabs (Scanner.strike_price put - current_price) * 0.15
               + (IZR (Scanner.expiration_date put - today) / 365)
                 * current_price * 0.02)
            * 100 /\
          0 < Advanced.pp_est_premium row)
       (Py.slice_to 5
          (Advanced.sorted_by_strike_desc
             (filter (fun p => Py.ltb (Scanner.strike_price p) current_price)
                     option_contracts)))
       rows) /\
  (filter (fun c => Py.ltb current_price (Scanner.strike_price c))
          option_contracts <> [] ->
   exists rows,
     Advanced.advanced_2_covered_call_strategy current_price
       option_contracts = Ok (Some rows) /\
     Forall2
       (fun call row =>
          Advanced.cc_strike row = Scanner.strike_price call /\
          Advanced.cc_est_premium row
          = Rmax 0.5 (Rabs (Scanner.strike_price call - current_price) * 0.1)
            * 100 /\
          0 < Advanced.cc_est_premium row)
       (Py.slice_to 5
          (Advanced.sorted_by_strike
             (filter (fun c => Py.ltb current_price (Scanner.strike_price c))
                     option_contracts)))
       rows).
Proof.
  intros Hp. split; intros Hne.
  - eexists. split; [apply protective_put_table; assumption | ].
    apply forall2_map. intros put Hin.
    apply in_slice_to, in_sorted_by, filter_In in Hin.
    destruct Hin as [_ Hlt]. apply py_ltb_spec in Hlt.
    cbn [Advanced.pp_strike Advanced.pp_days_to_exp Advanced.pp_est_premium].
    replace (Rabs (Scanner.strike_price put - current_price))
      with (current_price - Scanner.strike_price put) by rmax_lra.
    repeat split. rmax_lra.
  - eexists. split; [apply covered_call_table; assumption | ].
    apply forall2_map. intros call Hin.
    apply in_slice_to, in_sorted_by, filter_In in Hin.
    destruct Hin as [_ Hlt]. apply py_ltb_spec in Hlt.
    cbn [Advanced.cc_strike Advanced.cc_est_premium].
    replace (Rabs (Scanner.strike_price call - current_price))
      with (Scanner.strike_price call - current_price) by rmax_lra.
    repeat split. rmax_lra.
Qed.

(** ** float64 comparisons and the final clamp *)

Lemma np_clamp_fin (x : R) :
  Np.min (Np.Fin 100) (Np.max (Np.Fin 0) (Np.Fin x))
  = Np.Fin (Spec.clamp x 0 100).
Proof.
  unfold Np.min, Np.max, Py.min_with, Py.max_with, Spec.clamp.
  cbn [Np.ltb]. unfold Py.ltb.
  destruct (Rlt_dec 0 x); cbn [Np.ltb]; unfold Py.ltb.
  - destruct (Rlt_dec x 100); f_equal; rmax_lra.
  - destruct (Rlt_dec 0 100); f_equal; rmax_lra.
Qed.

Lemma np_clamp_nan :
  Np.min (Np.Fin 100) (Np.max (Np.Fin 0) Np.NaN) = Np.Fin 0.
Proof.
  unfold Np.min, Np.max, Py.min_with, Py.max_with.
  cbn [Np.ltb]. now rewrite py_ltb_true by lra.
Qed.

Lemma clamp_bounds (x : R) : 0 <= Spec.clamp x 0 100 <= 100.
Proof. unfold Spec.clamp. rmax_lra. Qed.

Lemma np_clamp_total (q : Np.float64) :
  exists r, Np.min (Np.Fin 100) (Np.max (Np.Fin 0) q) = Np.Fin r
            /\ 0 <= r <= 100.
Proof.
  destruct q as [x | | | ].
  - exists (Spec.clamp x 0 100). split; [apply np_clamp_fin | apply clamp_bounds].
  - exists 100. split; [ | lra].
    unfold Np.min, Np.max, Py.min_with, Py.max_with. reflexivity.
  - exists 0. split; [ | lra].
    unfold Np.min, Np.max, Py.min_with, Py.max_with.
    cbn [Np.ltb]. now rewrite py_ltb_true by lra.
  - exists 0. split; [apply np_clamp_nan | lra].
Qed.

(** ** Slices *)

Lemma in_skipn {A : Type} (n : nat) (x : A) (l : list A) :
  In x (skipn n l) -> In x l.
Proof.
  revert l. induction n as [ | n IH]; intros [ | y tl]; cbn [skipn In]; auto.
Qed.

Lemma in_slice_from {A : Type} (start : Z) (x : A) (l : list A) :
  In x (Py.slice_from start l) -> In x l.
Proof.
  unfold Py.slice_from. destruct (start <? 0)%Z; apply in_skipn.
Qed.

Lemma slice_from_last_n {A : Type} (n : Z) (l : list A) :
  (0 < n)%Z -> Py.slice_from (- n) l = Spec.last_n (Z.to_nat n) l.
Proof.
  intros Hn. unfold Py.slice_from, Spec.last_n.
  replace (- n <? 0)%Z with true by (symmetry; apply Z.ltb_lt; lia).
  f_equal. lia.
Qed.

Lemma last_n_all {A : Type} (n : nat) (l : list A) :
  (length l <= n)%nat -> Spec.last_n n l = l.
Proof.
  intros H. unfold Spec.last_n.
  replace (length l - n)%nat with 0%nat by lia. reflexivity.
Qed.

Lemma last_n_length {A : Type} (n : nat) (l : list A) :
  length (Spec.last_n n l) = Nat.min n (length l).
Proof. unfold Spec.last_n. rewrite length_skipn. lia. Qed.

(** ** Daily returns *)

Lemma daily_returns_cons (prev cur : R) (tl : list R) :
  Scanner.daily_returns (prev :: cur :: tl) =
    (r <- Py.div (cur - prev) prev ;;
     rs <- Scanner.daily_returns (cur :: tl) ;;
     Ok (r :: rs)).
Proof. reflexivity. Qed.

Lemma spec_returns_cons (prev cur : R) (tl : list R) :
  Spec.returns (prev :: cur :: tl) =
    if Req_dec_T prev 0 then None
    else option_map (cons ((cur - prev) / prev)) (Spec.returns (cur :: tl)).
Proof. reflexivity. Qed.

Lemma daily_returns_spec (closes rs : list R) :
  Scanner.daily_returns closes = Ok rs <-> Spec.returns closes = Some rs.
Proof.
  revert rs. induction closes as [ | prev tl IH]; intros rs.
  - cbn. split; intros [= <-]; reflexivity.
  - destruct tl as [ | cur tl'].
    + cbn. split; intros [= <-]; reflexivity.
    + rewrite daily_returns_cons, spec_returns_cons. unfold Py.div.
      destruct (Req_dec_T prev 0) as [Hz | Hz]; cbn [Py.bind].
      * split; discriminate.
      * destruct (Scanner.daily_returns (cur :: tl')) as [rs' | e] eqn:E;
          cbn [Py.bind].
        -- rewrite (proj1 (IH rs') eq_refl). cbn [option_map].
           split; intros [= <-]; reflexivity.
        -- destruct (Spec.returns (cur :: tl')) as [rs' | ] eqn:E'.
           ++ pose proof (proj2 (IH rs') eq_refl) as H. discriminate H.
           ++ cbn [option_map]. split; discriminate.
Qed.

Lemma daily_returns_length (closes rs : list R) :
  Scanner.daily_returns closes = Ok rs ->
  length rs = (length closes - 1)%nat.
Proof.
  revert rs. induction closes as [ | prev tl IH]; intros rs.
  - cbn. intros [= <-]. reflexivity.
  - destruct tl as [ | cur tl'].
    + cbn. intros [= <-]. reflexivity.
    + rewrite daily_returns_cons.
      destruct (Py.div (cur - prev) prev) as [r | e]; cbn [Py.bind];
        [ | discriminate].
      destruct (Scanner.daily_returns (cur :: tl')) as [rs' | e] eqn:E;
        cbn [Py.bind]; [ | discriminate].
      intros [= <-]. cbn [length]. rewrite (IH rs' eq_refl). cbn [length]. lia.
Qed.

Lemma daily_returns_constant (c : R) (n : nat) :
  c <> 0 ->
  Scanner.daily_returns (repeat c n) = Ok (repeat 0 (n - 1)).
Proof.
  intros Hc. induction n as [ | n IH]; [reflexivity | ].
  destruct n as [ | n]; [reflexivity | ].
  change (repeat c (S (S n))) with (c :: c :: repeat c n).
  rewrite daily_returns_cons, py_div_ok by assumption.
  cbn [Py.bind]. change (c :: repeat c n) with (repeat c (S n)).
  rewrite IH. cbn [Py.bind].
  replace ((c - c) / c) with 0 by (unfold Rdiv; ring).
  replace (S (S n) - 1)%nat with (S (S n - 1)) by lia. reflexivity.
Qed.

(** ** Standard deviation *)

Lemma std_nan (l : list R) : (length l <= 1)%nat -> Pd.std l = Np.NaN.
Proof.
  intros H. unfold Pd.std.
  replace (length l <=? 1)%nat with true by (symmetry; apply Nat.leb_le; lia).
  reflexivity.
Qed.

Lemma std_fin (l : list R) :
  (2 <= length l)%nat -> Pd.std l = Np.Fin (sqrt (Pd.var l)).
Proof.
  intros H. unfold Pd.std.
  replace (length l <=? 1)%nat with false by (symmetry; apply Nat.leb_gt; lia).
  reflexivity.
Qed.

Lemma spec_stddev_none (l : list R) :
  (length l <= 1)%nat -> Spec.stddev l = None.
Proof.
  intros H. unfold Spec.stddev.
  replace (length l <? 2)%nat with true by (symmetry; apply Nat.ltb_lt; lia).
  reflexivity.
Qed.

Lemma spec_stddev_some (l : list R) :
  (2 <= length l)%nat -> Spec.stddev l = Some (sqrt (Pd.var l)).
Proof.
  intros H. unfold Spec.stddev.
  replace (length l <? 2)%nat with false by (symmetry; apply Nat.ltb_ge; lia).
  do 2 f_equal. unfold Pd.var, Pd.sum_sq_dev, Pd.mean, Pd.sum.
  rewrite minus_INR by lia. cbn [INR]. f_equal.
  f_equal. apply map_ext. intros x. ring.
Qed.

Lemma sum_nonneg (f : R -> R) (l : list R) :
  (forall x, 0 <= f x) -> 0 <= Pd.sum (map f l).
Proof.
  intros Hf. induction l as [ | y tl IH]; cbn [map Pd.sum fold_right].
  - lra.
  - specialize (Hf y). fold (Pd.sum (map f tl)). lra.
Qed.

Lemma sum_ge_term (f : R -> R) (l : list R) (x : R) :
  (forall y, 0 <= f y) -> In x l -> f x <= Pd.sum (map f l).
Proof.
  intros Hf. induction l as [ | y tl IH]; cbn [In map Pd.sum fold_right].
  - tauto.
  - fold (Pd.sum (map f tl)).
    pose proof (sum_nonneg f tl Hf) as Htl. pose proof (Hf y) as Hy.
    intros [-> | Hin]; [lra | ]. specialize (IH Hin). lra.
Qed.

Lemma sum_sq_dev_nonneg (l : list R) : 0 <= Pd.sum_sq_dev l.
Proof.
  unfold Pd.sum_sq_dev. cbv zeta. apply sum_nonneg. intros x. apply Rle_0_sqr.
Qed.

Lemma sum_sq_dev_pos (l : list R) (a b : R) :
  In a l -> In b l -> a <> b -> 0 < Pd.sum_sq_dev l.
Proof.
  intros Ha Hb Hab. unfold Pd.sum_sq_dev. cbv zeta.
  generalize (Pd.mean l). intros m.
  assert (Hf : forall y, 0 <= (fun x : R => (x - m) * (x - m)) y)
    by (intros y; apply Rle_0_sqr).
  pose proof (sum_ge_term _ l a Hf Ha) as H1.
  pose proof (sum_ge_term _ l b Hf Hb) as H2.
  cbv beta in H1, H2.
  destruct (Req_dec_T a m) as [Ham | Ham].
  - assert (b - m <> 0) by lra. nra.
  - assert (a - m <> 0) by lra. nra.
Qed.

Lemma two_distinct_length (l : list R) (a b : R) :
  In a l -> In b l -> a <> b -> (2 <= length l)%nat.
Proof.
  destruct l as [ | x [ | y tl]]; cbn [In length]; try lia; try tauto.
  intros [<- | []] [<- | []] H. now elim H.
Qed.

Lemma var_pos (l : list R) (a b : R) :
  In a l -> In b l -> a <> b -> 0 < Pd.var l.
Proof.
  intros Ha Hb Hab. unfold Pd.var.
  pose proof (two_distinct_length l a b Ha Hb Hab) as Hlen.
  apply Rdiv_lt_0_compat; [now apply (sum_sq_dev_pos l a b) | ].
  apply le_INR in Hlen. cbn [INR] in Hlen. lra.
Qed.

Lemma sum_repeat_zero (n : nat) : Pd.sum (repeat 0 n) = 0.
Proof.
  induction n as [ | n IH]; cbn [repeat Pd.sum fold_right]; [reflexivity | ].
  fold (Pd.sum (repeat 0 n)). lra.
Qed.

Lemma all_zero_repeat (l : list R) :
  (forall x, In x l -> x = 0) -> l = repeat 0 (length l).
Proof.
  induction l as [ | y tl IH]; intros H; cbn [length repeat]; [reflexivity | ].
  rewrite (H y (or_introl eq_refl)). f_equal. apply IH.
  intros x Hx. apply H. now right.
Qed.

Lemma var_all_zero (l : list R) :
  (forall x, In x l -> x = 0) -> Pd.var l = 0.
Proof.
  intros H. rewrite (all_zero_repeat l H).
  unfold Pd.var, Pd.sum_sq_dev, Pd.mean.
  rewrite sum_repeat_zero, map_repeat.
  replace ((0 - 0 / INR (length (repeat 0 (length l))))
           * (0 - 0 / INR (length (repeat 0 (length l))))) with 0
    by (unfold Rdiv; ring).
  rewrite sum_repeat_zero. unfold Rdiv. ring.
Qed.

Lemma sqrt_252_pos : 0 < sqrt 252.
Proof. apply sqrt_lt_R0. lra. Qed.

(** The annualized volatility is nan below two returns and finite and
    non-negative from two returns on. *)
Lemma annualized_vol_nan (rs : list R) :
  (length rs <= 1)%nat -> Scanner.annualized_vol rs = Np.NaN.
Proof.
  intros H. unfold Scanner.annualized_vol. now rewrite std_nan.
Qed.

Lemma annualized_vol_fin (rs : list R) :
  (2 <= length rs)%nat ->
  Scanner.annualized_vol rs = Np.Fin (sqrt (Pd.var rs) * sqrt 252 * 100).
Proof.
  intros H. unfold Scanner.annualized_vol. now rewrite std_fin.
Qed.

Lemma spec_vol_some (rs : list R) :
  (2 <= length rs)%nat ->
  Spec.vol rs = Some (sqrt (Pd.var rs) * sqrt 252 * 100).
Proof.
  intros H. unfold Spec.vol. now rewrite spec_stddev_some.
Qed.

Lemma spec_vol_none (rs : list R) :
  (length rs <= 1)%nat -> Spec.vol rs = None.
Proof.
  intros H. unfold Spec.vol. now rewrite spec_stddev_none.
Qed.

(** ** The estimator, case by case *)

Lemma iv_rank_fetch_error (e : Py.exn) (days : Z) :
  Scanner.calculate_iv_rank (Raise e) days = None.
Proof. reflexivity. Qed.

Lemma iv_rank_too_short (bars : list Scanner.Bar) (days : Z) :
  (length bars < 20)%nat -> Scanner.calculate_iv_rank (Ok bars) days = None.
Proof.
  intros H. unfold Scanner.calculate_iv_rank, Scanner.calculate_iv_rank_body.
  cbn [Py.bind].
  replace (length bars <? 20)%nat with true by (symmetry; apply Nat.ltb_lt; lia).
  now rewrite orb_true_r.
Qed.

Lemma iv_rank_division_error (bars : list Scanner.Bar) (days : Z) (e : Py.exn) :
  Scanner.daily_returns (map Scanner.close bars) = Raise e ->
  Scanner.calculate_iv_rank (Ok bars) days = None.
Proof.
  intros H. unfold Scanner.calculate_iv_rank, Scanner.calculate_iv_rank_body.
  cbn [Py.bind].
  destruct (Py.not_list bars || (length bars <? 20)%nat); [reflexivity | ].
  now rewrite H.
Qed.

Lemma iv_rank_computed (bars : list Scanner.Bar) (days : Z) (rs : list R) :
  (20 <= length bars)%nat ->
  Scanner.daily_returns (map Scanner.close bars) = Ok rs ->
  Scanner.calculate_iv_rank (Ok bars) days =
    Some (Np.min (Np.Fin 100)
            (Np.max (Np.Fin 0)
               (Np.mul
                  (Np.div (Scanner.annualized_vol (Py.slice_from (- days) rs))
                          (Scanner.annualized_vol rs))
                  (Np.Fin 100)))).
Proof.
  intros Hlen Hrs.
  unfold Scanner.calculate_iv_rank, Scanner.calculate_iv_rank_body.
  cbn [Py.bind].
  replace (length bars <? 20)%nat with false by (symmetry; apply Nat.ltb_ge; lia).
  destruct bars as [ | b tl]; [cbn [length] in Hlen; lia | ].
  cbn [Py.not_list orb]. now rewrite Hrs.
Qed.

Lemma iv_rank_some_inv (bars : list Scanner.Bar) (days : Z) (v : Np.float64) :
  Scanner.calculate_iv_rank (Ok bars) days = Some v ->
  (20 <= length bars)%nat /\
  exists rs, Scanner.daily_returns (map Scanner.close bars) = Ok rs.
Proof.
  intros H.
  destruct (Nat.lt_ge_cases (length bars) 20) as [Hlt | Hge].
  - rewrite iv_rank_too_short in H by assumption. discriminate.
  - split; [assumption | ].
    destruct (Scanner.daily_returns (map Scanner.close bars)) as [rs | e] eqn:E.
    + now exists rs.
    + rewrite (iv_rank_division_error bars days e E) in H. discriminate.
Qed.

(** Whatever the estimator returns is a finite number between 0 and 100. *)
Lemma iv_rank_range (fetched : result (list Scanner.Bar)) (days : Z)
  (v : Np.float64) :
  Scanner.calculate_iv_rank fetched days = Some v ->
  exists r, v = Np.Fin r /\ 0 <= r <= 100.
Proof.
  destruct fetched as [bars | e]; [ | discriminate].
  intros H. destruct (iv_rank_some_inv bars days v H) as [Hlen [rs Hrs]].
  rewrite (iv_rank_computed bars days rs Hlen Hrs) in H.
  injection H as <-. apply np_clamp_total.
Qed.

(** A history long enough whose returns can all be computed gets a rank. *)
Lemma iv_rank_accepted (bars : list Scanner.Bar) (days : Z) (rs : list R) :
  (20 <= length bars)%nat ->
  Scanner.daily_returns (map Scanner.close bars) = Ok rs ->
  exists r, Scanner.calculate_iv_rank (Ok bars) days = Some (Np.Fin r)
            /\ 0 <= r <= 100.
Proof.
  intros Hlen Hrs. rewrite (iv_rank_computed bars days rs Hlen Hrs).
  destruct (np_clamp_total
              (Np.mul
                 (Np.div (Scanner.annualized_vol (Py.slice_from (- days) rs))
                         (Scanner.annualized_vol rs))
                 (Np.Fin 100))) as [r [-> Hr]].
  now exists r.
Qed.

(** Constant closes: every return is 0, the full-sample volatility is 0, the
    quotient is nan and the clamp turns it into 0. *)
Lemma iv_rank_constant (c : R) (n : nat) (days : Z) :
  c <> 0 -> (20 <= n)%nat ->
  Scanner.calculate_iv_rank (Ok (repeat (Scanner.mkBar c) n)) days
  = Some (Np.Fin 0).
Proof.
  intros Hc Hn.
  assert (Hrs : Scanner.daily_returns
                  (map Scanner.close (repeat (Scanner.mkBar c) n))
                = Ok (repeat 0 (n - 1))).
  { rewrite map_repeat. cbn [Scanner.close]. now apply daily_returns_constant. }
  assert (Hlen : (20 <= length (repeat (Scanner.mkBar c) n))%nat)
    by now rewrite repeat_length.
  rewrite (iv_rank_computed _ days _ Hlen Hrs).
  set (rs := repeat 0 (n - 1)).
  assert (Hz : forall x, In x rs -> x = 0) by (intros x Hx; now apply repeat_spec in Hx).
  assert (Hall : Scanner.annualized_vol rs = Np.Fin 0).
  { rewrite annualized_vol_fin by (unfold rs; rewrite repeat_length; lia).
    rewrite (var_all_zero rs Hz), sqrt_0. f_equal. ring. }
  assert (Hrec : Np.div (Scanner.annualized_vol (Py.slice_from (- days) rs))
                        (Np.Fin 0) = Np.NaN).
  { set (w := Py.slice_from (- days) rs).
    destruct (Nat.le_gt_cases (length w) 1) as [Hw | Hw].
    - now rewrite annualized_vol_nan.
    - rewrite annualized_vol_fin by lia.
      rewrite var_all_zero, sqrt_0
        by (intros x Hx; apply Hz; now apply in_slice_from in Hx).
      replace (0 * sqrt 252 * 100) with 0 by ring.
      unfold Np.div. destruct (Req_dec_T 0 0) as [_ | Hne]; [ | now elim Hne].
      destruct (Rlt_dec 0 0); [lra | reflexivity]. }
  rewrite Hall, Hrec. cbn [Np.mul]. now rewrite np_clamp_nan.
Qed.

(** A history with no more closes than the window plus one: the recent
    slice is the whole return series. *)
Lemma iv_rank_short_history (bars : list Scanner.Bar) (days : Z)
  (rs : list R) (a b : R) :
  (20 <= length bars)%nat ->
  (Z.of_nat (length bars) <= days + 1)%Z ->
  Scanner.daily_returns (map Scanner.close bars) = Ok rs ->
  In a rs -> In b rs -> a <> b ->
  Scanner.calculate_iv_rank (Ok bars) days = Some (Np.Fin 100).
Proof.
  intros Hlen Hdays Hrs Ha Hb Hab.
  rewrite (iv_rank_computed bars days rs Hlen Hrs).
  pose proof (daily_returns_length _ _ Hrs) as Hl. rewrite length_map in Hl.
  rewrite slice_from_last_n, last_n_all by lia.
  rewrite annualized_vol_fin by lia.
  pose proof (var_pos rs a b Ha Hb Hab) as Hv.
  apply sqrt_lt_R0 in Hv. pose proof sqrt_252_pos as H252.
  set (vol := sqrt (Pd.var rs) * sqrt 252 * 100).
  assert (Hvol : 0 < vol).
  { unfold vol. apply Rmult_lt_0_compat; [ | lra].
    apply Rmult_lt_0_compat; assumption. }
  unfold Np.div. destruct (Req_dec_T vol 0) as [Hz | _]; [lra | ].
  cbn [Np.mul]. rewrite np_clamp_fin.
  replace (vol / vol * 100) with 100 by (field; lra).
  do 2 f_equal. unfold Spec.clamp. rmax_lra.
Qed.

(** ** The sample histories *)

Lemma flat_closes_rank (days : Z) :
  Scanner.calculate_iv_rank (Ok Examples.flat_history) days = Some (Np.Fin 0).
Proof. unfold Examples.flat_history. apply iv_rank_constant; [lra | lia]. Qed.

Lemma flat_history_formula_undefined (window : nat) :
  Spec.volatility_rank (map Scanner.close Examples.flat_history) window = None.
Proof.
  unfold Examples.flat_history. rewrite map_repeat. cbn [Scanner.close].
  assert (Hrs : Spec.returns (repeat 100 60) = Some (repeat 0 59)).
  { apply daily_returns_spec.
    apply (daily_returns_constant 100 60). lra. }
  unfold Spec.volatility_rank. rewrite Hrs.
  destruct (Spec.vol (Spec.last_n window (repeat 0 59))) as [recent | ];
    [ | reflexivity].
  rewrite spec_vol_some by (rewrite repeat_length; lia).
  rewrite var_all_zero by (intros x Hx; now apply repeat_spec in Hx).
  rewrite sqrt_0.
  destruct (Req_dec_T (0 * sqrt 252 * 100) 0) as [_ | Hne]; [reflexivity | ].
  elim Hne. ring.
Qed.

Lemma short_history_returns :
  Scanner.daily_returns (map Scanner.close Examples.short_history)
  = Ok ((110 - 100) / 100 :: repeat 0 18).
Proof.
  unfold Examples.short_history. cbn [map Scanner.close].
  rewrite map_repeat. cbn [Scanner.close].
  change (repeat 110 19) with (110 :: repeat 110 18).
  rewrite daily_returns_cons, py_div_ok by lra. cbn [Py.bind].
  change (110 :: repeat 110 18) with (repeat 110 19).
  rewrite daily_returns_constant by lra. reflexivity.
Qed.

Lemma short_history_length : length Examples.short_history = 20%nat.
Proof. reflexivity. Qed.

Lemma twenty_closes_rank :
  Scanner.calculate_iv_rank (Ok Examples.short_history) 30 = Some (Np.Fin 100).
Proof.
  apply (iv_rank_short_history _ 30 _ ((110 - 100) / 100) 0
           ltac:(rewrite short_history_length; lia)
           ltac:(rewrite short_history_length; lia)
           short_history_returns).
  - now left.
  - right. now left.
  - lra.
Qed.

Lemma short_history_full_vol :
  Spec.full_vol (map Scanner.close Examples.short_history) <> Some 0.
Proof.
  unfold Spec.full_vol.
  rewrite (proj1 (daily_returns_spec _ _) short_history_returns).
  rewrite spec_vol_some by (cbn [length]; rewrite repeat_length; lia).
  assert (Hv : 0 < Pd.var ((110 - 100) / 100 :: repeat 0 18)).
  { apply (var_pos _ ((110 - 100) / 100) 0); [now left | right; now left | lra]. }
  apply sqrt_lt_R0 in Hv. pose proof sqrt_252_pos as H252.
  revert Hv. generalize (sqrt (Pd.var ((110 - 100) / 100 :: repeat 0 18))).
  intros s Hs [= H].
  assert (0 < s * sqrt 252) by (apply Rmult_lt_0_compat; assumption).
  lra.
Qed.

Lemma constant_bars (bars : list Scanner.Bar) (c : R) :
  (forall b, In b bars -> Scanner.close b = c) ->
  bars = repeat (Scanner.mkBar c) (length bars).
Proof.
  induction bars as [ | [x] tl IH]; intros H; cbn [length repeat]; [reflexivity | ].
  f_equal.
  - f_equal. exact (H (Scanner.mkBar x) (or_introl eq_refl)).
  - apply IH. intros b Hb. apply H. now right.
Qed.

(** ** The volatility-rank estimator *)

(** C3, as the claim has it, fails: the sixty flat closes are accepted and
    ranked 0, while step 4 of the formula divides 0 by 0 there and has no
    value. *)
Lemma flat_history_rank_not_formula :
  Scanner.calculate_iv_rank (Ok Examples.flat_history) Scanner.default_days
    = Some (Np.Fin 0) /\
  Spec.volatility_rank (map Scanner.close Examples.flat_history) 30 = None.
Proof.
  split; [apply flat_closes_rank | apply flat_history_formula_undefined].
Qed.

(** C3, amended: for every history the estimator accepts with a window of
    at least 2 and whose full-sample volatility is not 0, the returned rank
    is the value of: daily simple returns, recent_vol = stddev of the last
    N returns * sqrt(252) * 100, full_vol = stddev of all returns *
    sqrt(252) * 100, rank = clamp(recent_vol / full_vol * 100, 0, 100),
    with the sample standard deviation. *)
Theorem rank_follows_formula
  (bars : list Scanner.Bar) (days : Z) (v : Np.float64) :
  (2 <= days)%Z ->
  Scanner.calculate_iv_rank (Ok bars) days = Some v ->
  Spec.full_vol (map Scanner.close bars) <> Some 0 ->
  exists r,
    Spec.volatility_rank (map Scanner.close bars) (Z.to_nat days) = Some r /\
    v = Np.Fin r.
Proof.
  intros Hdays H Hfull.
  destruct (iv_rank_some_inv bars days v H) as [Hlen [rs Hrs]].
  rewrite (iv_rank_computed bars days rs Hlen Hrs) in H. injection H as <-.
  pose proof (daily_returns_length _ _ Hrs) as Hl. rewrite length_map in Hl.
  apply daily_returns_spec in Hrs.
  unfold Spec.full_vol in Hfull. unfold Spec.volatility_rank.
  rewrite Hrs in *.
  rewrite slice_from_last_n by lia.
  assert (Hw : (2 <= length (Spec.last_n (Z.to_nat days) rs))%nat)
    by (rewrite last_n_length; lia).
  rewrite !annualized_vol_fin, !spec_vol_some by (assumption || lia).
  rewrite spec_vol_some in Hfull by lia.
  set (full := sqrt (Pd.var rs) * sqrt 252 * 100) in *.
  destruct (Req_dec_T full 0) as [Hz | Hz]; [now rewrite Hz in Hfull | ].
  eexists. split; [reflexivity | ].
  unfold Np.div. destruct (Req_dec_T full 0) as [Hz' | _]; [contradiction | ].
  cbn [Np.mul]. apply np_clamp_fin.
Qed.

Lemma rank_follows_formula_witness :
  exists r,
    Spec.volatility_rank (map Scanner.close Examples.short_history)
      (Z.to_nat 30) = Some r /\
    Np.Fin 100 = Np.Fin r.
Proof.
  apply (rank_follows_formula Examples.short_history 30 (Np.Fin 100)).
  - lia.
  - exact twenty_closes_rank.
  - exact short_history_full_vol.
Defined.

(** C4, as the claim has it, fails: sixty constant closes are not reported
    as a failure, the estimator returns the number 0. *)
Lemma flat_history_ranked_zero :
  Scanner.calculate_iv_rank (Ok Examples.flat_history) Scanner.default_days
  = Some (Np.Fin 0).
Proof. apply flat_closes_rank. Qed.

(** C4, amended: the failures the estimator detects (the fetch raised,
    fewer than 20 bars, a division by a zero close) are all reported as
    None and never as a number; whatever number it returns is finite and
    within [0, 100]; a constant history of 20 or more non-zero closes is
    not detected as degenerate and is ranked 0. *)
Theorem iv_rank_outcomes (bars : list Scanner.Bar) (days : Z) (e : Py.exn) :
  Scanner.calculate_iv_rank (Raise e) days = None /\
  ((length bars < 20)%nat ->
   Scanner.calculate_iv_rank (Ok bars) days = None) /\
  (Scanner.daily_returns (map Scanner.close bars) = Raise e ->
   Scanner.calculate_iv_rank (Ok bars) days = None) /\
  (forall v, Scanner.calculate_iv_rank (Ok bars) days = Some v ->
     exists r, v = Np.Fin r /\ 0 <= r <= 100) /\
  (forall c, c <> 0 -> (20 <= length bars)%nat ->
     (forall b, In b bars -> Scanner.close b = c) ->
     Scanner.calculate_iv_rank (Ok bars) days = Some (Np.Fin 0)).
Proof.
  split; [ | split; [ | split; [ | split]]].
  - reflexivity.
  - apply iv_rank_too_short.
  - apply iv_rank_division_error.
  - apply iv_rank_range.
  - intros c Hc Hn Hall. rewrite (constant_bars bars c Hall).
    now apply iv_rank_constant.
Qed.

Lemma iv_rank_outcomes_witness :
  Scanner.calculate_iv_rank (Ok Examples.flat_history) 30 = Some (Np.Fin 0).
Proof.
  assert (Hc : 100 <> 0) by lra.
  assert (Hn : (20 <= length Examples.flat_history)%nat)
    by (unfold Examples.flat_history; rewrite repeat_length; lia).
  assert (Hall : forall b, In b Examples.flat_history -> Scanner.close b = 100)
    by (intros b Hb; apply repeat_spec in Hb; now subst b).
  exact (proj2 (proj2 (proj2 (proj2
           (iv_rank_outcomes Examples.flat_history 30 ZeroDivisionError))))
           100 Hc Hn Hall).
Defined.

(** C5, as the claim has it, fails: twenty closes are fewer than
    max(2 * 30, 20) = 60, yet the estimator does not fail, it returns the
    number 100. *)
Lemma short_history_not_rejected :
  (length Examples.short_history < Spec.min_observations 30)%nat /\
  Scanner.calculate_iv_rank (Ok Examples.short_history) Scanner.default_days
  = Some (Np.Fin 100).
Proof.
  split; [cbn; lia | exact twenty_closes_rank].
Qed.

(** C5, amended: for every history with fewer than 20 observations,
    whatever the window, the estimator returns None, the one outcome it
    has for every failure; a history of 20 observations or more is never
    rejected for its length: when its returns can be computed (no zero
    close is used as a divisor) a rank within [0, 100] is returned. *)
Theorem iv_rank_length_guard (bars : list Scanner.Bar) (days : Z) :
  ((length bars < 20)%nat ->
   Scanner.calculate_iv_rank (Ok bars) days = None) /\
  ((20 <= length bars)%nat ->
   forall rs, Scanner.daily_returns (map Scanner.close bars) = Ok rs ->
   exists r, Scanner.calculate_iv_rank (Ok bars) days = Some (Np.Fin r)
             /\ 0 <= r <= 100).
Proof.
  split.
  - apply iv_rank_too_short.
  - intros Hlen rs Hrs. now apply (iv_rank_accepted bars days rs).
Qed.

Lemma iv_rank_length_guard_witness :
  Scanner.calculate_iv_rank (Ok (repeat (Scanner.mkBar 100) 19)) 30 = None /\
  exists r,
    Scanner.calculate_iv_rank (Ok Examples.short_history) 30 = Some (Np.Fin r)
    /\ 0 <= r <= 100.
Proof.
  split.
  - apply (iv_rank_length_guard (repeat (Scanner.mkBar 100) 19) 30).
    cbn [length repeat]. lia.
  - apply (proj2 (iv_rank_length_guard Examples.short_history 30))
      with (rs := (110 - 100) / 100 :: repeat 0 18).
    + rewrite short_history_length. lia.
    + exact short_history_returns.
Defined.

(** C10: a history that passes the length check (20 closes or more) but
    has at most window + 1 closes, and whose returns are not all identical,
    is ranked exactly 100: the slice of the last [window] returns is the
    whole return series, so recent_vol and full_vol are the same number. *)
Theorem short_history_ranked_100
  (bars : list Scanner.Bar) (window : Z) (rs : list R) :
  (20 <= length bars)%nat ->
  (Z.of_nat (length bars) <= window + 1)%Z ->
  Scanner.daily_returns (map Scanner.close bars) = Ok rs ->
  (exists a b, In a rs /\ In b rs /\ a <> b) ->
  Py.slice_from (- window) rs = rs /\
  Scanner.calculate_iv_rank (Ok bars) window = Some (Np.Fin 100).
Proof.
  intros Hlen Hwin Hrs [a [b [Ha [Hb Hab]]]]. split.
  - pose proof (daily_returns_length _ _ Hrs) as Hl. rewrite length_map in Hl.
    rewrite slice_from_last_n, last_n_all by lia. reflexivity.
  - now apply (iv_rank_short_history bars window rs a b).
Qed.

Lemma short_history_ranked_100_witness :
  Scanner.calculate_iv_rank (Ok Examples.short_history) 30 = Some (Np.Fin 100).
Proof.
  apply (short_history_ranked_100 Examples.short_history 30
           ((110 - 100) / 100 :: repeat 0 18)).
  - rewrite short_history_length. lia.
  - rewrite short_history_length. lia.
  - exact short_history_returns.
  - exists ((110 - 100) / 100), 0. repeat split.
    + now left.
    + right. now left.
    + lra.
Defined.

(** ** A sample chain for the premium tables *)

Lemma premium_estimate_formula_witness :
  exists rows,
    Advanced.advanced_3_protective_put_strategy 100 0 Examples.chain
    = Ok (Some rows) /\
    map Advanced.pp_strike rows = [95; 90] /\
    forall row, In row rows -> 0 < Advanced.pp_est_premium row.
Proof.
  assert (Hp : 100 <> 0) by lra.
  assert (Hf : filter (fun p => Py.ltb (Scanner.strike_price p) 100)
                      Examples.chain
               = [Scanner.mkContract "X95" 95 30;
                  Scanner.mkContract "X90" 90 30]).
  { unfold Examples.chain. cbn [filter Scanner.strike_price].
    rewrite (py_ltb_true 95 100), (py_ltb_false 105 100),
      (py_ltb_true 90 100), (py_ltb_false 110 100) by lra.
    reflexivity. }
  assert (Hne : filter (fun p => Py.ltb (Scanner.strike_price p) 100)
                       Examples.chain <> [])
    by (rewrite Hf; discriminate).
  destruct (proj1 (premium_estimate_formula 100 0 Examples.chain Hp) Hne)
    as [rows [E Hrows]].
  exists rows. split; [exact E | ].
  rewrite Hf in Hrows.
  cbn [Advanced.sorted_by_strike_desc Advanced.sorted_by fold_left
       Advanced.insert_by Scanner.strike_price] in Hrows.
  rewrite (py_ltb_false 95 90) in Hrows by lra.
  cbn [Py.slice_to firstn] in Hrows.
  inversion Hrows as [ | p1 r1 l1 rs1 [S1 [_ [_ P1]]] Htl]; subst.
  inversion Htl as [ | p2 r2 l2 rs2 [S2 [_ [_ P2]]] Hnil]; subst.
  inversion Hnil; subst.
  split.
  - cbn [map]. rewrite S1, S2. reflexivity.
  - intros row [<- | [<- | []]]; assumption.
Defined.

(** * More of the scripts *)

(** ** Long options at expiration: worst and best case *)

(** X2: the most a long option can lose is the premium: the call loses
    exactly the premium when the stock ends at or below the strike and
    less otherwise; the put loses exactly the premium when the stock ends
    at or above the strike. *)
Theorem max_loss_is_premium (K p P : R) :
  - p <= snd (Guide.call_payoff K p P) /\
  (snd (Guide.call_payoff K p P) = - p <-> P <= K) /\
  - p <= snd (Guide.put_payoff K p P) /\
  (snd (Guide.put_payoff K p P) = - p <-> K <= P).
Proof.
  rewrite call_payoff_eq, put_payoff_eq. cbn [snd].
  repeat split; try intros H; rmax_lra.
Qed.

(** X3: for a stock price that is not negative the long put gains at most
    strike - premium, reached at price 0, while the long call has no
    upper limit: any amount is exceeded at some price. *)
Theorem best_case_put_and_call (K p : R) :
  0 <= K ->
  (forall P, 0 <= P -> snd (Guide.put_payoff K p P) <= K - p) /\
  snd (Guide.put_payoff K p 0) = K - p /\
  (forall M, exists P, 0 <= P /\ M < snd (Guide.call_payoff K p P)).
Proof.
  intros HK. split; [ | split].
  - intros P HP. rewrite put_payoff_eq. cbn [snd]. rmax_lra.
  - rewrite put_payoff_eq. cbn [snd]. rmax_lra.
  - intros M. exists (Rmax 0 (K + p + M) + 1). rewrite call_payoff_eq.
    cbn [snd]. split; rmax_lra.
Qed.

Lemma best_case_put_and_call_witness :
  snd (Guide.put_payoff 100 3 0) = 100 - 3.
Proof.
  assert (H : 0 <= 100) by lra.
  exact (proj1 (proj2 (best_case_put_and_call 100 3 H))).
Defined.

(** X4: whatever the quote and the strike, the two lesson tables are
    produced without an exception and have six lines; no line shows a
    loss beyond the premium of 3; and the profit or loss never decreases
    down the lines placed relative to the quote (the first two of the
    call table, the first three of the put table) nor down the lines
    placed relative to the strike (the others). *)
Theorem lesson_tables_shape (current_price strike : R) :
  (exists rows,
     Guide.lesson_2_analyze_call_option current_price strike = Ok rows /\
     length rows = 6%nat /\
     (forall row, In row rows -> -3 <= Guide.row_profit_loss row) /\
     StronglySorted Rle (map Guide.row_profit_loss (firstn 2 rows)) /\
     StronglySorted Rle (map Guide.row_profit_loss (skipn 2 rows))) /\
  (exists rows,
     Guide.lesson_3_analyze_put_option current_price strike = Ok rows /\
     length rows = 6%nat /\
     (forall row, In row rows -> -3 <= Guide.row_profit_loss row) /\
     StronglySorted Rle (map Guide.row_profit_loss (firstn 3 rows)) /\
     StronglySorted Rle (map Guide.row_profit_loss (skipn 3 rows))).
Proof.
  assert (H3 : Guide.premium <> 0) by (unfold Guide.premium; lra).
  split; eexists; (split; [ | split; [ | split; [ | split]]]).
  - unfold Guide.lesson_2_analyze_call_option, Guide.call_scenarios.
    cbn [Py.for_each snd]. rewrite !call_row_ok by exact H3.
    cbn [Py.bind]. reflexivity.
  - reflexivity.
  - intros row Hin. cbn [In] in Hin. unfold Guide.premium in Hin.
    repeat (destruct Hin as [<- | Hin]; [cbn [Guide.row_profit_loss]; rmax_lra | ]).
    contradiction.
  - cbn [firstn map Guide.row_profit_loss]. unfold Guide.premium.
    repeat first [ apply SSorted_nil | apply SSorted_cons
                 | apply Forall_nil | apply Forall_cons ]; rmax_lra.
  - cbn [skipn map Guide.row_profit_loss]. unfold Guide.premium.
    repeat first [ apply SSorted_nil | apply SSorted_cons
                 | apply Forall_nil | apply Forall_cons ]; rmax_lra.
  - unfold Guide.lesson_3_analyze_put_option, Guide.put_scenarios.
    cbn [Py.for_each snd]. rewrite !put_row_ok by exact H3.
    cbn [Py.bind]. reflexivity.
  - reflexivity.
  - intros row Hin. cbn [In] in Hin. unfold Guide.premium in Hin.
    repeat (destruct Hin as [<- | Hin]; [cbn [Guide.row_profit_loss]; rmax_lra | ]).
    contradiction.
  - cbn [firstn map Guide.row_profit_loss]. unfold Guide.premium.
    repeat first [ apply SSorted_nil | apply SSorted_cons
                 | apply Forall_nil | apply Forall_cons ]; rmax_lra.
  - cbn [skipn map Guide.row_profit_loss]. unfold Guide.premium.
    repeat first [ apply SSorted_nil | apply SSorted_cons
                 | apply Forall_nil | apply Forall_cons ]; rmax_lra.
Qed.

(** ** [min] with a key, [sorted], [next] *)

Lemma min_from_spec {A : Type} (key : A -> R) (l : list A) (best : A) :
  (PyMore.min_from key best l = best \/ In (PyMore.min_from key best l) l) /\
  key (PyMore.min_from key best l) <= key best /\
  (forall x, In x l -> key (PyMore.min_from key best l) <= key x).
Proof.
  revert best. induction l as [ | y tl IH]; intros best; cbn [PyMore.min_from In].
  - repeat split; [now left | lra | tauto].
  - specialize (IH (if Py.ltb (key y) (key best) then y else best)).
    destruct IH as [Hin [Hle Hall]].
    unfold Py.ltb in *. destruct (Rlt_dec (key y) (key best)) as [Hlt | Hge].
    + repeat split.
      * destruct Hin as [-> | Hin]; right; [now left | now right].
      * lra.
      * intros x [<- | Hx]; [assumption | now apply Hall].
    + repeat split.
      * destruct Hin as [-> | Hin]; [now left | right; now right].
      * assumption.
      * intros x [<- | Hx]; [lra | now apply Hall].
Qed.

(** [min(l, key=...)] raises exactly on the empty list, and otherwise
    returns an element of the list whose key no other element beats. *)
Lemma min_by_spec {A : Type} (key : A -> R) (l : list A) :
  match PyMore.min_by key l with
  | Returned m => In m l /\ forall x, In x l -> key m <= key x
  | Raised e => e = ValueError /\ l = []
  end.
Proof.
  destruct l as [ | y tl]; cbn [PyMore.min_by]; [now split | ].
  destruct (min_from_spec key tl y) as [Hin [Hle Hall]]. split.
  - destruct Hin as [-> | Hin]; [now left | now right].
  - intros x [<- | Hx]; [assumption | now apply Hall].
Qed.

Section SortedOn.

Context {A K : Type} (before : K -> K -> bool) (key : A -> K).
Hypothesis before_asym : forall a b, before a b = true -> before b a = false.

(** [in_order x y]: nothing forces [y] in front of [x]. *)
Let in_order (x y : A) : Prop := before (key y) (key x) = false.

Lemma insert_on_perm (x : A) (l : list A) :
  Permutation (PyMore.insert_on before key x l) (x :: l).
Proof.
  induction l as [ | y tl IH]; cbn [PyMore.insert_on]; [reflexivity | ].
  destruct (before (key x) (key y)); [reflexivity | ].
  rewrite IH. apply perm_swap.
Qed.

Lemma sorted_on_perm (l : list A) :
  Permutation (PyMore.sorted_on before key l) l.
Proof.
  unfold PyMore.sorted_on.
  assert (G : forall acc,
             Permutation
               (fold_left (fun acc x => PyMore.insert_on before key x acc) l acc)
               (acc ++ l)).
  { induction l as [ | x tl IH]; intros acc; cbn [fold_left].
    - now rewrite app_nil_r.
    - rewrite IH, insert_on_perm. cbn [app]. apply Permutation_middle. }
  exact (G []).
Qed.

Lemma insert_on_hd (x y : A) (l : list A) :
  in_order y x -> HdRel in_order y l ->
  HdRel in_order y (PyMore.insert_on before key x l).
Proof.
  intros Hyx Hy. destruct l as [ | z tl]; cbn [PyMore.insert_on].
  - now constructor.
  - destruct (before (key x) (key z)); constructor; [assumption | ].
    now inversion Hy.
Qed.

Lemma insert_on_sorted (x : A) (l : list A) :
  Sorted in_order l -> Sorted in_order (PyMore.insert_on before key x l).
Proof.
  induction l as [ | y tl IH]; intros Hs; cbn [PyMore.insert_on].
  - repeat constructor.
  - inversion Hs as [ | ? ? Htl Hhd]; subst.
    destruct (before (key x) (key y)) eqn:E.
    + constructor; [assumption | ]. constructor. unfold in_order.
      now apply before_asym.
    + constructor; [now apply IH | ]. now apply insert_on_hd.
Qed.

Lemma sorted_on_sorted (l : list A) :
  Sorted in_order (PyMore.sorted_on before key l).
Proof.
  unfold PyMore.sorted_on.
  assert (G : forall acc, Sorted in_order acc ->
             Sorted in_order
               (fold_left (fun acc x => PyMore.insert_on before key x acc) l acc)).
  { induction l as [ | x tl IH]; intros acc Hacc; cbn [fold_left];
      [assumption | ].
    apply IH. now apply insert_on_sorted. }
  apply G. constructor.
Qed.

End SortedOn.

Lemma insert_by_is_insert_on {A : Type} (before : R -> R -> bool)
  (key : A -> R) (x : A) (l : list A) :
  Advanced.insert_by before key x l = PyMore.insert_on before key x l.
Proof.
  induction l as [ | y tl IH]; cbn [Advanced.insert_by PyMore.insert_on];
    [reflexivity | ].
  now rewrite IH.
Qed.

Lemma sorted_by_is_sorted_on {A : Type} (before : R -> R -> bool)
  (key : A -> R) (l : list A) :
  Advanced.sorted_by before key l = PyMore.sorted_on before key l.
Proof.
  unfold Advanced.sorted_by, PyMore.sorted_on. generalize (@nil A).
  induction l as [ | x tl IH]; intros acc; cbn [fold_left]; [reflexivity | ].
  now rewrite insert_by_is_insert_on, IH.
Qed.

Lemma sorted_by_strike_perm (l : list Scanner.Contract) :
  Permutation (Advanced.sorted_by_strike l) l.
Proof.
  unfold Advanced.sorted_by_strike. rewrite sorted_by_is_sorted_on.
  apply sorted_on_perm.
Qed.

Lemma sorted_by_strike_desc_perm (l : list Scanner.Contract) :
  Permutation (Advanced.sorted_by_strike_desc l) l.
Proof.
  unfold Advanced.sorted_by_strike_desc. rewrite sorted_by_is_sorted_on.
  apply sorted_on_perm.
Qed.

Lemma Sorted_weaken {A : Type} (R1 R2 : A -> A -> Prop) (l : list A) :
  (forall a b, R1 a b -> R2 a b) -> Sorted R1 l -> Sorted R2 l.
Proof.
  intros H. induction 1 as [ | a l0 Hs IH Hhd]; constructor; [assumption | ].
  destruct Hhd; constructor. now apply H.
Qed.

(** [sorted(l, key=lambda x: x.strike_price)] is in ascending order of
    strike. *)
Lemma sorted_by_strike_ascending (l : list Scanner.Contract) :
  StronglySorted
    (fun a b => Scanner.strike_price a <= Scanner.strike_price b)
    (Advanced.sorted_by_strike l).
Proof.
  unfold Advanced.sorted_by_strike. rewrite sorted_by_is_sorted_on.
  apply Sorted_StronglySorted; [intros a b c Hab Hbc; lra | ].
  apply Sorted_weaken with
    (R1 := fun x y => Py.ltb (Scanner.strike_price y) (Scanner.strike_price x)
                      = false).
  - intros a b Hab. unfold Py.ltb in Hab.
    destruct (Rlt_dec _ _); [discriminate | lra].
  - apply (sorted_on_sorted Py.ltb Scanner.strike_price). intros a b H.
    apply py_ltb_spec in H. apply py_ltb_false. lra.
Qed.

(** With [reverse=True] the order is descending. *)
Lemma sorted_by_strike_descending (l : list Scanner.Contract) :
  StronglySorted
    (fun a b => Scanner.strike_price b <= Scanner.strike_price a)
    (Advanced.sorted_by_strike_desc l).
Proof.
  unfold Advanced.sorted_by_strike_desc. rewrite sorted_by_is_sorted_on.
  apply Sorted_StronglySorted; [intros a b c Hab Hbc; lra | ].
  apply Sorted_weaken with
    (R1 := fun x y => Py.ltb (Scanner.strike_price x) (Scanner.strike_price y)
                      = false).
  - intros a b Hab. unfold Py.ltb in Hab.
    destruct (Rlt_dec _ _); [discriminate | lra].
  - apply (sorted_on_sorted (fun a b : R => Py.ltb b a) Scanner.strike_price).
    intros a b H. apply py_ltb_spec in H. apply py_ltb_false. lra.
Qed.

(** [next] returns the first element that passes the test. *)
Lemma next_or_none_some {A : Type} (p : A -> bool) (l : list A) (x : A) :
  PyMore.next_or_none p l = Some x ->
  exists l1 l2, l = l1 ++ x :: l2 /\ p x = true /\
                forall y, In y l1 -> p y = false.
Proof.
  unfold PyMore.next_or_none.
  induction l as [ | y tl IH]; cbn [find]; [discriminate | ].
  destruct (p y) eqn:E.
  - intros [= <-]. exists [], tl. repeat split; [assumption | intros z []].
  - intros H. destruct (IH H) as [l1 [l2 [-> [Hp Hl1]]]].
    exists (y :: l1), l2. repeat split; [assumption | ].
    intros z [<- | Hz]; [assumption | now apply Hl1].
Qed.

Lemma next_or_none_none {A : Type} (p : A -> bool) (l : list A) :
  PyMore.next_or_none p l = None <-> forall y, In y l -> p y = false.
Proof.
  unfold PyMore.next_or_none. split.
  - intros H y Hy. now apply (find_none p l H).
  - intros H. destruct (find p l) as [x | ] eqn:E; [ | reflexivity].
    apply find_some in E. destruct E as [Hin Hp].
    rewrite (H x Hin) in Hp. discriminate.
Qed.

Lemma strongly_sorted_split {A : Type} (R : A -> A -> Prop)
  (l1 l2 : list A) (x : A) :
  StronglySorted R (l1 ++ x :: l2) ->
  (forall y, In y l1 -> R y x) /\ (forall z, In z l2 -> R x z).
Proof.
  induction l1 as [ | a tl IH]; cbn [app]; intros H;
    inversion H as [ | ? ? Hs Hall]; subst.
  - split; [intros y [] | ]. intros z Hz.
    rewrite Forall_forall in Hall. now apply Hall.
  - destruct (IH Hs) as [H1 H2]. split; [ | assumption].
    intros y [<- | Hy]; [ | now apply H1].
    rewrite Forall_forall in Hall. apply Hall.
    apply in_or_app. right. now left.
Qed.

(** In a list sorted by ascending strike, the first contract struck below
    a level, if there is one, is the lowest strike of the whole list. *)
Lemma first_below_is_lowest (l : list Scanner.Contract) (level : R)
  (k : Scanner.Contract) :
  StronglySorted
    (fun a b => Scanner.strike_price a <= Scanner.strike_price b) l ->
  PyMore.next_or_none (fun x => Py.ltb (Scanner.strike_price x) level) l
    = Some k ->
  In k l /\ Scanner.strike_price k < level /\
  forall k', In k' l -> Scanner.strike_price k <= Scanner.strike_price k'.
Proof.
  intros Hs Hf.
  destruct (next_or_none_some _ _ _ Hf) as [l1 [l2 [-> [Hp Hl1]]]].
  apply py_ltb_spec in Hp.
  destruct (strongly_sorted_split _ _ _ _ Hs) as [Hbefore Hafter].
  split; [apply in_or_app; right; now left | ].
  split; [assumption | ].
  intros k' Hin. apply in_app_or in Hin. destruct Hin as [Hin | [<- | Hin]].
  - specialize (Hl1 k' Hin). specialize (Hbefore k' Hin). cbv beta in *.
    unfold Py.ltb in Hl1. destruct (Rlt_dec _ _); [discriminate | lra].
  - lra.
  - now apply Hafter.
Qed.

(** The first contract struck above a level is the lowest strike above
    that level. *)
Lemma first_above_is_nearest (l : list Scanner.Contract) (level : R)
  (k : Scanner.Contract) :
  StronglySorted
    (fun a b => Scanner.strike_price a <= Scanner.strike_price b) l ->
  PyMore.next_or_none (fun x => Py.ltb level (Scanner.strike_price x)) l
    = Some k ->
  In k l /\ level < Scanner.strike_price k /\
  forall k', In k' l -> level < Scanner.strike_price k' ->
             Scanner.strike_price k <= Scanner.strike_price k'.
Proof.
  intros Hs Hf.
  destruct (next_or_none_some _ _ _ Hf) as [l1 [l2 [-> [Hp Hl1]]]].
  apply py_ltb_spec in Hp.
  destruct (strongly_sorted_split _ _ _ _ Hs) as [Hbefore Hafter].
  split; [apply in_or_app; right; now left | ].
  split; [assumption | ].
  intros k' Hin Hk'. apply in_app_or in Hin. destruct Hin as [Hin | [<- | Hin]].
  - specialize (Hl1 k' Hin). cbv beta in Hl1.
    rewrite py_ltb_true in Hl1 by assumption. discriminate.
  - lra.
  - now apply Hafter.
Qed.

Lemma sorted_by_strike_nil (l : list Scanner.Contract) :
  Advanced.sorted_by_strike l = [] -> l = [].
Proof.
  intros H. pose proof (sorted_by_strike_perm l) as P. rewrite H in P.
  now apply Permutation_nil in P.
Qed.

Lemma sorted_strike_in (k : Scanner.Contract) (l : list Scanner.Contract) :
  In k (Advanced.sorted_by_strike l) -> In k l.
Proof. apply in_sorted_by. Qed.

Lemma in_sorted_strike (k : Scanner.Contract) (l : list Scanner.Contract) :
  In k l -> In k (Advanced.sorted_by_strike l).
Proof. apply in_sorted_by. Qed.

(** ** Lesson 4 and the chain examples of the Greeks lesson *)

(** X5: lesson 4 raises ValueError on an empty chain.  On any other chain
    its at-the-money example is a contract of the chain that no other
    contract is closer to the price than; its in-the-money example, shown
    exactly when some strike is more than 5 below the price, is the
    lowest strike of the whole chain, with a printed intrinsic value
    above 5; its out-of-the-money example, shown exactly when some strike
    is more than 5 above the price, is the lowest such strike. *)
Theorem lesson_4_examples (current_price : R)
  (option_contracts : list Scanner.Contract) :
  (option_contracts = [] ->
   Lessons.moneyness_examples current_price option_contracts
   = Raised ValueError) /\
  (option_contracts <> [] ->
   exists ex,
     Lessons.moneyness_examples current_price option_contracts = Returned ex /\
     In (Lessons.ex_atm ex) option_contracts /\
     (forall k, In k option_contracts ->
        Rabs (Scanner.strike_price (Lessons.ex_atm ex) - current_price)
        <= Rabs (Scanner.strike_price k - current_price)) /\
     (forall k v, Lessons.ex_itm ex = Some (k, v) ->
        In k option_contracts /\
        v = current_price - Scanner.strike_price k /\ 5 < v /\
        forall k', In k' option_contracts ->
                   Scanner.strike_price k <= Scanner.strike_price k') /\
     (Lessons.ex_itm ex = None <->
      forall k, In k option_contracts ->
                current_price - 5 <= Scanner.strike_price k) /\
     (forall k, Lessons.ex_otm ex = Some k ->
        In k option_contracts /\
        current_price + 5 < Scanner.strike_price k /\
        forall k', In k' option_contracts ->
                   current_price + 5 < Scanner.strike_price k' ->
                   Scanner.strike_price k <= Scanner.strike_price k') /\
     (Lessons.ex_otm ex = None <->
      forall k, In k option_contracts ->
                Scanner.strike_price k <= current_price + 5)).
Proof.
  unfold Lessons.moneyness_examples. split.
  - intros ->. reflexivity.
  - intros Hne.
    set (calls := Advanced.sorted_by_strike option_contracts).
    pose proof (sorted_by_strike_ascending option_contracts) as Hs.
    fold calls in Hs.
    pose proof (min_by_spec
                  (fun x => Rabs (Scanner.strike_price x - current_price))
                  calls) as Hmin.
    destruct (PyMore.min_by _ calls) as [atm | e].
    2:{ destruct Hmin as [_ Hnil]. apply sorted_by_strike_nil in Hnil.
        contradiction. }
    destruct Hmin as [Hin Hclosest]. cbn [PyMore.obind].
    eexists. split; [reflexivity | ].
    cbn [Lessons.ex_atm Lessons.ex_itm Lessons.ex_otm].
    split; [now apply sorted_strike_in | ].
    split; [intros k Hk; apply Hclosest; now apply in_sorted_strike | ].
    split; [ | split; [ | split]].
    + intros k v Hitm.
      destruct (PyMore.next_or_none _ calls) as [k0 | ] eqn:E;
        cbn [option_map] in Hitm; [ | discriminate].
      injection Hitm as <- <-.
      destruct (first_below_is_lowest calls _ k0 Hs E) as [Hk [Hlt Hlow]].
      split; [now apply sorted_strike_in | ].
      split; [reflexivity | ]. split; [lra | ].
      intros k' Hk'. apply Hlow. now apply in_sorted_strike.
    + destruct (PyMore.next_or_none _ calls) as [k0 | ] eqn:E;
        cbn [option_map].
      * split; [discriminate | ]. intros Hall.
        destruct (first_below_is_lowest calls _ k0 Hs E) as [Hk [Hlt _]].
        apply sorted_strike_in in Hk. specialize (Hall k0 Hk). lra.
      * split; [ | reflexivity]. intros _ k Hk.
        apply in_sorted_strike in Hk.
        rewrite next_or_none_none in E. specialize (E k Hk). cbv beta in E.
        unfold Py.ltb in E. destruct (Rlt_dec _ _); [discriminate | lra].
    + intros k E.
      destruct (first_above_is_nearest calls _ k Hs E) as [Hk [Hlt Hlow]].
      split; [now apply sorted_strike_in | ]. split; [assumption | ].
      intros k' Hk' Hab. apply Hlow; [now apply in_sorted_strike | assumption].
    + destruct (PyMore.next_or_none
                  (fun k => Py.ltb (current_price + 5) (Scanner.strike_price k))
                  calls) as [k0 | ] eqn:E.
      * split; [discriminate | ]. intros Hall.
        destruct (first_above_is_nearest calls _ k0 Hs E) as [Hk [Hlt _]].
        apply sorted_strike_in in Hk. specialize (Hall k0 Hk). lra.
      * split; [ | reflexivity]. intros _ k Hk.
        apply in_sorted_strike in Hk.
        rewrite next_or_none_none in E. specialize (E k Hk). cbv beta in E.
        unfold Py.ltb in E. destruct (Rlt_dec _ _); [discriminate | lra].
Qed.

Lemma lesson_4_examples_witness :
  exists ex,
    Lessons.moneyness_examples 100 Examples.chain = Returned ex /\
    In (Lessons.ex_atm ex) Examples.chain.
Proof.
  assert (H : Examples.chain <> []) by discriminate.
  destruct (proj2 (lesson_4_examples 100 Examples.chain) H)
    as [ex [E [Hin _]]].
  exists ex. split; assumption.
Defined.

(** X6: the chain examples that close the Greeks lesson raise ValueError
    on an empty chain; otherwise the "ATM Call" line shows a call of the
    chain with no strike closer to the price; the "ITM Call" line,
    printed exactly when some strike is more than 10 below the price,
    shows a call of the chain with the lowest strike of all; the
    "OTM Call" line, printed exactly when some strike is more than 10
    above the price, shows a call of the chain with the lowest such
    strike. *)
Theorem greeks_examples_spec (current_price : R)
  (option_contracts : list Scanner.Contract) :
  (option_contracts = [] ->
   Strategies.greeks_examples current_price option_contracts
   = Raised ValueError) /\
  (option_contracts <> [] ->
   exists itm atm otm,
     Strategies.greeks_examples current_price option_contracts
     = Returned (itm, atm, otm) /\
     In atm option_contracts /\
     (forall k, In k option_contracts ->
        Rabs (Scanner.strike_price atm - current_price)
        <= Rabs (Scanner.strike_price k - current_price)) /\
     (forall k, itm = Some k ->
        In k option_contracts /\
        Scanner.strike_price k < current_price - 10 /\
        forall k', In k' option_contracts ->
                   Scanner.strike_price k <= Scanner.strike_price k') /\
     (itm = None <->
      forall k, In k option_contracts ->
                current_price - 10 <= Scanner.strike_price k) /\
     (forall k, otm = Some k ->
        In k option_contracts /\
        current_price + 10 < Scanner.strike_price k /\
        forall k', In k' option_contracts ->
                   current_price + 10 < Scanner.strike_price k' ->
                   Scanner.strike_price k <= Scanner.strike_price k') /\
     (otm = None <->
      forall k, In k option_contracts ->
                Scanner.strike_price k <= current_price + 10)).
Proof.
  unfold Strategies.greeks_examples. split.
  - intros ->. reflexivity.
  - intros Hne.
    set (calls := Advanced.sorted_by_strike option_contracts).
    pose proof (sorted_by_strike_ascending option_contracts) as Hs.
    fold calls in Hs.
    pose proof (min_by_spec
                  (fun x => Rabs (Scanner.strike_price x - current_price))
                  calls) as Hmin.
    destruct (PyMore.min_by _ calls) as [atm | e].
    2:{ destruct Hmin as [_ Hnil]. apply sorted_by_strike_nil in Hnil.
        contradiction. }
    destruct Hmin as [Hin Hclosest]. cbn [PyMore.obind].
    do 3 eexists. split; [reflexivity | ].
    split; [now apply sorted_strike_in | ].
    split; [intros k Hk; apply Hclosest; now apply in_sorted_strike | ].
    split; [ | split; [ | split]].
    + intros k E.
      destruct (first_below_is_lowest calls _ k Hs E) as [Hk [Hlt Hlow]].
      split; [now apply sorted_strike_in | ]. split; [assumption | ].
      intros k' Hk'. apply Hlow. now apply in_sorted_strike.
    + destruct (PyMore.next_or_none
                  (fun k => Py.ltb (Scanner.strike_price k) (current_price - 10))
                  calls) as [k0 | ] eqn:E.
      * split; [discriminate | ]. intros Hall.
        destruct (first_below_is_lowest calls _ k0 Hs E) as [Hk [Hlt _]].
        apply sorted_strike_in in Hk. specialize (Hall k0 Hk). lra.
      * split; [ | reflexivity]. intros _ k Hk.
        apply in_sorted_strike in Hk.
        rewrite next_or_none_none in E. specialize (E k Hk). cbv beta in E.
        unfold Py.ltb in E. destruct (Rlt_dec _ _); [discriminate | lra].
    + intros k E.
      destruct (first_above_is_nearest calls _ k Hs E) as [Hk [Hlt Hlow]].
      split; [now apply sorted_strike_in | ]. split; [assumption | ].
      intros k' Hk' Hab. apply Hlow; [now apply in_sorted_strike | assumption].
    + destruct (PyMore.next_or_none
                  (fun k => Py.ltb (current_price + 10) (Scanner.strike_price k))
                  calls) as [k0 | ] eqn:E.
      * split; [discriminate | ]. intros Hall.
        destruct (first_above_is_nearest calls _ k0 Hs E) as [Hk [Hlt _]].
        apply sorted_strike_in in Hk. specialize (Hall k0 Hk). lra.
      * split; [ | reflexivity]. intros _ k Hk.
        apply in_sorted_strike in Hk.
        rewrite next_or_none_none in E. specialize (E k Hk). cbv beta in E.
        unfold Py.ltb in E. destruct (Rlt_dec _ _); [discriminate | lra].
Qed.

Lemma greeks_examples_spec_witness :
  exists itm atm otm,
    Strategies.greeks_examples 100 Examples.chain = Returned (itm, atm, otm) /\
    In atm Examples.chain.
Proof.
  assert (H : Examples.chain <> []) by discriminate.
  destruct (proj2 (greeks_examples_spec 100 Examples.chain) H)
    as [itm [atm [otm [E [Hin _]]]]].
  exists itm, atm, otm. split; assumption.
Defined.

(** ** Lessons 2 and 3 from the quote and the chain *)

Lemma lesson_2_table_ok (current_price strike : R) :
  exists rows,
    Guide.lesson_2_analyze_call_option current_price strike = Ok rows /\
    length rows = 6%nat.
Proof.
  assert (H3 : Guide.premium <> 0) by (unfold Guide.premium; lra).
  eexists. split.
  - unfold Guide.lesson_2_analyze_call_option, Guide.call_scenarios.
    cbn [Py.for_each snd]. rewrite !call_row_ok by exact H3.
    cbn [Py.bind]. reflexivity.
  - reflexivity.
Qed.

Lemma lesson_3_table_ok (current_price strike : R) :
  exists rows,
    Guide.lesson_3_analyze_put_option current_price strike = Ok rows /\
    length rows = 6%nat.
Proof.
  assert (H3 : Guide.premium <> 0) by (unfold Guide.premium; lra).
  eexists. split.
  - unfold Guide.lesson_3_analyze_put_option, Guide.put_scenarios.
    cbn [Py.for_each snd]. rewrite !put_row_ok by exact H3.
    cbn [Py.bind]. reflexivity.
  - reflexivity.
Qed.

(** X7: once the quote and the chain are fetched, lessons 2 and 3 fail in
    one way only: an empty chain makes [min] raise ValueError.  On any
    other chain they print their six-line table for, and return, a
    contract of the chain whose strike no other is closer to the mid
    price than. *)
Theorem lessons_2_3_pick_closest_strike
  (c : Broker.Client) (today : Z) (symbol : string) (quote : Broker.Quote)
  (calls puts : list Scanner.Contract) :
  Broker.get_stock_latest_quote c symbol = Ok quote ->
  Broker.option_contracts c
    (Broker.mkRequest symbol today (today + 30) (Some Broker.CALL) 50)
  = Ok calls ->
  Broker.option_contracts c
    (Broker.mkRequest symbol today (today + 30) (Some Broker.PUT) 50)
  = Ok puts ->
  (calls = [] ->
   Lessons.lesson_2_analyze_call_option c today symbol = Raised ValueError) /\
  (puts = [] ->
   Lessons.lesson_3_analyze_put_option c today symbol = Raised ValueError) /\
  (calls <> [] ->
   exists rows atm_call,
     Lessons.lesson_2_analyze_call_option c today symbol
     = Returned (rows, atm_call) /\
     Guide.lesson_2_analyze_call_option (Broker.mid quote)
       (Scanner.strike_price atm_call) = Ok rows /\
     length rows = 6%nat /\ In atm_call calls /\
     forall k, In k calls ->
       Rabs (Scanner.strike_price atm_call - Broker.mid quote)
       <= Rabs (Scanner.strike_price k - Broker.mid quote)) /\
  (puts <> [] ->
   exists rows atm_put,
     Lessons.lesson_3_analyze_put_option c today symbol
     = Returned (rows, atm_put) /\
     Guide.lesson_3_analyze_put_option (Broker.mid quote)
       (Scanner.strike_price atm_put) = Ok rows /\
     length rows = 6%nat /\ In atm_put puts /\
     forall k, In k puts ->
       Rabs (Scanner.strike_price atm_put - Broker.mid quote)
       <= Rabs (Scanner.strike_price k - Broker.mid quote)).
Proof.
  intros Hq Hc Hp.
  unfold Lessons.lesson_2_analyze_call_option,
    Lessons.lesson_3_analyze_put_option.
  rewrite Hq, Hc, Hp. cbn [PyMore.of_result PyMore.obind].
  split; [intros ->; reflexivity | ].
  split; [intros ->; reflexivity | ].
  split.
  - intros Hne.
    pose proof (min_by_spec
                  (fun x => Rabs (Scanner.strike_price x - Broker.mid quote))
                  calls) as Hmin.
    destruct (PyMore.min_by _ calls) as [atm | e];
      [ | destruct Hmin as [_ Hnil]; contradiction].
    destruct Hmin as [Hin Hclosest]. cbn [PyMore.obind].
    destruct (lesson_2_table_ok (Broker.mid quote) (Scanner.strike_price atm))
      as [rows [Hrows Hlen]].
    rewrite Hrows. cbn [PyMore.of_result PyMore.obind].
    exists rows, atm. repeat split; assumption.
  - intros Hne.
    pose proof (min_by_spec
                  (fun x => Rabs (Scanner.strike_price x - Broker.mid quote))
                  puts) as Hmin.
    destruct (PyMore.min_by _ puts) as [atm | e];
      [ | destruct Hmin as [_ Hnil]; contradiction].
    destruct Hmin as [Hin Hclosest]. cbn [PyMore.obind].
    destruct (lesson_3_table_ok (Broker.mid quote) (Scanner.strike_price atm))
      as [rows [Hrows Hlen]].
    rewrite Hrows. cbn [PyMore.of_result PyMore.obind].
    exists rows, atm. repeat split; assumption.
Qed.

Lemma lessons_2_3_pick_closest_strike_witness :
  exists rows atm_call,
    Lessons.lesson_2_analyze_call_option Samples.client 0 "SPY"
    = Returned (rows, atm_call) /\
    In atm_call
       (map Broker.listed
          (Samples.answer
             (Broker.mkRequest "SPY" 0 (0 + 30) (Some Broker.CALL) 50))).
Proof.
  pose proof (lessons_2_3_pick_closest_strike Samples.client 0 "SPY"
                (Broker.mkQuote 101 99)
                (map Broker.listed
                   (Samples.answer
                      (Broker.mkRequest "SPY" 0 (0 + 30) (Some Broker.CALL) 50)))
                (map Broker.listed
                   (Samples.answer
                      (Broker.mkRequest "SPY" 0 (0 + 30) (Some Broker.PUT) 50)))
                eq_refl eq_refl eq_refl) as [_ [_ [H _]]].
  assert (Hne : map Broker.listed
                  (Samples.answer
                     (Broker.mkRequest "SPY" 0 (0 + 30) (Some Broker.CALL) 50))
                <> []) by discriminate.
  destruct (H Hne) as [rows [atm [E [_ [_ [Hin _]]]]]].
  exists rows, atm. split; assumption.
Defined.

(** ** The two scans *)

Lemma get_stock_price_some (c : Broker.Client) (symbol : string) (p : R) :
  Scan.get_stock_price c symbol = Some p ->
  exists quote,
    Broker.get_stock_latest_quote c symbol = Ok quote /\ p = Broker.mid quote.
Proof.
  unfold Scan.get_stock_price.
  destruct (Broker.get_stock_latest_quote c symbol) as [q | e];
    cbn [Py.bind Py.try_except_none]; [ | discriminate].
  intros [= <-]. now exists q.
Qed.

Lemma truthy_some (p : R) : PyMore.truthy (Some p) = true <-> p <> 0.
Proof.
  cbn [PyMore.truthy]. destruct (Req_dec_T p 0); split; intros H;
    try discriminate; try reflexivity; try assumption; contradiction.
Qed.

Lemma truthy64_fin (r : R) :
  PyMore.truthy64 (Some (Np.Fin r)) = true <-> r <> 0.
Proof.
  cbn [PyMore.truthy64]. destruct (Req_dec_T r 0); split; intros H;
    try discriminate; try reflexivity; try assumption; contradiction.
Qed.

Lemma np_ltb_asym (a b : Np.float64) :
  Np.ltb a b = true -> Np.ltb b a = false.
Proof.
  destruct a as [x | | | ], b as [y | | | ]; cbn [Np.ltb];
    try reflexivity; try discriminate.
  intros H. apply py_ltb_spec in H. apply py_ltb_false. lra.
Qed.

(** What it takes for a symbol to be appended by the high-IV scan. *)
Lemma high_iv_candidate_inv (c : Broker.Client) (today : Z)
  (min_price max_price : R) (symbol : string) (hit : Scan.Hit) :
  Scan.high_iv_candidate c today min_price max_price symbol
  = Returned (Some hit) ->
  Scan.hit_symbol hit = symbol /\
  Scan.get_stock_price c symbol = Some (Scan.hit_price hit) /\
  Scan.hit_price hit <> 0 /\
  min_price <= Scan.hit_price hit <= max_price /\
  (exists r,
     Scan.calculate_iv_rank c symbol Scanner.default_days = Some (Np.Fin r) /\
     Scan.hit_iv_rank hit = Np.Fin r /\ 50 <= r <= 100) /\
  exists options k,
    Broker.option_contracts c (Scan.scan_request today symbol) = Ok options /\
    In k options /\
    Scan.hit_atm_strike hit = Scanner.strike_price k /\
    Scan.hit_expiry hit = Scanner.expiration_date k /\
    forall k', In k' options ->
      Rabs (Scanner.strike_price k - Scan.hit_price hit)
      <= Rabs (Scanner.strike_price k' - Scan.hit_price hit).
Proof.
  unfold Scan.high_iv_candidate.
  destruct (Scan.get_stock_price c symbol) as [p | ] eqn:Hprice;
    [ | discriminate].
  destruct (negb (PyMore.truthy (Some p)) || Py.ltb p min_price
            || Py.ltb max_price p) eqn:Hguard; [discriminate | ].
  apply orb_false_elim in Hguard. destruct Hguard as [Hguard Hmax].
  apply orb_false_elim in Hguard. destruct Hguard as [Htruthy Hmin].
  apply negb_false_iff, truthy_some in Htruthy.
  unfold Scan.calculate_iv_rank.
  destruct (Scanner.calculate_iv_rank _ Scanner.default_days) as [iv | ] eqn:Hiv;
    [ | discriminate].
  destruct (iv_rank_range _ _ _ Hiv) as [r [-> Hr]].
  destruct (negb (PyMore.truthy64 (Some (Np.Fin r)))
            || Np.ltb (Np.Fin r) (Np.Fin 50)) eqn:Hrank; [discriminate | ].
  apply orb_false_elim in Hrank. destruct Hrank as [_ Hlow].
  cbn [Np.ltb] in Hlow.
  destruct (Broker.option_contracts c (Scan.scan_request today symbol))
    as [options | e]; cbn [PyMore.of_result PyMore.obind]; [ | discriminate].
  destruct options as [ | k0 tl] eqn:Hopts; cbn [Py.not_list];
    [discriminate | ].
  rewrite <- Hopts.
  pose proof (min_by_spec (fun x => Rabs (Scanner.strike_price x - p)) options)
    as Hmin_by.
  destruct (PyMore.min_by _ options) as [atm | e]; cbn [PyMore.obind];
    [ | discriminate].
  destruct Hmin_by as [Hin Hclosest].
  intros [= <-]. cbn [Scan.hit_symbol Scan.hit_price Scan.hit_iv_rank
                      Scan.hit_atm_strike Scan.hit_expiry].
  unfold Py.ltb in Hmin, Hmax, Hlow.
  destruct (Rlt_dec p min_price); [discriminate | ].
  destruct (Rlt_dec max_price p); [discriminate | ].
  destruct (Rlt_dec r 50); [discriminate | ].
  repeat split; try reflexivity; try assumption; try lra.
  - exists r. repeat split; try reflexivity; lra.
  - exists options, atm. repeat split; try reflexivity; assumption.
Qed.

(** The same for the low-IV scan: the rank is above 0 and at most 50. *)
Lemma low_iv_candidate_inv (c : Broker.Client) (today : Z)
  (min_price max_price : R) (symbol : string) (hit : Scan.Hit) :
  Scan.low_iv_candidate c today min_price max_price symbol
  = Returned (Some hit) ->
  Scan.hit_symbol hit = symbol /\
  Scan.get_stock_price c symbol = Some (Scan.hit_price hit) /\
  Scan.hit_price hit <> 0 /\
  min_price <= Scan.hit_price hit <= max_price /\
  (exists r,
     Scan.calculate_iv_rank c symbol Scanner.default_days = Some (Np.Fin r) /\
     Scan.hit_iv_rank hit = Np.Fin r /\ 0 < r <= 50) /\
  exists options,
    Broker.option_contracts c (Scan.scan_request today symbol) = Ok options /\
    options <> [].
Proof.
  unfold Scan.low_iv_candidate.
  destruct (Scan.get_stock_price c symbol) as [p | ] eqn:Hprice;
    [ | discriminate].
  destruct (negb (PyMore.truthy (Some p)) || Py.ltb p min_price
            || Py.ltb max_price p) eqn:Hguard; [discriminate | ].
  apply orb_false_elim in Hguard. destruct Hguard as [Hguard Hmax].
  apply orb_false_elim in Hguard. destruct Hguard as [Htruthy Hmin].
  apply negb_false_iff, truthy_some in Htruthy.
  unfold Scan.calculate_iv_rank.
  destruct (Scanner.calculate_iv_rank _ Scanner.default_days) as [iv | ] eqn:Hiv;
    [ | discriminate].
  destruct (iv_rank_range _ _ _ Hiv) as [r [-> Hr]].
  destruct (negb (PyMore.truthy64 (Some (Np.Fin r)))
            || Np.ltb (Np.Fin 50) (Np.Fin r)) eqn:Hrank; [discriminate | ].
  apply orb_false_elim in Hrank. destruct Hrank as [Hnz Hhigh].
  apply negb_false_iff, truthy64_fin in Hnz.
  cbn [Np.ltb] in Hhigh.
  destruct (Broker.option_contracts c (Scan.scan_request today symbol))
    as [options | e]; cbn [PyMore.of_result PyMore.obind]; [ | discriminate].
  destruct options as [ | k0 tl] eqn:Hopts; cbn [Py.not_list];
    [discriminate | ].
  rewrite <- Hopts.
  destruct (PyMore.min_by _ options) as [atm | e]; cbn [PyMore.obind];
    [ | discriminate].
  intros [= <-]. cbn [Scan.hit_symbol Scan.hit_price Scan.hit_iv_rank].
  unfold Py.ltb in Hmin, Hmax, Hhigh.
  destruct (Rlt_dec p min_price); [discriminate | ].
  destruct (Rlt_dec max_price p); [discriminate | ].
  destruct (Rlt_dec 50 r); [discriminate | ].
  repeat split; try reflexivity; try assumption; try lra.
  - exists r. repeat split; try reflexivity; lra.
  - exists options. split; [reflexivity | ]. rewrite Hopts. discriminate.
Qed.

Lemma collect_in (body : string -> outcome (option Scan.Hit))
  (symbols : list string) (hit : Scan.Hit) :
  In hit (Scan.collect body symbols) ->
  exists symbol, In symbol symbols /\ body symbol = Returned (Some hit).
Proof.
  induction symbols as [ | s tl IH]; cbn [Scan.collect In]; [tauto | ].
  destruct (body s) as [[h | ] | e] eqn:E.
  - intros [<- | Hin].
    + exists s. split; [now left | assumption].
    + destruct (IH Hin) as [s' [Hs' Hb]]. exists s'. split; [now right | assumption].
  - intros Hin. destruct (IH Hin) as [s' [Hs' Hb]].
    exists s'. split; [now right | assumption].
  - intros Hin. destruct (IH Hin) as [s' [Hs' Hb]].
    exists s'. split; [now right | assumption].
Qed.

Lemma strongly_sorted_firstn {A : Type} (R : A -> A -> Prop) (n : nat)
  (l : list A) :
  StronglySorted R l -> StronglySorted R (firstn n l).
Proof.
  revert l. induction n as [ | n IH]; intros l Hs; cbn [firstn];
    [constructor | ].
  destruct Hs as [ | a l Hs Hall]; constructor.
  - now apply IH.
  - rewrite Forall_forall in *. intros x Hx. apply Hall.
    now apply (in_slice_to n).
Qed.

Lemma strongly_sorted_map {A B : Type} (R : A -> A -> Prop)
  (R' : B -> B -> Prop) (f : A -> B) (l : list A) :
  (forall a b, R a b -> R' (f a) (f b)) ->
  StronglySorted R l -> StronglySorted R' (map f l).
Proof.
  intros H. induction 1 as [ | a l Hs IH Hall]; cbn [map]; constructor;
    [assumption | ].
  rewrite Forall_forall in *. intros y Hy.
  apply in_map_iff in Hy. destruct Hy as [x [<- Hx]]. apply H. now apply Hall.
Qed.

Lemma sorted_strengthen {A : Type} (R R' : A -> A -> Prop) (P : A -> Prop)
  (l : list A) :
  (forall a b, P a -> P b -> R a b -> R' a b) ->
  (forall a, In a l -> P a) -> Sorted R l -> Sorted R' l.
Proof.
  intros H HP. induction 1 as [ | a l0 Hs IH Hhd]; constructor.
  - apply IH. intros x Hx. apply HP. now right.
  - destruct Hhd as [ | b l1 Hab]; constructor.
    apply H; [apply HP; now left | apply HP; right; now left | assumption].
Qed.

(** Ranks in descending order, read on two printed lines. *)
Lemma hits_sorted_desc (hits : list Scan.Hit) :
  (forall h, In h hits -> exists r, Scan.hit_iv_rank h = Np.Fin r) ->
  StronglySorted
    (fun a b => exists ra rb,
       Scan.hit_iv_rank a = Np.Fin ra /\ Scan.hit_iv_rank b = Np.Fin rb /\
       rb <= ra)
    (PyMore.sorted_on (fun a b => Np.ltb b a) Scan.hit_iv_rank hits).
Proof.
  intros Hfin. apply Sorted_StronglySorted.
  - intros a b c [ra [rb [Ha [Hb Hab]]]] [rb' [rc [Hb' [Hc Hbc]]]].
    rewrite Hb in Hb'. injection Hb' as <-.
    exists ra, rc. repeat split; try assumption. lra.
  - apply sorted_strengthen with
      (R := fun x y => Np.ltb (Scan.hit_iv_rank x) (Scan.hit_iv_rank y) = false)
      (P := fun h => exists r, Scan.hit_iv_rank h = Np.Fin r).
    + intros a b [ra Ha] [rb Hb] Hab. exists ra, rb.
      repeat split; try assumption.
      rewrite Ha, Hb in Hab. cbn [Np.ltb] in Hab. unfold Py.ltb in Hab.
      destruct (Rlt_dec ra rb); [discriminate | lra].
    + intros h Hh. apply Hfin.
      exact (Permutation_in _
               (sorted_on_perm (fun a b => Np.ltb b a) Scan.hit_iv_rank hits)
               Hh).
    + apply (sorted_on_sorted (fun a b => Np.ltb b a) Scan.hit_iv_rank).
      intros a b. apply np_ltb_asym.
Qed.

Lemma hits_sorted_asc (hits : list Scan.Hit) :
  (forall h, In h hits -> exists r, Scan.hit_iv_rank h = Np.Fin r) ->
  StronglySorted
    (fun a b => exists ra rb,
       Scan.hit_iv_rank a = Np.Fin ra /\ Scan.hit_iv_rank b = Np.Fin rb /\
       ra <= rb)
    (PyMore.sorted_on Np.ltb Scan.hit_iv_rank hits).
Proof.
  intros Hfin. apply Sorted_StronglySorted.
  - intros a b c [ra [rb [Ha [Hb Hab]]]] [rb' [rc [Hb' [Hc Hbc]]]].
    rewrite Hb in Hb'. injection Hb' as <-.
    exists ra, rc. repeat split; try assumption. lra.
  - apply sorted_strengthen with
      (R := fun x y => Np.ltb (Scan.hit_iv_rank y) (Scan.hit_iv_rank x) = false)
      (P := fun h => exists r, Scan.hit_iv_rank h = Np.Fin r).
    + intros a b [ra Ha] [rb Hb] Hab. exists ra, rb.
      repeat split; try assumption.
      rewrite Ha, Hb in Hab. cbn [Np.ltb] in Hab. unfold Py.ltb in Hab.
      destruct (Rlt_dec rb ra); [discriminate | lra].
    + intros h Hh. apply Hfin.
      exact (Permutation_in _
               (sorted_on_perm Np.ltb Scan.hit_iv_rank hits) Hh).
    + apply (sorted_on_sorted Np.ltb Scan.hit_iv_rank).
      intros a b. apply np_ltb_asym.
Qed.

(** Every line of the high-IV scan comes from a symbol that passed the
    body of the loop. *)
Lemma high_scan_line_origin (c : Broker.Client) (today : Z)
  (symbols : list string) (min_price max_price : R)
  (lines : list Scan.ScanLine) (line : Scan.ScanLine) :
  Scan.scan_high_iv_opportunities c today symbols min_price max_price
  = Some lines ->
  In line lines ->
  exists hit symbol,
    In symbol symbols /\
    Scan.high_iv_candidate c today min_price max_price symbol
    = Returned (Some hit) /\
    Scan.sl_symbol line = Scan.hit_symbol hit /\
    Scan.sl_price line = Scan.hit_price hit /\
    Scan.sl_iv_rank line = Scan.hit_iv_rank hit.
Proof.
  unfold Scan.scan_high_iv_opportunities.
  destruct (Py.not_list _); [discriminate | ].
  remember (Py.slice_to 10 _) as top eqn:Etop.
  intros [= <-] Hin. apply in_map_iff in Hin. destruct Hin as [hit [<- Hin]].
  rewrite Etop in Hin. apply in_slice_to in Hin.
  apply (Permutation_in _ (sorted_on_perm _ _ _)) in Hin.
  destruct (collect_in _ _ _ Hin) as [symbol [Hs Hb]].
  exists hit, symbol. repeat split; assumption.
Qed.

Lemma low_scan_line_origin (c : Broker.Client) (today : Z)
  (symbols : list string) (min_price max_price : R)
  (lines : list Scan.ScanLine) (line : Scan.ScanLine) :
  Scan.scan_low_iv_opportunities c today symbols min_price max_price
  = Some lines ->
  In line lines ->
  exists hit symbol,
    In symbol symbols /\
    Scan.low_iv_candidate c today min_price max_price symbol
    = Returned (Some hit) /\
    Scan.sl_symbol line = Scan.hit_symbol hit /\
    Scan.sl_price line = Scan.hit_price hit /\
    Scan.sl_iv_rank line = Scan.hit_iv_rank hit.
Proof.
  unfold Scan.scan_low_iv_opportunities.
  destruct (Py.not_list _); [discriminate | ].
  remember (Py.slice_to 10 _) as top eqn:Etop.
  intros [= <-] Hin. apply in_map_iff in Hin. destruct Hin as [hit [<- Hin]].
  rewrite Etop in Hin. apply in_slice_to in Hin.
  apply (Permutation_in _ (sorted_on_perm _ _ _)) in Hin.
  destruct (collect_in _ _ _ Hin) as [symbol [Hs Hb]].
  exists hit, symbol. repeat split; assumption.
Qed.

Lemma slice_to_length {A : Type} (n : nat) (l : list A) :
  (length (Py.slice_to n l) <= n)%nat.
Proof. unfold Py.slice_to. apply firstn_le_length. Qed.

Lemma slice_to_nonempty {A : Type} (n : nat) (l : list A) :
  l <> [] -> Py.slice_to (S n) l <> [].
Proof. destruct l; [congruence | discriminate]. Qed.

(** X8: when the high-IV scan prints lines, there is at least one and at
    most ten; each line is for a scanned symbol whose mid price is not
    zero and lies within [min_price, max_price] and whose rank is a
    number from 50 to 100; and the lines come in descending order of
    rank. *)
Theorem high_iv_scan_lines (c : Broker.Client) (today : Z)
  (symbols : list string) (min_price max_price : R)
  (lines : list Scan.ScanLine) :
  Scan.scan_high_iv_opportunities c today symbols min_price max_price
  = Some lines ->
  lines <> [] /\ (length lines <= 10)%nat /\
  (forall line, In line lines ->
     In (Scan.sl_symbol line) symbols /\
     Scan.get_stock_price c (Scan.sl_symbol line) = Some (Scan.sl_price line) /\
     Scan.sl_price line <> 0 /\
     min_price <= Scan.sl_price line <= max_price /\
     exists r,
       Scan.calculate_iv_rank c (Scan.sl_symbol line) Scanner.default_days
       = Some (Np.Fin r) /\
       Scan.sl_iv_rank line = Np.Fin r /\ 50 <= r <= 100) /\
  StronglySorted
    (fun a b => exists ra rb,
       Scan.sl_iv_rank a = Np.Fin ra /\ Scan.sl_iv_rank b = Np.Fin rb /\
       rb <= ra)
    lines.
Proof.
  intros H.
  assert (Hlines : forall line, In line lines ->
            In (Scan.sl_symbol line) symbols /\
            Scan.get_stock_price c (Scan.sl_symbol line)
            = Some (Scan.sl_price line) /\
            Scan.sl_price line <> 0 /\
            min_price <= Scan.sl_price line <= max_price /\
            exists r,
              Scan.calculate_iv_rank c (Scan.sl_symbol line)
                Scanner.default_days = Some (Np.Fin r) /\
              Scan.sl_iv_rank line = Np.Fin r /\ 50 <= r <= 100).
  { intros line Hin.
    destruct (high_scan_line_origin _ _ _ _ _ _ _ H Hin)
      as [hit [symbol [Hs [Hb [E1 [E2 E3]]]]]].
    destruct (high_iv_candidate_inv _ _ _ _ _ _ Hb)
      as [Hsym [Hp [Hnz [Hrange [[r [Hiv [Hr Hb50]]] _]]]]].
    rewrite E1, E2, E3, Hsym. repeat split; try assumption; try lra.
    exists r. repeat split; try assumption; lra. }
  revert H Hlines. unfold Scan.scan_high_iv_opportunities.
  set (hits := Scan.collect _ symbols).
  destruct hits as [ | h0 tl] eqn:Ehits; cbn [Py.not_list]; [discriminate | ].
  rewrite <- Ehits.
  assert (Hne : PyMore.sorted_on (fun a b => Np.ltb b a) Scan.hit_iv_rank hits
                <> []).
  { intros E. pose proof (sorted_on_perm (fun a b => Np.ltb b a)
                            Scan.hit_iv_rank hits) as P.
    rewrite E in P. apply Permutation_nil in P. rewrite Ehits in P.
    discriminate. }
  pose proof (slice_to_nonempty 9 _ Hne) as Htop.
  pose proof (slice_to_length 10
                (PyMore.sorted_on (fun a b => Np.ltb b a) Scan.hit_iv_rank hits))
    as Hlen.
  assert (Hsorted :
            StronglySorted
              (fun a b => exists ra rb,
                 Scan.hit_iv_rank a = Np.Fin ra /\
                 Scan.hit_iv_rank b = Np.Fin rb /\ rb <= ra)
              (Py.slice_to 10
                 (PyMore.sorted_on (fun a b => Np.ltb b a)
                    Scan.hit_iv_rank hits))).
  { apply strongly_sorted_firstn. apply hits_sorted_desc.
    intros h Hh. unfold hits in Hh.
    destruct (collect_in _ _ _ Hh) as [symbol [_ Hb]].
    destruct (high_iv_candidate_inv _ _ _ _ _ _ Hb)
      as [_ [_ [_ [_ [[r [_ [Hr _]]] _]]]]].
    now exists r. }
  revert Htop Hlen Hsorted.
  generalize (Py.slice_to 10
                (PyMore.sorted_on (fun a b => Np.ltb b a)
                   Scan.hit_iv_rank hits)).
  intros top Htop Hlen Hsorted [= <-] Hlines.
  split; [ | split; [ | split]].
  - intros E. apply map_eq_nil in E. contradiction.
  - now rewrite length_map.
  - exact Hlines.
  - apply strongly_sorted_map with
      (R := fun a b => exists ra rb,
              Scan.hit_iv_rank a = Np.Fin ra /\ Scan.hit_iv_rank b = Np.Fin rb /\
              rb <= ra).
    + intros a b Hab. exact Hab.
    + exact Hsorted.
Qed.

(** ** The rank of the calm sample history *)

(** The rank as a quotient of standard deviations, where both exist and
    the full-sample one is not zero. *)
Lemma iv_rank_ratio (bars : list Scanner.Bar) (days : Z) (rs : list R) :
  (20 <= length bars)%nat ->
  Scanner.daily_returns (map Scanner.close bars) = Ok rs ->
  (2 <= length (Py.slice_from (- days) rs))%nat ->
  0 < Pd.var rs ->
  Scanner.calculate_iv_rank (Ok bars) days =
    Some (Np.Fin (Spec.clamp
                    (sqrt (Pd.var (Py.slice_from (- days) rs))
                     / sqrt (Pd.var rs) * 100) 0 100)).
Proof.
  intros Hlen Hrs Hw Hv.
  rewrite (iv_rank_computed bars days rs Hlen Hrs).
  pose proof (daily_returns_length _ _ Hrs) as Hl. rewrite length_map in Hl.
  rewrite !annualized_vol_fin by lia.
  apply sqrt_lt_R0 in Hv. pose proof sqrt_252_pos as H252.
  assert (Hfull : sqrt (Pd.var rs) * sqrt 252 * 100 <> 0).
  { assert (0 < sqrt (Pd.var rs) * sqrt 252)
      by (apply Rmult_lt_0_compat; assumption).
    lra. }
  unfold Np.div.
  destruct (Req_dec_T (sqrt (Pd.var rs) * sqrt 252 * 100) 0) as [Hz | _];
    [contradiction | ].
  cbn [Np.mul]. rewrite np_clamp_fin. do 3 f_equal. field. lra.
Qed.

Lemma sum_spike (a : R) (n : nat) : Pd.sum (a :: repeat 0 n) = a.
Proof.
  cbn [Pd.sum fold_right]. fold (Pd.sum (repeat 0 n)).
  rewrite sum_repeat_zero. lra.
Qed.

Lemma sum_map_repeat (f : R -> R) (x : R) (n : nat) :
  Pd.sum (map f (repeat x n)) = INR n * f x.
Proof.
  induction n as [ | n IH].
  - cbn. lra.
  - change (repeat x (S n)) with (x :: repeat x n).
    cbn [map Pd.sum fold_right]. fold (Pd.sum (map f (repeat x n))).
    rewrite IH, S_INR. lra.
Qed.

(** The sample variance of one value followed by [n] zeros. *)
Lemma var_spike (a : R) (n : nat) :
  (1 <= n)%nat -> Pd.var (a :: repeat 0 n) = a * a / (INR n + 1).
Proof.
  intros Hn. unfold Pd.var, Pd.sum_sq_dev, Pd.mean.
  rewrite sum_spike. cbn [length]. rewrite repeat_length, S_INR.
  cbn [map Pd.sum fold_right].
  fold (Pd.sum (map (fun x : R => (x - a / (INR n + 1)) * (x - a / (INR n + 1)))
                    (repeat 0 n))).
  rewrite sum_map_repeat.
  assert (Hpos : 1 <= INR n) by (apply le_INR in Hn; cbn [INR] in Hn; lra).
  field. lra.
Qed.

Lemma calm_history_returns :
  Scanner.daily_returns (map Scanner.close Samples.calm_history)
  = Ok ((200 - 100) / 100 :: (220 - 200) / 200 :: repeat 0 29).
Proof.
  unfold Samples.calm_history. cbn [map Scanner.close].
  rewrite map_repeat. cbn [Scanner.close].
  change (repeat 220 30) with (220 :: repeat 220 29).
  rewrite !daily_returns_cons, !py_div_ok by lra. cbn [Py.bind].
  change (220 :: repeat 220 29) with (repeat 220 30).
  rewrite daily_returns_constant by lra. reflexivity.
Qed.

(** The calm history ranks strictly between 0 and 25. *)
Lemma calm_history_rank :
  exists r,
    Scanner.calculate_iv_rank (Ok Samples.calm_history) Scanner.default_days
    = Some (Np.Fin r) /\ 0 < r < 25.
Proof.
  set (rs := (200 - 100) / 100 :: (220 - 200) / 200 :: repeat 0 29).
  assert (Hslice : Py.slice_from (- Scanner.default_days) rs
                   = (220 - 200) / 200 :: repeat 0 29) by reflexivity.
  assert (Hv1 : Pd.var ((220 - 200) / 200 :: repeat 0 29) = 1 / 3000).
  { rewrite var_spike by lia. rewrite INR_IZR_INZ.
    change (Z.of_nat 29) with 29%Z. field. }
  assert (Hv2 : 16 * (1 / 3000) < Pd.var rs).
  { unfold Pd.var.
    assert (Hm : Pd.mean rs = 11 / 310).
    { unfold Pd.mean, rs. cbn [Pd.sum fold_right length].
      fold (Pd.sum (repeat 0 29)). rewrite sum_repeat_zero, repeat_length.
      rewrite INR_IZR_INZ. change (Z.of_nat (S (S 29))) with 31%Z. field. }
    assert (Hssd : (1 - 11 / 310) * (1 - 11 / 310) <= Pd.sum_sq_dev rs).
    { unfold Pd.sum_sq_dev. cbv zeta. rewrite Hm.
      pose proof (sum_ge_term (fun x : R => (x - 11 / 310) * (x - 11 / 310))
                    rs ((200 - 100) / 100)
                    (fun y => Rle_0_sqr (y - 11 / 310))
                    (or_introl eq_refl)) as H.
      cbv beta in H. eapply Rle_trans; [ | exact H]. right. field. }
    unfold rs at 2. cbn [length]. rewrite repeat_length.
    rewrite INR_IZR_INZ. change (Z.of_nat (S (S 29))) with 31%Z.
    apply Rlt_le_trans
      with ((1 - 11 / 310) * (1 - 11 / 310) / (31 - 1)); [lra | ].
    apply Rmult_le_compat_r; [ | exact Hssd].
    apply Rlt_le, Rinv_0_lt_compat. lra. }
  assert (Hpos : 0 < Pd.var rs) by lra.
  eexists. split.
  - apply (iv_rank_ratio Samples.calm_history Scanner.default_days rs).
    + unfold Samples.calm_history. cbn [length]. rewrite repeat_length. lia.
    + exact calm_history_returns.
    + rewrite Hslice. cbn [length]. rewrite repeat_length. lia.
    + exact Hpos.
  - rewrite Hslice, Hv1.
    assert (H1 : 0 < sqrt (1 / 3000)) by (apply sqrt_lt_R0; lra).
    assert (H2 : 4 * sqrt (1 / 3000) < sqrt (Pd.var rs)).
    { replace 4 with (sqrt (4 * 4)) by (apply sqrt_square; lra).
      rewrite <- sqrt_mult by lra. apply sqrt_lt_1; lra. }
    assert (H3 : 0 < sqrt (1 / 3000) / sqrt (Pd.var rs) < 1 / 4).
    { split.
      - apply Rdiv_lt_0_compat; lra.
      - apply Rmult_lt_reg_r with (r := sqrt (Pd.var rs)); [lra | ].
        unfold Rdiv at 1. rewrite Rmult_assoc, Rinv_l by lra. lra. }
    unfold Spec.clamp. rmax_lra.
Qed.

(** X9: when the low-IV scan prints lines, there is at least one and at
    most ten; each line is for a scanned symbol whose mid price is not
    zero and lies within [min_price, max_price] and whose rank is above 0
    and at most 50, so a rank of exactly 0 is never shown; and the lines
    come in ascending order of rank. *)
Theorem low_iv_scan_lines (c : Broker.Client) (today : Z)
  (symbols : list string) (min_price max_price : R)
  (lines : list Scan.ScanLine) :
  Scan.scan_low_iv_opportunities c today symbols min_price max_price
  = Some lines ->
  lines <> [] /\ (length lines <= 10)%nat /\
  (forall line, In line lines ->
     In (Scan.sl_symbol line) symbols /\
     Scan.get_stock_price c (Scan.sl_symbol line) = Some (Scan.sl_price line) /\
     Scan.sl_price line <> 0 /\
     min_price <= Scan.sl_price line <= max_price /\
     exists r,
       Scan.calculate_iv_rank c (Scan.sl_symbol line) Scanner.default_days
       = Some (Np.Fin r) /\
       Scan.sl_iv_rank line = Np.Fin r /\ 0 < r <= 50) /\
  StronglySorted
    (fun a b => exists ra rb,
       Scan.sl_iv_rank a = Np.Fin ra /\ Scan.sl_iv_rank b = Np.Fin rb /\
       ra <= rb)
    lines.
Proof.
  intros H.
  assert (Hlines : forall line, In line lines ->
            In (Scan.sl_symbol line) symbols /\
            Scan.get_stock_price c (Scan.sl_symbol line)
            = Some (Scan.sl_price line) /\
            Scan.sl_price line <> 0 /\
            min_price <= Scan.sl_price line <= max_price /\
            exists r,
              Scan.calculate_iv_rank c (Scan.sl_symbol line)
                Scanner.default_days = Some (Np.Fin r) /\
              Scan.sl_iv_rank line = Np.Fin r /\ 0 < r <= 50).
  { intros line Hin.
    destruct (low_scan_line_origin _ _ _ _ _ _ _ H Hin)
      as [hit [symbol [Hs [Hb [E1 [E2 E3]]]]]].
    destruct (low_iv_candidate_inv _ _ _ _ _ _ Hb)
      as [Hsym [Hp [Hnz [Hrange [[r [Hiv [Hr Hb50]]] _]]]]].
    rewrite E1, E2, E3, Hsym. repeat split; try assumption; try lra.
    exists r. repeat split; try assumption; lra. }
  revert H Hlines. unfold Scan.scan_low_iv_opportunities.
  set (hits := Scan.collect _ symbols).
  destruct hits as [ | h0 tl] eqn:Ehits; cbn [Py.not_list]; [discriminate | ].
  rewrite <- Ehits.
  assert (Hne : PyMore.sorted_on Np.ltb Scan.hit_iv_rank hits <> []).
  { intros E. pose proof (sorted_on_perm Np.ltb Scan.hit_iv_rank hits) as P.
    rewrite E in P. apply Permutation_nil in P. rewrite Ehits in P.
    discriminate. }
  pose proof (slice_to_nonempty 9 _ Hne) as Htop.
  pose proof (slice_to_length 10
                (PyMore.sorted_on Np.ltb Scan.hit_iv_rank hits)) as Hlen.
  assert (Hsorted :
            StronglySorted
              (fun a b => exists ra rb,
                 Scan.hit_iv_rank a = Np.Fin ra /\
                 Scan.hit_iv_rank b = Np.Fin rb /\ ra <= rb)
              (Py.slice_to 10
                 (PyMore.sorted_on Np.ltb Scan.hit_iv_rank hits))).
  { apply strongly_sorted_firstn. apply hits_sorted_asc.
    intros h Hh. unfold hits in Hh.
    destruct (collect_in _ _ _ Hh) as [symbol [_ Hb]].
    destruct (low_iv_candidate_inv _ _ _ _ _ _ Hb)
      as [_ [_ [_ [_ [[r [_ [Hr _]]] _]]]]].
    now exists r. }
  revert Htop Hlen Hsorted.
  generalize (Py.slice_to 10 (PyMore.sorted_on Np.ltb Scan.hit_iv_rank hits)).
  intros top Htop Hlen Hsorted [= <-] Hlines.
  split; [ | split; [ | split]].
  - intros E. apply map_eq_nil in E. contradiction.
  - now rewrite length_map.
  - exact Hlines.
  - apply strongly_sorted_map with
      (R := fun a b => exists ra rb,
              Scan.hit_iv_rank a = Np.Fin ra /\ Scan.hit_iv_rank b = Np.Fin rb /\
              ra <= rb).
    + intros a b Hab. exact Hab.
    + exact Hsorted.
Qed.

(** The rank of a symbol whose history is too short or constant. *)
Lemma quiet_symbol_rank (bars : list Scanner.Bar) (days : Z) :
  ((length bars < 20)%nat \/
   exists v, v <> 0 /\ forall b, In b bars -> Scanner.close b = v) ->
  Scanner.calculate_iv_rank (Ok bars) days = None \/
  Scanner.calculate_iv_rank (Ok bars) days = Some (Np.Fin 0).
Proof.
  intros [Hshort | [v [Hv Hall]]].
  - left. now apply iv_rank_too_short.
  - destruct (Nat.lt_ge_cases (length bars) 20) as [Hlt | Hge].
    + left. now apply iv_rank_too_short.
    + right. rewrite (constant_bars bars v Hall). now apply iv_rank_constant.
Qed.

(** X10: a symbol whose bar history has fewer than 20 bars, or is constant
    at a non-zero close, is never listed, neither by the high-IV scan nor
    by the low-IV scan, although a constant history is the calmest there
    is. *)
Theorem quiet_symbol_never_listed (c : Broker.Client) (today : Z)
  (symbols : list string) (min_price max_price : R)
  (symbol : string) (bars : list Scanner.Bar) :
  Broker.get_stock_bars c symbol (Scanner.default_days * 3) = Ok bars ->
  ((length bars < 20)%nat \/
   exists v, v <> 0 /\ forall b, In b bars -> Scanner.close b = v) ->
  (forall lines line,
     Scan.scan_high_iv_opportunities c today symbols min_price max_price
     = Some lines ->
     In line lines -> Scan.sl_symbol line <> symbol) /\
  (forall lines line,
     Scan.scan_low_iv_opportunities c today symbols min_price max_price
     = Some lines ->
     In line lines -> Scan.sl_symbol line <> symbol).
Proof.
  intros Hbars Hquiet.
  assert (Hrank : forall r,
            Scan.calculate_iv_rank c symbol Scanner.default_days
            = Some (Np.Fin r) -> r = 0).
  { intros r. unfold Scan.calculate_iv_rank. rewrite Hbars.
    destruct (quiet_symbol_rank bars Scanner.default_days Hquiet) as [-> | ->];
      [discriminate | ].
    now intros [= <-]. }
  split; intros lines line Hscan Hin Hsym.
  - destruct (high_scan_line_origin _ _ _ _ _ _ _ Hscan Hin)
      as [hit [s [_ [Hb [E1 _]]]]].
    destruct (high_iv_candidate_inv _ _ _ _ _ _ Hb)
      as [Hs [_ [_ [_ [[r [Hiv [_ Hr]]] _]]]]].
    rewrite <- Hs, <- E1, Hsym in Hiv. apply Hrank in Hiv. lra.
  - destruct (low_scan_line_origin _ _ _ _ _ _ _ Hscan Hin)
      as [hit [s [_ [Hb [E1 _]]]]].
    destruct (low_iv_candidate_inv _ _ _ _ _ _ Hb)
      as [Hs [_ [_ [_ [[r [Hiv [_ Hr]]] _]]]]].
    rewrite <- Hs, <- E1, Hsym in Hiv. apply Hrank in Hiv. lra.
Qed.

(** ** The scans on the sample brokerage *)

Lemma sample_price (symbol : string) :
  String.eqb symbol "NONE" = false ->
  Scan.get_stock_price Samples.client symbol = Some ((101 + 99) / 2).
Proof.
  intros H. unfold Scan.get_stock_price, Samples.client.
  cbn [Broker.get_stock_latest_quote]. rewrite H. reflexivity.
Qed.

Lemma sample_high_scan :
  exists line,
    Scan.scan_high_iv_opportunities Samples.client 0 ["NONE"; "SPY"]%string
      5 500 = Some [line] /\
    Scan.sl_symbol line = "SPY"%string.
Proof.
  unfold Scan.scan_high_iv_opportunities.
  assert (Hnone : Scan.high_iv_candidate Samples.client 0 5 500 "NONE"
                  = Returned None) by reflexivity.
  assert (Hspy : exists hit,
             Scan.high_iv_candidate Samples.client 0 5 500 "SPY"
             = Returned (Some hit) /\ Scan.hit_symbol hit = "SPY"%string).
  { unfold Scan.high_iv_candidate. rewrite sample_price by reflexivity.
    cbn [PyMore.truthy].
    destruct (Req_dec_T ((101 + 99) / 2) 0) as [Hz | _]; [lra | ].
    rewrite (py_ltb_false ((101 + 99) / 2) 5) by lra.
    rewrite (py_ltb_false 500 ((101 + 99) / 2)) by lra.
    cbn [negb orb].
    replace (Scan.calculate_iv_rank Samples.client "SPY" Scanner.default_days)
      with (Some (Np.Fin 100))
      by (symmetry; exact twenty_closes_rank).
    cbn [PyMore.truthy64 Np.ltb].
    destruct (Req_dec_T 100 0) as [Hz | _]; [lra | ].
    rewrite (py_ltb_false 100 50) by lra. cbn [negb orb].
    eexists. split; reflexivity. }
  destruct Hspy as [hit [Hhit Hsym]].
  cbn [Scan.collect]. rewrite Hnone, Hhit. cbn [Py.not_list].
  eexists. split; [reflexivity | exact Hsym].
Qed.

Lemma high_iv_scan_lines_witness :
  exists lines,
    Scan.scan_high_iv_opportunities Samples.client 0 ["NONE"; "SPY"]%string
      5 500 = Some lines /\
    lines <> [] /\ (length lines <= 10)%nat.
Proof.
  destruct sample_high_scan as [line [E _]].
  exists [line]. split; [exact E | ].
  destruct (high_iv_scan_lines Samples.client 0 ["NONE"; "SPY"]%string
              5 500 [line] E) as [Hne [Hlen _]].
  split; assumption.
Defined.

Lemma sample_low_scan :
  exists line,
    Scan.scan_low_iv_opportunities Samples.client 0 ["FLAT"; "CALM"]%string
      10 300 = Some [line] /\
    Scan.sl_symbol line = "CALM"%string.
Proof.
  unfold Scan.scan_low_iv_opportunities.
  assert (Hflat : Scan.low_iv_candidate Samples.client 0 10 300 "FLAT"
                  = Returned None).
  { unfold Scan.low_iv_candidate. rewrite sample_price by reflexivity.
    cbn [PyMore.truthy].
    destruct (Req_dec_T ((101 + 99) / 2) 0) as [Hz | _]; [lra | ].
    rewrite (py_ltb_false ((101 + 99) / 2) 10) by lra.
    rewrite (py_ltb_false 300 ((101 + 99) / 2)) by lra.
    cbn [negb orb].
    replace (Scan.calculate_iv_rank Samples.client "FLAT" Scanner.default_days)
      with (Some (Np.Fin 0))
      by (symmetry; exact (flat_closes_rank Scanner.default_days)).
    cbn [PyMore.truthy64].
    destruct (Req_dec_T 0 0) as [_ | Hne]; [reflexivity | now elim Hne]. }
  assert (Hcalm : exists hit,
             Scan.low_iv_candidate Samples.client 0 10 300 "CALM"
             = Returned (Some hit) /\ Scan.hit_symbol hit = "CALM"%string).
  { destruct calm_history_rank as [r [Hr Hb]].
    unfold Scan.low_iv_candidate. rewrite sample_price by reflexivity.
    cbn [PyMore.truthy].
    destruct (Req_dec_T ((101 + 99) / 2) 0) as [Hz | _]; [lra | ].
    rewrite (py_ltb_false ((101 + 99) / 2) 10) by lra.
    rewrite (py_ltb_false 300 ((101 + 99) / 2)) by lra.
    cbn [negb orb].
    replace (Scan.calculate_iv_rank Samples.client "CALM" Scanner.default_days)
      with (Some (Np.Fin r)) by (symmetry; exact Hr).
    cbn [PyMore.truthy64 Np.ltb].
    destruct (Req_dec_T r 0) as [Hz | _]; [lra | ].
    rewrite (py_ltb_false 50 r) by lra. cbn [negb orb].
    eexists. split; reflexivity. }
  destruct Hcalm as [hit [Hhit Hsym]].
  cbn [Scan.collect]. rewrite Hflat, Hhit. cbn [Py.not_list].
  eexists. split; [reflexivity | exact Hsym].
Qed.

Lemma low_iv_scan_lines_witness :
  exists lines,
    Scan.scan_low_iv_opportunities Samples.client 0 ["FLAT"; "CALM"]%string
      10 300 = Some lines /\
    lines <> [] /\ (length lines <= 10)%nat.
Proof.
  destruct sample_low_scan as [line [E _]].
  exists [line]. split; [exact E | ].
  destruct (low_iv_scan_lines Samples.client 0 ["FLAT"; "CALM"]%string
              10 300 [line] E) as [Hne [Hlen _]].
  split; assumption.
Defined.

Lemma quiet_symbol_never_listed_witness :
  Broker.get_stock_bars Samples.client "FLAT" (Scanner.default_days * 3)
  = Ok Examples.flat_history /\
  forall lines line,
    Scan.scan_low_iv_opportunities Samples.client 0 ["FLAT"; "CALM"]%string
      10 300 = Some lines ->
    In line lines -> Scan.sl_symbol line <> "FLAT"%string.
Proof.
  split; [reflexivity | ].
  assert (Hbars : Broker.get_stock_bars Samples.client "FLAT"
                    (Scanner.default_days * 3) = Ok Examples.flat_history)
    by reflexivity.
  assert (Hquiet : (length Examples.flat_history < 20)%nat \/
                   exists v, v <> 0 /\
                     forall b, In b Examples.flat_history ->
                               Scanner.close b = v).
  { right. exists 100. split; [lra | ].
    intros b Hb. apply repeat_spec in Hb. now subst b. }
  exact (proj2 (quiet_symbol_never_listed Samples.client 0
                  ["FLAT"; "CALM"]%string 10 300 "FLAT"
                  Examples.flat_history Hbars Hquiet)).
Defined.

(** ** The chain analysis *)

Lemma in_insert_date (x d : Z) (l : list Z) :
  In x (PyMore.insert_date d l) <-> x = d \/ In x l.
Proof.
  induction l as [ | e tl IH]; cbn [PyMore.insert_date In].
  - intuition congruence.
  - destruct (d <? e)%Z; cbn [In]; [intuition congruence | ].
    destruct (d =? e)%Z eqn:E; cbn [In].
    + apply Z.eqb_eq in E. subst e. intuition congruence.
    + rewrite IH. intuition congruence.
Qed.

Lemma in_sorted_set (x : Z) (l : list Z) :
  In x (PyMore.sorted_set l) <-> In x l.
Proof.
  unfold PyMore.sorted_set.
  assert (G : forall acc,
             In x (fold_left (fun acc d => PyMore.insert_date d acc) l acc)
             <-> In x l \/ In x acc).
  { induction l as [ | d tl IH]; intros acc; cbn [fold_left In].
    - tauto.
    - rewrite IH, in_insert_date. intuition congruence. }
  rewrite G. cbn [In]. tauto.
Qed.

Lemma insert_date_sorted (d : Z) (l : list Z) :
  Sorted Z.lt l -> Sorted Z.lt (PyMore.insert_date d l).
Proof.
  induction l as [ | e tl IH]; intros Hs; cbn [PyMore.insert_date].
  - repeat constructor.
  - inversion Hs as [ | ? ? Htl Hhd]; subst.
    destruct (d <? e)%Z eqn:E1.
    + apply Z.ltb_lt in E1. repeat constructor; assumption.
    + destruct (d =? e)%Z eqn:E2; [assumption | ].
      apply Z.ltb_ge in E1. apply Z.eqb_neq in E2.
      constructor; [now apply IH | ].
      destruct tl as [ | f tl']; cbn [PyMore.insert_date].
      * constructor. lia.
      * inversion Hhd; subst.
        destruct (d <? f)%Z; [constructor; lia | ].
        destruct (d =? f)%Z; constructor; assumption.
Qed.

Lemma sorted_set_sorted (l : list Z) :
  StronglySorted Z.lt (PyMore.sorted_set l).
Proof.
  apply Sorted_StronglySorted; [intros a b c; lia | ].
  unfold PyMore.sorted_set.
  assert (G : forall acc, Sorted Z.lt acc ->
             Sorted Z.lt
               (fold_left (fun acc d => PyMore.insert_date d acc) l acc)).
  { induction l as [ | d tl IH]; intros acc Hacc; cbn [fold_left];
      [assumption | ].
    apply IH. now apply insert_date_sorted. }
  apply G. constructor.
Qed.

(** The first element of [sorted(set(l))] is the least element of [l]. *)
Lemma sorted_set_head (l : list Z) (e : Z) (rest : list Z) :
  PyMore.sorted_set l = e :: rest ->
  In e l /\ forall x, In x l -> (e <= x)%Z.
Proof.
  intros H. split.
  - apply in_sorted_set. rewrite H. now left.
  - intros x Hx. apply in_sorted_set in Hx. rewrite H in Hx.
    pose proof (sorted_set_sorted l) as Hs. rewrite H in Hs.
    inversion Hs as [ | ? ? _ Hall]; subst.
    destruct Hx as [<- | Hx]; [lia | ].
    rewrite Forall_forall in Hall. specialize (Hall x Hx). lia.
Qed.

Lemma sorted_set_nil (l : list Z) : PyMore.sorted_set l = [] -> l = [].
Proof.
  intros H. destruct l as [ | x tl]; [reflexivity | ].
  assert (Hin : In x (PyMore.sorted_set (x :: tl)))
    by (apply in_sorted_set; now left).
  rewrite H in Hin. contradiction.
Qed.

Lemma for_each_inv {A B : Type} (body : A -> result B) (l : list A)
  (ys : list B) :
  Py.for_each body l = Ok ys -> Forall2 (fun x y => body x = Ok y) l ys.
Proof.
  revert ys. induction l as [ | x tl IH]; intros ys; cbn [Py.for_each].
  - intros [= <-]. constructor.
  - destruct (body x) as [y | e] eqn:E; cbn [Py.bind]; [ | discriminate].
    destruct (Py.for_each body tl) as [ys' | e] eqn:E'; cbn [Py.bind];
      [ | discriminate].
    intros [= <-]. constructor; [assumption | now apply IH].
Qed.

Lemma forall2_in_r {A B : Type} (P : A -> B -> Prop) (l : list A)
  (ys : list B) (y : B) :
  Forall2 P l ys -> In y ys -> exists x, In x l /\ P x y.
Proof.
  induction 1 as [ | x y' l' ys' Hxy _ IH]; cbn [In]; [tauto | ].
  intros [<- | Hin].
  - exists x. split; [now left | assumption].
  - destruct (IH Hin) as [x' [Hx' Hp]]. exists x'. split; [now right | assumption].
Qed.

Lemma call_lines_ok (price : R) (l : list Scanner.Contract) :
  price <> 0 -> exists lines, Py.for_each (Scanner.call_line price) l = Ok lines.
Proof.
  intros Hp. induction l as [ | k tl [lines IH]]; cbn [Py.for_each].
  - now eexists.
  - unfold Scanner.call_line at 1. rewrite py_div_ok by assumption.
    cbn [Py.bind]. rewrite IH.
    destruct (Rlt_dec _ _); cbn [Py.bind]; now eexists.
Qed.

Lemma put_lines_ok (price : R) (l : list Scanner.Contract) :
  price <> 0 -> exists lines, Py.for_each (Scanner.put_line price) l = Ok lines.
Proof.
  intros Hp. induction l as [ | k tl [lines IH]]; cbn [Py.for_each].
  - now eexists.
  - unfold Scanner.put_line at 1. rewrite py_div_ok by assumption.
    cbn [Py.bind]. rewrite IH.
    destruct (Rlt_dec _ _); cbn [Py.bind]; now eexists.
Qed.

Lemma call_line_some (price : R) (k : Scanner.Contract) (line : Scanner.Line) :
  Scanner.call_line price k = Ok (Some line) ->
  Scanner.line_strike line = Scanner.strike_price k /\
  Rabs (Scanner.strike_price k - price) < price * 0.15 /\
  Scanner.line_moneyness line
  = Scanner.label (Scanner.strike_price k - price).
Proof.
  unfold Scanner.call_line.
  destruct (Py.div _ price) as [q | e]; cbn [Py.bind]; [ | discriminate].
  destruct (Rlt_dec _ _) as [Hw | _]; [ | discriminate].
  intros [= <-]. cbn. repeat split; assumption.
Qed.

(** The chain analysis, step by step, once its three fetches have
    answered and the price is not zero. *)
Lemma analyze_steps (c : Broker.Client) (today : Z) (symbol : string)
  (days_to_expiry : Z) (quote : Broker.Quote)
  (calls puts : list Scanner.Contract) :
  Broker.get_stock_latest_quote c symbol = Ok quote ->
  Broker.mid quote <> 0 ->
  Broker.option_contracts c
    (Broker.mkRequest symbol today (today + days_to_expiry)
       (Some Broker.CALL) 100) = Ok calls ->
  Broker.option_contracts c
    (Broker.mkRequest symbol today (today + days_to_expiry)
       (Some Broker.PUT) 100) = Ok puts ->
  calls ++ puts <> [] ->
  exists exp rest call_lines put_lines,
    PyMore.sorted_set (map Scanner.expiration_date (calls ++ puts))
    = exp :: rest /\
    Py.for_each (Scanner.call_line (Broker.mid quote))
      (Advanced.sorted_by_strike
         (filter (fun k => (Scanner.expiration_date k =? exp)%Z) calls))
    = Ok call_lines /\
    Py.for_each (Scanner.put_line (Broker.mid quote))
      (Advanced.sorted_by_strike
         (filter (fun k => (Scanner.expiration_date k =? exp)%Z) puts))
    = Ok put_lines /\
    Scan.analyze_options_chain c today symbol days_to_expiry =
      (advice <~ Scan.recommend
                   (Scan.calculate_iv_rank c symbol Scanner.default_days)
                   (Broker.mid quote)
                   (Scan.atm_or_none (Broker.mid quote)
                      (Advanced.sorted_by_strike
                         (filter (fun k => (Scanner.expiration_date k =? exp)%Z)
                                 calls)))
                   (Scan.atm_or_none (Broker.mid quote)
                      (Advanced.sorted_by_strike
                         (filter (fun k => (Scanner.expiration_date k =? exp)%Z)
                                 puts))) ;;
       Returned
         (Some (Scan.mkReport (Broker.mid quote)
                  (Scan.iv_status
                     (Scan.calculate_iv_rank c symbol Scanner.default_days))
                  (map (fun e => (e, (e - today)%Z))
                       (Py.slice_to 5 (exp :: rest)))
                  exp call_lines put_lines advice))).
Proof.
  intros Hq Hp Hc Hpu Hne.
  destruct (PyMore.sorted_set (map Scanner.expiration_date (calls ++ puts)))
    as [ | exp rest] eqn:Eexp.
  { apply sorted_set_nil, map_eq_nil in Eexp. contradiction. }
  destruct (call_lines_ok (Broker.mid quote)
              (Advanced.sorted_by_strike
                 (filter (fun k => (Scanner.expiration_date k =? exp)%Z) calls))
              Hp) as [call_lines Hcl].
  destruct (put_lines_ok (Broker.mid quote)
              (Advanced.sorted_by_strike
                 (filter (fun k => (Scanner.expiration_date k =? exp)%Z) puts))
              Hp) as [put_lines Hpl].
  exists exp, rest, call_lines, put_lines.
  split; [reflexivity | ]. split; [exact Hcl | ]. split; [exact Hpl | ].
  unfold Scan.analyze_options_chain, Scan.get_stock_price.
  rewrite Hq. cbn [Py.bind Py.try_except_none PyMore.truthy].
  destruct (Req_dec_T (Broker.mid quote) 0) as [Hz | _]; [contradiction | ].
  cbn [negb]. rewrite Hc, Hpu. cbn [PyMore.of_result PyMore.obind].
  assert (Hnl : Py.not_list calls && Py.not_list puts = false).
  { destruct calls; [ | reflexivity]. destruct puts; [ | reflexivity].
    now elim Hne. }
  rewrite Hnl, Eexp, Hcl, Hpl. cbn [PyMore.of_result PyMore.obind].
  reflexivity.
Qed.

Lemma analyze_report_inv (c : Broker.Client) (today : Z) (symbol : string)
  (days_to_expiry : Z) (report : Scan.Report) :
  Scan.analyze_options_chain c today symbol days_to_expiry
  = Returned (Some report) ->
  Scan.get_stock_price c symbol = Some (Scan.rep_price report) /\
  Scan.rep_price report <> 0 /\
  Scan.rep_status report
  = Scan.iv_status (Scan.calculate_iv_rank c symbol Scanner.default_days) /\
  exists atm_call atm_put,
    Scan.recommend (Scan.calculate_iv_rank c symbol Scanner.default_days)
      (Scan.rep_price report) atm_call atm_put
    = Returned (Scan.rep_advice report).
Proof.
  unfold Scan.analyze_options_chain.
  destruct (Scan.get_stock_price c symbol) as [p | ] eqn:Hprice;
    [ | discriminate].
  destruct (negb (PyMore.truthy (Some p))) eqn:Ht; [discriminate | ].
  apply negb_false_iff, truthy_some in Ht.
  destruct (Broker.option_contracts c _) as [calls | e];
    cbn [PyMore.of_result PyMore.obind]; [ | discriminate].
  destruct (Broker.option_contracts c _) as [puts | e];
    cbn [PyMore.of_result PyMore.obind]; [ | discriminate].
  destruct (Py.not_list calls && Py.not_list puts); [discriminate | ].
  destruct (PyMore.sorted_set _) as [ | exp rest]; [discriminate | ].
  destruct (Py.for_each (Scanner.call_line p) _) as [call_lines | e];
    cbn [PyMore.of_result PyMore.obind]; [ | discriminate].
  destruct (Py.for_each (Scanner.put_line p) _) as [put_lines | e];
    cbn [PyMore.of_result PyMore.obind]; [ | discriminate].
  destruct (Scan.recommend _ p _ _) as [advice | e] eqn:Hadvice;
    cbn [PyMore.obind]; [ | discriminate].
  intros [= <-]. cbn [Scan.rep_price Scan.rep_status Scan.rep_advice].
  repeat split; try assumption.
  do 2 eexists. exact Hadvice.
Qed.

(** X11: a symbol whose bar history has fewer than 20 bars or is constant
    gets no IV status line in the chain analysis and is given the
    recommendations for medium IV: a rank that could not be computed, and
    the rank 0, are presented like a rank between 40 and 60. *)
Theorem analysis_of_quiet_symbol (c : Broker.Client) (today : Z)
  (symbol : string) (days_to_expiry : Z) (bars : list Scanner.Bar)
  (report : Scan.Report) :
  Broker.get_stock_bars c symbol (Scanner.default_days * 3) = Ok bars ->
  ((length bars < 20)%nat \/
   exists v, v <> 0 /\ forall b, In b bars -> Scanner.close b = v) ->
  Scan.analyze_options_chain c today symbol days_to_expiry
  = Returned (Some report) ->
  Scan.rep_status report = None /\ Scan.rep_advice report = Scan.MediumIV.
Proof.
  intros Hbars Hquiet Hrep.
  destruct (analyze_report_inv _ _ _ _ _ Hrep)
    as [_ [_ [Hstatus [ac [ap Hadvice]]]]].
  unfold Scan.calculate_iv_rank in *. rewrite Hbars in *.
  destruct (quiet_symbol_rank bars Scanner.default_days Hquiet) as [E | E];
    rewrite E in *.
  - split; [exact Hstatus | ]. cbn in Hadvice. congruence.
  - cbn [Scan.iv_status Scan.recommend PyMore.truthy64] in *.
    destruct (Req_dec_T 0 0) as [_ | Hne]; [ | now elim Hne].
    cbn [andb] in Hadvice. split; [exact Hstatus | congruence].
Qed.

(** X12: the status line and the recommendations use different
    thresholds.  A rank above 50 and up to 60 is announced as HIGH yet
    gets the medium-IV recommendations; a rank from 25 up to, but not, 40
    is announced as MEDIUM yet gets the low-IV recommendations whenever
    both at-the-money contracts exist. *)
Theorem status_and_advice_thresholds (r price : R)
  (atm_call atm_put : option Scanner.Contract) :
  (50 < r <= 60 ->
   Scan.iv_status (Some (Np.Fin r)) = Some Scan.HIGH /\
   Scan.recommend (Some (Np.Fin r)) price atm_call atm_put
   = Returned Scan.MediumIV) /\
  (25 <= r < 40 ->
   Scan.iv_status (Some (Np.Fin r)) = Some Scan.MEDIUM /\
   forall kc kp, atm_call = Some kc -> atm_put = Some kp ->
     Scan.recommend (Some (Np.Fin r)) price atm_call atm_put
     = Returned
         (Scan.LowIV (Scanner.strike_price kc)
            (Scanner.strike_price kc + price * 0.05)
            (Scanner.strike_price kp)
            (Scanner.strike_price kp - price * 0.05))).
Proof.
  split; intros Hr.
  - unfold Scan.iv_status, Scan.recommend. cbn [PyMore.truthy64 Np.ltb].
    destruct (Req_dec_T r 0) as [Hz | _]; [lra | ].
    rewrite (py_ltb_false 75 r), (py_ltb_true 50 r), (py_ltb_false 60 r),
      (py_ltb_false r 40) by lra.
    split; reflexivity.
  - unfold Scan.iv_status, Scan.recommend. cbn [PyMore.truthy64 Np.ltb].
    destruct (Req_dec_T r 0) as [Hz | _]; [lra | ].
    rewrite (py_ltb_false 75 r), (py_ltb_false 50 r), (py_ltb_false r 25),
      (py_ltb_false 60 r), (py_ltb_true r 40) by lra.
    split; [reflexivity | ].
    intros kc kp -> ->. reflexivity.
Qed.

Lemma status_and_advice_thresholds_witness :
  Scan.iv_status (Some (Np.Fin 55)) = Some Scan.HIGH /\
  Scan.recommend (Some (Np.Fin 55)) 100 None None = Returned Scan.MediumIV.
Proof.
  apply (status_and_advice_thresholds 55 100 None None). lra.
Defined.

Lemma analyze_empty (c : Broker.Client) (today : Z) (symbol : string)
  (days_to_expiry : Z) (quote : Broker.Quote) :
  Broker.get_stock_latest_quote c symbol = Ok quote ->
  Broker.option_contracts c
    (Broker.mkRequest symbol today (today + days_to_expiry)
       (Some Broker.CALL) 100) = Ok [] ->
  Broker.option_contracts c
    (Broker.mkRequest symbol today (today + days_to_expiry)
       (Some Broker.PUT) 100) = Ok [] ->
  Scan.analyze_options_chain c today symbol days_to_expiry = Returned None.
Proof.
  intros Hq Hc Hp. unfold Scan.analyze_options_chain, Scan.get_stock_price.
  rewrite Hq. cbn [Py.bind Py.try_except_none].
  destruct (negb _); [reflexivity | ].
  rewrite Hc, Hp. reflexivity.
Qed.

Lemma forall2_length {A B : Type} (P : A -> B -> Prop) (l : list A)
  (ys : list B) : Forall2 P l ys -> length l = length ys.
Proof. induction 1; cbn [length]; congruence. Qed.

(** X13: the chain analysis lists the contracts of one expiration only,
    the earliest among all fetched calls and puts: one call line (printed
    or skipped) per call of that expiration, and every printed call line
    is for such a call, struck within 15% of the price. *)
Theorem analysis_lists_earliest_expiration (c : Broker.Client) (today : Z)
  (symbol : string) (days_to_expiry : Z) (quote : Broker.Quote)
  (calls puts : list Scanner.Contract) (report : Scan.Report) :
  Broker.get_stock_latest_quote c symbol = Ok quote ->
  Broker.option_contracts c
    (Broker.mkRequest symbol today (today + days_to_expiry)
       (Some Broker.CALL) 100) = Ok calls ->
  Broker.option_contracts c
    (Broker.mkRequest symbol today (today + days_to_expiry)
       (Some Broker.PUT) 100) = Ok puts ->
  Scan.analyze_options_chain c today symbol days_to_expiry
  = Returned (Some report) ->
  let first := Scan.rep_first_expiration report in
  In first (map Scanner.expiration_date (calls ++ puts)) /\
  (forall k, In k (calls ++ puts) ->
     (first <= Scanner.expiration_date k)%Z) /\
  length (Scan.rep_calls report)
  = length (filter (fun k => (Scanner.expiration_date k =? first)%Z) calls) /\
  length (Scan.rep_puts report)
  = length (filter (fun k => (Scanner.expiration_date k =? first)%Z) puts) /\
  forall line, In (Some line) (Scan.rep_calls report) ->
    exists k, In k calls /\ Scanner.expiration_date k = first /\
      Scanner.line_strike line = Scanner.strike_price k /\
      Rabs (Scanner.strike_price k - Broker.mid quote)
      < Broker.mid quote * 0.15.
Proof.
  intros Hq Hc Hp Hrep first.
  destruct (analyze_report_inv _ _ _ _ _ Hrep) as [Hprice [Hnz _]].
  destruct (get_stock_price_some _ _ _ Hprice) as [q [Hq' Hmid]].
  rewrite Hq in Hq'. injection Hq' as <-. rewrite Hmid in Hnz.
  assert (Hne : calls ++ puts <> []).
  { intros E. apply app_eq_nil in E. destruct E as [-> ->].
    rewrite (analyze_empty _ _ _ _ _ Hq Hc Hp) in Hrep. discriminate. }
  destruct (analyze_steps _ _ _ _ _ _ _ Hq Hnz Hc Hp Hne)
    as [exp [rest [call_lines [put_lines [Eexp [Hcl [Hpl Hsteps]]]]]]].
  rewrite Hsteps in Hrep.
  destruct (Scan.recommend _ _ _ _) as [advice | e]; cbn [PyMore.obind] in Hrep;
    [ | discriminate].
  injection Hrep as <-. subst first.
  cbn [Scan.rep_first_expiration Scan.rep_calls Scan.rep_puts].
  destruct (sorted_set_head _ _ _ Eexp) as [Hin Hmin].
  apply for_each_inv in Hcl. apply for_each_inv in Hpl.
  split; [exact Hin | ]. split.
  { intros k Hk. apply Hmin. now apply in_map. }
  split.
  { rewrite <- (forall2_length _ _ _ Hcl).
    apply Permutation_length, sorted_by_strike_perm. }
  split.
  { rewrite <- (forall2_length _ _ _ Hpl).
    apply Permutation_length, sorted_by_strike_perm. }
  intros line Hline.
  destruct (forall2_in_r _ _ _ _ Hcl Hline) as [k [Hk Hbody]].
  apply sorted_strike_in, filter_In in Hk. destruct Hk as [Hk Hexp].
  apply Z.eqb_eq in Hexp.
  destruct (call_line_some _ _ _ Hbody) as [Hs [Hw _]].
  exists k. repeat split; assumption.
Qed.

(** X14: when every fetched put expires later than some fetched call, the
    earliest expiration has no put; the analysis then raises
    AttributeError in its recommendations whenever the rank is above 60,
    or non-zero and below 40, because it reads the strike of an
    at-the-money put that is [None]. *)
Theorem analysis_without_put_raises (c : Broker.Client) (today : Z)
  (symbol : string) (days_to_expiry : Z) (quote : Broker.Quote)
  (calls puts : list Scanner.Contract) (r : R) :
  Broker.get_stock_latest_quote c symbol = Ok quote ->
  Broker.mid quote <> 0 ->
  Broker.option_contracts c
    (Broker.mkRequest symbol today (today + days_to_expiry)
       (Some Broker.CALL) 100) = Ok calls ->
  Broker.option_contracts c
    (Broker.mkRequest symbol today (today + days_to_expiry)
       (Some Broker.PUT) 100) = Ok puts ->
  calls <> [] ->
  (forall p, In p puts ->
     exists k, In k calls /\
       (Scanner.expiration_date k < Scanner.expiration_date p)%Z) ->
  Scan.calculate_iv_rank c symbol Scanner.default_days = Some (Np.Fin r) ->
  60 < r \/ (r <> 0 /\ r < 40) ->
  Scan.analyze_options_chain c today symbol days_to_expiry
  = Raised AttributeError.
Proof.
  intros Hq Hnz Hc Hp Hcalls Hlater Hrank Hr.
  assert (Hne : calls ++ puts <> []).
  { intros E. apply app_eq_nil in E. destruct E as [E _]. contradiction. }
  destruct (analyze_steps _ _ _ _ _ _ _ Hq Hnz Hc Hp Hne)
    as [exp [rest [call_lines [put_lines [Eexp [_ [_ Hsteps]]]]]]].
  rewrite Hsteps, Hrank. clear Hsteps.
  destruct (sorted_set_head _ _ _ Eexp) as [_ Hmin].
  assert (Hnoput : filter (fun k => (Scanner.expiration_date k =? exp)%Z) puts
                   = []).
  { destruct (filter _ puts) as [ | p tl] eqn:E; [reflexivity | ].
    assert (Hin : In p (filter (fun k => (Scanner.expiration_date k =? exp)%Z)
                               puts)) by (rewrite E; now left).
    apply filter_In in Hin. destruct Hin as [Hin Hexp].
    apply Z.eqb_eq in Hexp.
    destruct (Hlater p Hin) as [k [Hk Hlt]].
    assert (exp <= Scanner.expiration_date k)%Z.
    { apply Hmin. apply in_map. apply in_or_app. now left. }
    lia. }
  rewrite Hnoput.
  change (Advanced.sorted_by_strike []) with (@nil Scanner.Contract).
  cbn [Scan.atm_or_none].
  unfold Scan.recommend. cbn [PyMore.truthy64 Np.ltb].
  destruct Hr as [Hr | [Hr0 Hr]].
  - destruct (Req_dec_T r 0) as [Hz | _]; [lra | ].
    rewrite (py_ltb_true 60 r) by lra. reflexivity.
  - destruct (Req_dec_T r 0) as [Hz | _]; [contradiction | ].
    rewrite (py_ltb_false 60 r), (py_ltb_true r 40) by lra.
    cbn [andb].
    destruct (Scan.atm_or_none _ _); reflexivity.
Qed.

(** ** The chain analysis on the sample brokerage *)

Lemma sample_flat_analysis :
  exists report,
    Scan.analyze_options_chain Samples.client 0 "FLAT" 30
    = Returned (Some report).
Proof.
  assert (Hnz : Broker.mid (Broker.mkQuote 101 99) <> 0)
    by (unfold Broker.mid; cbn; lra).
  assert (Hne : map Broker.listed
                  (Samples.answer
                     (Broker.mkRequest "FLAT" 0 (0 + 30) (Some Broker.CALL) 100))
                ++ map Broker.listed
                     (Samples.answer
                        (Broker.mkRequest "FLAT" 0 (0 + 30) (Some Broker.PUT) 100))
                <> []) by discriminate.
  destruct (analyze_steps Samples.client 0 "FLAT" 30 (Broker.mkQuote 101 99)
              _ _ eq_refl Hnz eq_refl eq_refl Hne)
    as [exp [rest [call_lines [put_lines [_ [_ [_ Hsteps]]]]]]].
  rewrite Hsteps.
  replace (Scan.calculate_iv_rank Samples.client "FLAT" Scanner.default_days)
    with (Some (Np.Fin 0))
    by (symmetry; exact (flat_closes_rank Scanner.default_days)).
  unfold Scan.recommend. cbn [PyMore.truthy64].
  destruct (Req_dec_T 0 0) as [_ | H]; [ | now elim H].
  cbn [andb PyMore.obind]. now eexists.
Qed.

Lemma flat_history_quiet :
  (length Examples.flat_history < 20)%nat \/
  exists v, v <> 0 /\
    forall b, In b Examples.flat_history -> Scanner.close b = v.
Proof.
  right. exists 100. split; [lra | ].
  intros b Hb. apply repeat_spec in Hb. now subst b.
Qed.

Lemma analysis_of_quiet_symbol_witness :
  exists report,
    Scan.analyze_options_chain Samples.client 0 "FLAT" 30
    = Returned (Some report) /\
    Scan.rep_status report = None /\ Scan.rep_advice report = Scan.MediumIV.
Proof.
  destruct sample_flat_analysis as [report E].
  exists report. split; [exact E | ].
  exact (analysis_of_quiet_symbol Samples.client 0 "FLAT" 30
           Examples.flat_history report eq_refl flat_history_quiet E).
Defined.

Lemma analysis_lists_earliest_expiration_witness :
  exists report,
    Scan.analyze_options_chain Samples.client 0 "FLAT" 30
    = Returned (Some report) /\
    forall k,
      In k (map Broker.listed
              (Samples.answer
                 (Broker.mkRequest "FLAT" 0 (0 + 30) (Some Broker.CALL) 100))
            ++ map Broker.listed
                 (Samples.answer
                    (Broker.mkRequest "FLAT" 0 (0 + 30) (Some Broker.PUT) 100))) ->
      (Scan.rep_first_expiration report <= Scanner.expiration_date k)%Z.
Proof.
  destruct sample_flat_analysis as [report E].
  exists report. split; [exact E | ].
  exact (proj1 (proj2
           (analysis_lists_earliest_expiration Samples.client 0 "FLAT" 30
              (Broker.mkQuote 101 99) _ _ report eq_refl eq_refl eq_refl E))).
Defined.

Lemma analysis_without_put_raises_witness :
  Scan.analyze_options_chain Samples.client 0 "SPY" 30 = Raised AttributeError.
Proof.
  apply (analysis_without_put_raises Samples.client 0 "SPY" 30
           (Broker.mkQuote 101 99)
           (map Broker.listed
              (Samples.answer
                 (Broker.mkRequest "SPY" 0 (0 + 30) (Some Broker.CALL) 100)))
           (map Broker.listed
              (Samples.answer
                 (Broker.mkRequest "SPY" 0 (0 + 30) (Some Broker.PUT) 100)))
           100).
  - reflexivity.
  - unfold Broker.mid. cbn. lra.
  - reflexivity.
  - reflexivity.
  - discriminate.
  - intros p Hp. exists (Scanner.mkContract "C100W" 100 7).
    split; [right; right; now left | ].
    cbn in Hp.
    repeat (destruct Hp as [<- | Hp]; [cbn; lia | ]). contradiction.
  - exact twenty_closes_rank.
  - left. lra.
Defined.

(** ** The two strategy walk-throughs *)

Lemma slice_to_length_min {A : Type} (n : nat) (l : list A) :
  length (Py.slice_to n l) = Nat.min n (length l).
Proof. unfold Py.slice_to. apply length_firstn. Qed.

Lemma strongly_sorted_in {A : Type} (R : A -> A -> Prop) (P : A -> Prop)
  (R' : A -> A -> Prop) (l : list A) :
  (forall a b, P a -> P b -> R a b -> R' a b) ->
  (forall a, In a l -> P a) -> StronglySorted R l -> StronglySorted R' l.
Proof.
  intros H HP. induction 1 as [ | a l0 Hs IH Hall]; constructor.
  - apply IH. intros x Hx. apply HP. now right.
  - rewrite Forall_forall in *. intros x Hx.
    apply H; [apply HP; now left | apply HP; now right | now apply Hall].
Qed.

(** X15: the covered-call table has one line per call struck above the
    price, five at most, by ascending strike; down the table the maximum
    profit never decreases, and every estimated premium is at least 50. *)
Theorem covered_call_table_shape (current_price : R)
  (option_contracts : list Scanner.Contract) (rows : list Advanced.CallRow) :
  current_price <> 0 ->
  Advanced.advanced_2_covered_call_strategy current_price option_contracts
  = Ok (Some rows) ->
  length rows
  = Nat.min 5
      (length (filter (fun c => Py.ltb current_price (Scanner.strike_price c))
                      option_contracts)) /\
  (forall row, In row rows ->
     current_price < Advanced.cc_strike row /\
     50 <= Advanced.cc_est_premium row /\
     exists call, In call option_contracts /\
                  Scanner.strike_price call = Advanced.cc_strike row) /\
  StronglySorted
    (fun a b => Advanced.cc_strike a <= Advanced.cc_strike b /\
                Advanced.cc_total_profit a <= Advanced.cc_total_profit b)
    rows.
Proof.
  intros Hp Htable.
  destruct (filter (fun c => Py.ltb current_price (Scanner.strike_price c))
                   option_contracts) as [ | c0 tl] eqn:E.
  { unfold Advanced.advanced_2_covered_call_strategy in Htable.
    rewrite E in Htable. discriminate. }
  rewrite <- E in *.
  rewrite covered_call_table in Htable by (try assumption; rewrite E; discriminate).
  set (calls := filter (fun c => Py.ltb current_price (Scanner.strike_price c))
                       option_contracts) in *.
  assert (Hlen : length (Py.slice_to 5 (Advanced.sorted_by_strike calls))
                 = Nat.min 5 (length calls)).
  { rewrite slice_to_length_min.
    now rewrite (Permutation_length (sorted_by_strike_perm _)). }
  assert (Habove : forall k,
            In k (Py.slice_to 5 (Advanced.sorted_by_strike calls)) ->
            In k option_contracts /\ current_price < Scanner.strike_price k).
  { intros k Hk. apply in_slice_to, sorted_strike_in, filter_In in Hk.
    destruct Hk as [Hk Hlt]. apply py_ltb_spec in Hlt. now split. }
  assert (Hsorted : StronglySorted
                      (fun a b => Scanner.strike_price a
                                  <= Scanner.strike_price b)
                      (Py.slice_to 5 (Advanced.sorted_by_strike calls))).
  { apply strongly_sorted_firstn. apply sorted_by_strike_ascending. }
  revert Htable Hlen Habove Hsorted.
  generalize (Py.slice_to 5 (Advanced.sorted_by_strike calls)).
  intros top [= <-] Hlen Habove Hsorted.
  split; [ | split].
  - now rewrite length_map.
  - intros row Hrow. apply in_map_iff in Hrow. destruct Hrow as [k [<- Hk]].
    destruct (Habove k Hk) as [Hin Hlt].
    cbn. split; [assumption | ]. split; [rmax_lra | ]. now exists k.
  - apply strongly_sorted_map with
      (R := fun a b => Scanner.strike_price a <= Scanner.strike_price b).
    + intros a b Hab. cbn. split; [assumption | rmax_lra].
    + exact Hsorted.
Qed.

Lemma covered_call_table_shape_witness :
  exists rows,
    Advanced.advanced_2_covered_call_strategy 100 Examples.chain
    = Ok (Some rows) /\
    forall row, In row rows -> 100 < Advanced.cc_strike row.
Proof.
  assert (Hp : 100 <> 0) by lra.
  assert (Hne : filter (fun c => Py.ltb 100 (Scanner.strike_price c))
                       Examples.chain <> []).
  { unfold Examples.chain. cbn [filter Scanner.strike_price].
    rewrite (py_ltb_false 100 95), (py_ltb_true 100 105) by lra.
    discriminate. }
  eexists. split; [exact (covered_call_table 100 Examples.chain Hp Hne) | ].
  intros row Hrow.
  exact (proj1 (proj1 (proj2 (covered_call_table_shape 100 Examples.chain _ Hp
                                (covered_call_table 100 Examples.chain Hp Hne)))
                  row Hrow)).
Defined.

Lemma index_head {A : Type} (l : list A) :
  l <> [] -> exists x tl, l = x :: tl /\ PyMore.index l 0 = Returned x.
Proof.
  destruct l as [ | x tl]; [congruence | ]. intros _. now exists x, tl.
Qed.

(** X16: the example under the covered-call table is the call with the
    lowest strike above the price; the premium quoted for it equals the
    estimate on the first line of the table; the four scenario prices are
    95% of the price, the price, the strike and 105% of the strike. *)
Theorem covered_call_example (current_price : R)
  (option_contracts : list Scanner.Contract) :
  current_price <> 0 ->
  (filter (fun c => Py.ltb current_price (Scanner.strike_price c))
          option_contracts = [] ->
   Strategies.covered_call current_price option_contracts = Returned None) /\
  (filter (fun c => Py.ltb current_price (Scanner.strike_price c))
          option_contracts <> [] ->
   exists cc row rest,
     Strategies.covered_call current_price option_contracts
     = Returned (Some cc) /\
     In (Strategies.cc_example_call cc) option_contracts /\
     current_price < Scanner.strike_price (Strategies.cc_example_call cc) /\
     (forall k, In k option_contracts ->
        current_price < Scanner.strike_price k ->
        Scanner.strike_price (Strategies.cc_example_call cc)
        <= Scanner.strike_price k) /\
     Strategies.cc_rows cc = row :: rest /\
     Advanced.cc_strike row
     = Scanner.strike_price (Strategies.cc_example_call cc) /\
     Advanced.cc_est_premium row = Strategies.cc_example_premium cc /\
     Strategies.cc_scenarios cc
     = [ current_price * 0.95; current_price;
         Scanner.strike_price (Strategies.cc_example_call cc);
         Scanner.strike_price (Strategies.cc_example_call cc) * 1.05 ]).
Proof.
  intros Hp. unfold Strategies.covered_call. split.
  - intros E. unfold Advanced.advanced_2_covered_call_strategy.
    rewrite E. reflexivity.
  - intros Hne. rewrite covered_call_table by assumption.
    cbn [PyMore.of_result PyMore.obind].
    set (calls := Advanced.sorted_by_strike
                    (filter (fun c => Py.ltb current_price
                                        (Scanner.strike_price c))
                            option_contracts)).
    assert (Hcalls : calls <> []).
    { intros E. apply sorted_by_strike_nil in E. contradiction. }
    destruct (index_head calls Hcalls) as [k [tl [Ecalls Hidx]]].
    rewrite Hidx. cbn [PyMore.obind].
    pose proof (sorted_by_strike_ascending
                  (filter (fun c => Py.ltb current_price
                                      (Scanner.strike_price c))
                          option_contracts)) as Hs.
    fold calls in Hs. rewrite Ecalls in Hs.
    inversion Hs as [ | ? ? _ Hall]; subst.
    rewrite Forall_forall in Hall.
    assert (Hk : In k calls) by (rewrite Ecalls; now left).
    apply sorted_strike_in, filter_In in Hk. destruct Hk as [Hk Hlt].
    apply py_ltb_spec in Hlt.
    do 3 eexists. split; [reflexivity | ].
    cbn [Strategies.cc_example_call Strategies.cc_rows
         Strategies.cc_example_premium Strategies.cc_scenarios].
    split; [assumption | ]. split; [assumption | ]. split.
    { intros k' Hk' Hlt'.
      assert (Hin : In k' calls).
      { apply in_sorted_strike. apply filter_In. split; [assumption | ].
        now apply py_ltb_true. }
      rewrite Ecalls in Hin. destruct Hin as [<- | Hin]; [lra | ].
      now apply Hall. }
    rewrite Ecalls. cbn [Py.slice_to firstn map].
    split; [reflexivity | ]. split; [reflexivity | ].
    split; [ | reflexivity].
    cbn [Advanced.cc_est_premium]. now rewrite py_max_Rmax.
Qed.

Lemma covered_call_example_witness :
  exists cc,
    Strategies.covered_call 100 Examples.chain = Returned (Some cc) /\
    100 < Scanner.strike_price (Strategies.cc_example_call cc).
Proof.
  assert (Hp : 100 <> 0) by lra.
  assert (Hne : filter (fun c => Py.ltb 100 (Scanner.strike_price c))
                       Examples.chain <> []).
  { unfold Examples.chain. cbn [filter Scanner.strike_price].
    rewrite (py_ltb_false 100 95), (py_ltb_true 100 105) by lra.
    discriminate. }
  destruct (proj2 (covered_call_example 100 Examples.chain Hp) Hne)
    as [cc [row [rest [E [_ [Hlt _]]]]]].
  exists cc. split; assumption.
Defined.

Lemma sorted_by_strike_desc_length (l : list Scanner.Contract) :
  length (Advanced.sorted_by_strike_desc l) = length l.
Proof. apply Permutation_length, sorted_by_strike_desc_perm. Qed.

(** X17: the protective-put walk-through returns early when no put is
    struck below the price, and raises IndexError, after its table, when
    only one or two puts are: its example is the third put of the
    list. *)
Theorem protective_put_needs_three_puts (current_price : R) (today : Z)
  (option_contracts : list Scanner.Contract) :
  current_price <> 0 ->
  (filter (fun p => Py.ltb (Scanner.strike_price p) current_price)
          option_contracts = [] ->
   Strategies.protective_put current_price today option_contracts
   = Returned None) /\
  ((1 <= length (filter (fun p => Py.ltb (Scanner.strike_price p)
                                    current_price)
                        option_contracts) < 3)%nat ->
   Strategies.protective_put current_price today option_contracts
   = Raised IndexError).
Proof.
  intros Hp. unfold Strategies.protective_put. split.
  - intros E. unfold Advanced.advanced_3_protective_put_strategy.
    rewrite E. reflexivity.
  - intros Hlen.
    rewrite protective_put_table
      by (try assumption; intros E; rewrite E in Hlen; cbn in Hlen; lia).
    cbn [PyMore.of_result PyMore.obind].
    rewrite <- sorted_by_strike_desc_length in Hlen.
    destruct (Advanced.sorted_by_strike_desc _) as [ | k1 [ | k2 [ | k3 tl]]];
      cbn [length] in Hlen; try lia; reflexivity.
Qed.

Lemma protective_put_needs_three_puts_witness :
  Strategies.protective_put 100 0 Examples.chain = Raised IndexError.
Proof.
  assert (Hp : 100 <> 0) by lra.
  apply (proj2 (protective_put_needs_three_puts 100 0 Examples.chain Hp)).
  unfold Examples.chain. cbn [filter Scanner.strike_price].
  rewrite (py_ltb_true 95 100), (py_ltb_false 105 100),
    (py_ltb_true 90 100), (py_ltb_false 110 100) by lra.
  cbn [length]. lia.
Defined.

(** The walk-through once the puts below the price, highest strike first,
    are known to be three or more. *)
Lemma protective_put_steps (current_price : R) (today : Z)
  (option_contracts : list Scanner.Contract)
  (k1 k2 k3 : Scanner.Contract) (rest : list Scanner.Contract) :
  current_price <> 0 ->
  Advanced.sorted_by_strike_desc
    (filter (fun p => Py.ltb (Scanner.strike_price p) current_price)
            option_contracts) = k1 :: k2 :: k3 :: rest ->
  Strategies.protective_put current_price today option_contracts =
    (let est_premium :=
       Rmax 1.0 ((current_price - Scanner.strike_price k3) * 0.15) * 100 in
     cost_per_day <~ of_result
                       (Py.div est_premium
                          (IZR (Scanner.expiration_date k3 - today))) ;;
     Returned
       (Some (Strategies.mkProtectivePut
                (map (fun put =>
                        let distance :=
                          current_price - Scanner.strike_price put in
                        let days_to_exp :=
                          (Scanner.expiration_date put - today)%Z in
                        let est_premium :=
                          Rmax 1.0 (distance * 0.15
                                    + (IZR days_to_exp / 365)
                                      * current_price * 0.02) * 100 in
                        Advanced.mkPutRow (Scanner.strike_price put)
                          days_to_exp (distance / current_price * 100)
                          est_premium (distance * 100 + est_premium)
                          ((distance * 100 + est_premium)
                           / (current_price * 100) * 100))
                     (Py.slice_to 5 (k1 :: k2 :: k3 :: rest)))
                k3 est_premium
                (map (Strategies.put_scenario current_price
                        (Scanner.strike_price k3) est_premium)
                     [ current_price * 0.70; current_price * 0.85;
                       Scanner.strike_price k3; current_price;
                       current_price * 1.10; current_price * 1.30 ])
                ((current_price - Scanner.strike_price k3) * 100 + est_premium)
                cost_per_day))).
Proof.
  intros Hp Hs. unfold Strategies.protective_put.
  assert (Hne : filter (fun p => Py.ltb (Scanner.strike_price p) current_price)
                       option_contracts <> []).
  { intros E. rewrite E in Hs. discriminate. }
  rewrite protective_put_table by assumption.
  cbn [PyMore.of_result PyMore.obind]. rewrite Hs.
  cbn [PyMore.index nth_error PyMore.obind]. rewrite py_max_Rmax. reflexivity.
Qed.

(** X18: when three or more puts are struck below the price and they all
    expire today, so that the example put does, the walk-through raises
    ZeroDivisionError after printing its tables: the cost per day divides
    the premium by zero days. *)
Theorem protective_put_expiring_today (current_price : R) (today : Z)
  (option_contracts : list Scanner.Contract) :
  current_price <> 0 ->
  (3 <= length (filter (fun p => Py.ltb (Scanner.strike_price p) current_price)
                       option_contracts))%nat ->
  (forall k, In k option_contracts ->
     Scanner.strike_price k < current_price ->
     Scanner.expiration_date k = today) ->
  Strategies.protective_put current_price today option_contracts
  = Raised (Propagated ZeroDivisionError).
Proof.
  intros Hp Hlen Htoday.
  rewrite <- sorted_by_strike_desc_length in Hlen.
  destruct (Advanced.sorted_by_strike_desc _) as [ | k1 [ | k2 [ | k3 rest]]]
    eqn:Hs; cbn [length] in Hlen; try lia.
  rewrite (protective_put_steps _ today _ _ _ _ _ Hp Hs). cbv zeta.
  assert (Hk3 : In k3 (Advanced.sorted_by_strike_desc
                         (filter (fun p => Py.ltb (Scanner.strike_price p)
                                             current_price)
                                 option_contracts)))
    by (rewrite Hs; right; right; now left).
  apply (Permutation_in _ (sorted_by_strike_desc_perm _)) in Hk3.
  apply filter_In in Hk3. destruct Hk3 as [Hin Hlt].
  apply py_ltb_spec in Hlt.
  rewrite (Htoday k3 Hin Hlt), Z.sub_diag, py_div_zero. reflexivity.
Qed.

Lemma puts_below_filter :
  filter (fun p => Py.ltb (Scanner.strike_price p) 100) Samples.puts_below
  = Samples.puts_below.
Proof.
  unfold Samples.puts_below. cbn [filter Scanner.strike_price].
  rewrite (py_ltb_true 97 100), (py_ltb_true 99 100), (py_ltb_true 85 100),
    (py_ltb_true 92 100) by lra.
  reflexivity.
Qed.

Lemma protective_put_expiring_today_witness :
  Strategies.protective_put 100 30 Samples.puts_below
  = Raised (Propagated ZeroDivisionError).
Proof.
  apply (protective_put_expiring_today 100 30 Samples.puts_below).
  - lra.
  - rewrite puts_below_filter. cbn [length Samples.puts_below]. lia.
  - intros k Hk _. cbn in Hk.
    repeat (destruct Hk as [<- | Hk]; [reflexivity | ]). contradiction.
Defined.

Lemma put_scenario_lines (current_price strike est_premium price : R) :
  let s := Strategies.put_scenario current_price strike est_premium price in
  Strategies.ps_price s = price /\
  0 <= Strategies.ps_put_value s /\
  (0 < Strategies.ps_put_value s <-> price < strike) /\
  Strategies.ps_stock_pl s - est_premium <= Strategies.ps_net_pl s /\
  (strike <= price ->
   Strategies.ps_net_pl s = Strategies.ps_stock_pl s - est_premium).
Proof.
  unfold Strategies.put_scenario.
  cbn [Strategies.ps_price Strategies.ps_put_value Strategies.ps_net_pl
       Strategies.ps_stock_pl].
  rewrite py_max_Rmax. repeat split; try intros H; rmax_lra.
Qed.

(** X19: with three or more puts struck below a positive price, none of
    them expiring today or earlier, the walk-through returns; its example
    is the put with the third-highest strike below the price; the third
    line of the table is for the same put, yet the premium quoted in the
    example, which leaves the time term out, is never above the one in
    the table, and neither is the maximum loss; the cost per day is the
    example premium divided by the days to expiration. *)
Theorem protective_put_example (current_price : R) (today : Z)
  (option_contracts : list Scanner.Contract) :
  0 < current_price ->
  (3 <= length (filter (fun p => Py.ltb (Scanner.strike_price p) current_price)
                       option_contracts))%nat ->
  (forall k, In k option_contracts ->
     Scanner.strike_price k < current_price ->
     (today < Scanner.expiration_date k)%Z) ->
  exists pp k1 k2 rest row,
    Strategies.protective_put current_price today option_contracts
    = Returned (Some pp) /\
    Permutation (k1 :: k2 :: Strategies.pp_example_put pp :: rest)
      (filter (fun p => Py.ltb (Scanner.strike_price p) current_price)
              option_contracts) /\
    Scanner.strike_price (Strategies.pp_example_put pp)
    <= Scanner.strike_price k2 <= Scanner.strike_price k1 /\
    (forall k, In k rest ->
       Scanner.strike_price k
       <= Scanner.strike_price (Strategies.pp_example_put pp)) /\
    nth_error (Strategies.pp_rows pp) 2 = Some row /\
    Advanced.pp_strike row
    = Scanner.strike_price (Strategies.pp_example_put pp) /\
    Strategies.pp_example_premium pp <= Advanced.pp_est_premium row /\
    Strategies.pp_max_loss_shown pp <= Advanced.pp_max_loss row /\
    Strategies.pp_cost_per_day pp
    = Strategies.pp_example_premium pp
      / IZR (Scanner.expiration_date (Strategies.pp_example_put pp) - today).
Proof.
  intros Hp Hlen Hlater.
  rewrite <- sorted_by_strike_desc_length in Hlen.
  pose proof (sorted_by_strike_descending
                (filter (fun p => Py.ltb (Scanner.strike_price p) current_price)
                        option_contracts)) as Hsorted.
  pose proof (sorted_by_strike_desc_perm
                (filter (fun p => Py.ltb (Scanner.strike_price p) current_price)
                        option_contracts)) as Hperm.
  destruct (Advanced.sorted_by_strike_desc _) as [ | k1 [ | k2 [ | k3 rest]]]
    eqn:Hs; cbn [length] in Hlen; try lia.
  assert (Hk3 : In k3 option_contracts /\ Scanner.strike_price k3 < current_price).
  { assert (Hin : In k3 (k1 :: k2 :: k3 :: rest)) by (right; right; now left).
    apply (Permutation_in _ Hperm), filter_In in Hin.
    destruct Hin as [Hin Hlt]. apply py_ltb_spec in Hlt. now split. }
  destruct Hk3 as [Hin3 Hlt3]. pose proof (Hlater k3 Hin3 Hlt3) as Hdays.
  assert (Hd : IZR (Scanner.expiration_date k3 - today) <> 0)
    by (apply not_0_IZR; lia).
  assert (Hdpos : 0 < IZR (Scanner.expiration_date k3 - today))
    by (apply IZR_lt; lia).
  assert (Hp0 : current_price <> 0) by lra.
  rewrite (protective_put_steps _ today _ _ _ _ _ Hp0 Hs). cbv zeta.
  rewrite py_div_ok by exact Hd. cbn [PyMore.of_result PyMore.obind].
  inversion Hsorted as [ | ? ? Hs2 Hall1]; subst.
  inversion Hs2 as [ | ? ? Hs3 Hall2]; subst.
  inversion Hs3 as [ | ? ? _ Hall3]; subst.
  rewrite Forall_forall in Hall1, Hall2, Hall3.
  do 5 eexists. split; [reflexivity | ].
  cbn [Strategies.pp_example_put Strategies.pp_rows
       Strategies.pp_example_premium Strategies.pp_max_loss_shown
       Strategies.pp_cost_per_day].
  split; [exact Hperm | ].
  split; [split; [apply Hall2; now left | apply Hall1; now left] | ].
  split; [intros k Hk; now apply Hall3 | ].
  cbn [Py.slice_to firstn map nth_error].
  split; [reflexivity | ]. split; [reflexivity | ].
  cbn [Advanced.pp_est_premium Advanced.pp_max_loss].
  assert (Hterm : 0 <= IZR (Scanner.expiration_date k3 - today) / 365
                       * current_price * 0.02).
  { apply Rmult_le_pos; [ | lra].
    apply Rmult_le_pos; [ | lra].
    apply Rmult_le_pos; [lra | ].
    apply Rlt_le, Rinv_0_lt_compat. lra. }
  split; [rmax_lra | ]. split; [rmax_lra | reflexivity].
Qed.

Lemma samples_puts_below_later :
  forall k, In k Samples.puts_below ->
    Scanner.strike_price k < 100 -> (0 < Scanner.expiration_date k)%Z.
Proof.
  intros k Hk _. cbn in Hk.
  repeat (destruct Hk as [<- | Hk]; [cbn; lia | ]). contradiction.
Qed.

Lemma samples_puts_below_three :
  (3 <= length (filter (fun p => Py.ltb (Scanner.strike_price p) 100)
                       Samples.puts_below))%nat.
Proof. rewrite puts_below_filter. cbn [length Samples.puts_below]. lia. Qed.

Lemma protective_put_example_witness :
  exists pp row,
    Strategies.protective_put 100 0 Samples.puts_below = Returned (Some pp) /\
    nth_error (Strategies.pp_rows pp) 2 = Some row /\
    Strategies.pp_example_premium pp <= Advanced.pp_est_premium row.
Proof.
  assert (Hp : 0 < 100) by lra.
  destruct (protective_put_example 100 0 Samples.puts_below Hp
              samples_puts_below_three samples_puts_below_later)
    as [pp [k1 [k2 [rest [row [E [_ [_ [_ [Hrow [_ [Hprem _]]]]]]]]]]]].
  exists pp, row. repeat split; assumption.
Defined.

(** X20: the scenario table of the walk-through has six lines, priced at
    70% and 85% of the price, the strike of the example put, the price,
    110% and 130% of it.  The put is worth something exactly on the lines
    priced below the strike; on no line is the net result worse than the
    stock result less the premium, and on the lines priced at or above
    the strike it is exactly that. *)
Theorem protective_put_scenario_lines (current_price : R) (today : Z)
  (option_contracts : list Scanner.Contract) (pp : Strategies.ProtectivePut) :
  Strategies.protective_put current_price today option_contracts
  = Returned (Some pp) ->
  map Strategies.ps_price (Strategies.pp_scenarios pp)
  = [ current_price * 0.70; current_price * 0.85;
      Scanner.strike_price (Strategies.pp_example_put pp); current_price;
      current_price * 1.10; current_price * 1.30 ] /\
  forall s, In s (Strategies.pp_scenarios pp) ->
    0 <= Strategies.ps_put_value s /\
    (0 < Strategies.ps_put_value s
     <-> Strategies.ps_price s
         < Scanner.strike_price (Strategies.pp_example_put pp)) /\
    Strategies.ps_stock_pl s - Strategies.pp_example_premium pp
    <= Strategies.ps_net_pl s /\
    (Scanner.strike_price (Strategies.pp_example_put pp)
     <= Strategies.ps_price s ->
     Strategies.ps_net_pl s
     = Strategies.ps_stock_pl s - Strategies.pp_example_premium pp).
Proof.
  unfold Strategies.protective_put.
  destruct (Advanced.advanced_3_protective_put_strategy _ _ _)
    as [[rows | ] | e]; cbn [PyMore.of_result PyMore.obind];
    try discriminate.
  destruct (PyMore.index _ 2) as [k3 | e]; cbn [PyMore.obind];
    [ | discriminate].
  destruct (Py.div _ _) as [cost | e]; cbn [PyMore.of_result PyMore.obind];
    [ | discriminate].
  intros [= <-].
  cbn [Strategies.pp_scenarios Strategies.pp_example_put
       Strategies.pp_example_premium].
  split; [reflexivity | ].
  intros s Hs.
  assert (Hprice : exists price,
            s = Strategies.put_scenario current_price
                  (Scanner.strike_price k3)
                  (Py.max 1.0 ((current_price - Scanner.strike_price k3) * 0.15)
                   * 100) price).
  { cbn [In map] in Hs.
    repeat (destruct Hs as [<- | Hs]; [eexists; reflexivity | ]).
    contradiction. }
  destruct Hprice as [price ->].
  destruct (put_scenario_lines current_price (Scanner.strike_price k3)
              (Py.max 1.0 ((current_price - Scanner.strike_price k3) * 0.15)
               * 100) price) as [Hpr [Hnn [Hpos [Hge Heq]]]].
  rewrite Hpr. repeat split; try assumption; apply Hpos.
Qed.

Lemma sample_protective_put :
  exists pp,
    Strategies.protective_put 100 0 Samples.puts_below = Returned (Some pp).
Proof.
  pose proof samples_puts_below_three as Hlen.
  rewrite <- sorted_by_strike_desc_length in Hlen.
  pose proof (sorted_by_strike_desc_perm
                (filter (fun p => Py.ltb (Scanner.strike_price p) 100)
                        Samples.puts_below)) as Hperm.
  destruct (Advanced.sorted_by_strike_desc _) as [ | k1 [ | k2 [ | k3 rest]]]
    eqn:Hs; cbn [length] in Hlen; try lia.
  assert (Hin : In k3 (k1 :: k2 :: k3 :: rest)) by (right; right; now left).
  apply (Permutation_in _ Hperm), filter_In in Hin. destruct Hin as [Hin Hlt].
  apply py_ltb_spec in Hlt.
  pose proof (samples_puts_below_later k3 Hin Hlt) as Hdays.
  assert (Hp0 : 100 <> 0) by lra.
  rewrite (protective_put_steps _ 0 _ _ _ _ _ Hp0 Hs). cbv zeta.
  rewrite py_div_ok by (apply not_0_IZR; lia).
  cbn [PyMore.of_result PyMore.obind]. now eexists.
Qed.

Lemma protective_put_scenario_lines_witness :
  exists pp,
    Strategies.protective_put 100 0 Samples.puts_below = Returned (Some pp) /\
    map Strategies.ps_price (Strategies.pp_scenarios pp)
    = [ 100 * 0.70; 100 * 0.85;
        Scanner.strike_price (Strategies.pp_example_put pp); 100;
        100 * 1.10; 100 * 1.30 ].
Proof.
  destruct sample_protective_put as [pp E].
  exists pp. split; [exact E | ].
  exact (proj1 (protective_put_scenario_lines 100 0 Samples.puts_below pp E)).
Defined.

(** ** Lesson 1: grouping the chain by expiration *)

Lemma get_update (e exp : Z)
  (f : list Broker.Listing * list Broker.Listing
       -> list Broker.Listing * list Broker.Listing)
  (d : Lessons.Groups) :
  Lessons.get e (Lessons.update exp f d) =
    if (e =? exp)%Z
    then match Lessons.get e d with
         | Returned v => Returned (f v)
         | Raised x => Raised x
         end
    else Lessons.get e d.
Proof.
  induction d as [ | [k v] tl IH]; cbn [Lessons.update Lessons.get].
  - now destruct (e =? exp)%Z.
  - destruct (k =? exp)%Z eqn:E1; cbn [Lessons.get].
    + apply Z.eqb_eq in E1. destruct (k =? e)%Z eqn:E2.
      * apply Z.eqb_eq in E2.
        replace (e =? exp)%Z with true by (symmetry; apply Z.eqb_eq; lia).
        reflexivity.
      * apply Z.eqb_neq in E2.
        replace (e =? exp)%Z with false by (symmetry; apply Z.eqb_neq; lia).
        reflexivity.
    + apply Z.eqb_neq in E1. destruct (k =? e)%Z eqn:E2.
      * apply Z.eqb_eq in E2.
        replace (e =? exp)%Z with false by (symmetry; apply Z.eqb_neq; lia).
        reflexivity.
      * exact IH.
Qed.

Lemma get_app_new (e exp : Z) (v : list Broker.Listing * list Broker.Listing)
  (d : Lessons.Groups) :
  Lessons.has_key exp d = false ->
  Lessons.get e (d ++ [(exp, v)]) =
    if (e =? exp)%Z then Returned v else Lessons.get e d.
Proof.
  induction d as [ | [k w] tl IH]; cbn [app Lessons.get Lessons.has_key].
  - intros _. rewrite (Z.eqb_sym exp e). now destruct (e =? exp)%Z.
  - intros H. apply orb_false_elim in H. destruct H as [Hk Htl].
    apply Z.eqb_neq in Hk. destruct (k =? e)%Z eqn:E.
    + apply Z.eqb_eq in E.
      replace (e =? exp)%Z with false by (symmetry; apply Z.eqb_neq; lia).
      reflexivity.
    + now apply IH.
Qed.

Lemma has_key_get (e : Z) (d : Lessons.Groups) :
  Lessons.has_key e d = true ->
  exists v, Lessons.get e d = Returned v.
Proof.
  induction d as [ | [k w] tl IH]; cbn [Lessons.has_key Lessons.get];
    [discriminate | ].
  destruct (k =? e)%Z; cbn [orb]; [now eexists | exact IH].
Qed.

Lemma no_key_get (e : Z) (d : Lessons.Groups) :
  Lessons.has_key e d = false -> Lessons.get e d = Raised KeyError.
Proof.
  induction d as [ | [k w] tl IH]; cbn [Lessons.has_key Lessons.get];
    [reflexivity | ].
  destruct (k =? e)%Z; cbn [orb]; [discriminate | exact IH].
Qed.

Lemma keys_update (exp : Z)
  (f : list Broker.Listing * list Broker.Listing
       -> list Broker.Listing * list Broker.Listing)
  (d : Lessons.Groups) :
  map fst (Lessons.update exp f d) = map fst d.
Proof.
  induction d as [ | [k v] tl IH]; cbn [Lessons.update map]; [reflexivity | ].
  destruct (k =? exp)%Z; cbn [map fst]; [reflexivity | now rewrite IH].
Qed.

Lemma has_key_in (e : Z) (d : Lessons.Groups) :
  Lessons.has_key e d = true <-> In e (map fst d).
Proof.
  induction d as [ | [k v] tl IH]; cbn [Lessons.has_key map In fst].
  - split; [discriminate | tauto].
  - rewrite orb_true_iff, IH, Z.eqb_eq. tauto.
Qed.

(** After the grouping loop the dict has a key for exactly the expiration
    dates of the options, and under each key the calls and the puts of
    that date, in their order of arrival. *)
Lemma group_by_expiry_spec (options : list Broker.Listing) :
  forall e : Z,
  (In e (map fst (Lessons.group_by_expiry options))
   <-> In e (map (fun o => Scanner.expiration_date (Broker.listed o)) options))
  /\
  (In e (map (fun o => Scanner.expiration_date (Broker.listed o)) options) ->
   Lessons.get e (Lessons.group_by_expiry options) =
     Returned
       (filter (fun o =>
                  match Broker.contract_type o with
                  | Broker.CALL => true
                  | Broker.PUT => false
                  end
                  && (Scanner.expiration_date (Broker.listed o) =? e)%Z)
               options,
        filter (fun o =>
                  match Broker.contract_type o with
                  | Broker.CALL => false
                  | Broker.PUT => true
                  end
                  && (Scanner.expiration_date (Broker.listed o) =? e)%Z)
               options)).
Proof.
  unfold Lessons.group_by_expiry.
  induction options as [ | opt l IH] using rev_ind; intros e.
  - cbn. split; [tauto | tauto].
  - rewrite fold_left_app. cbn [fold_left].
    set (d := fold_left Lessons.add_option l []) in *.
    assert (IHkeys := fun x => proj1 (IH x)).
    assert (IHget := fun x => proj2 (IH x)). clear IH.
    rewrite !map_app, !filter_app. cbn [map filter].
    unfold Lessons.add_option.
    set (exp := Scanner.expiration_date (Broker.listed opt)).
    assert (Hkeys :
              forall d' : Lessons.Groups, map fst d'
                         = (if Lessons.has_key exp d then map fst d
                            else map fst d ++ [exp]) ->
              In e (map fst d') <->
              In e (map (fun o => Scanner.expiration_date (Broker.listed o)) l
                    ++ [exp])).
    { intros d' ->. rewrite in_app_iff. cbn [In].
      destruct (Lessons.has_key exp d) eqn:Hk.
      - rewrite IHkeys. apply has_key_in in Hk. rewrite IHkeys in Hk.
        split; [tauto | ]. intros [H | [<- | []]]; assumption.
      - rewrite in_app_iff, IHkeys. cbn [In]. tauto. }
    split.
    + destruct (Broker.contract_type opt); rewrite keys_update;
        apply Hkeys; destruct (Lessons.has_key exp d);
        [reflexivity | now rewrite map_app | reflexivity | now rewrite map_app].
    + intros Hin. apply in_app_or in Hin. cbn [In] in Hin.
      assert (Hbase :
                Lessons.get e
                  (if Lessons.has_key exp d then d
                   else d ++ [(exp, ([], []))]) =
                if (e =? exp)%Z
                then (if Lessons.has_key exp d then Lessons.get e d
                      else Returned ([], []))
                else Lessons.get e d).
      { destruct (Lessons.has_key exp d) eqn:Hk.
        - now destruct (e =? exp)%Z.
        - now apply get_app_new. }
      destruct (e =? exp)%Z eqn:Ee.
      * apply Z.eqb_eq in Ee. subst e.
        rewrite Z.eqb_refl, !andb_true_r.
        assert (Hold :
                  (if Lessons.has_key exp d then Lessons.get exp d
                   else Returned ([], [])) =
                  Returned
                    (filter (fun o =>
                               match Broker.contract_type o with
                               | Broker.CALL => true
                               | Broker.PUT => false
                               end
                               && (Scanner.expiration_date (Broker.listed o)
                                   =? exp)%Z) l,
                     filter (fun o =>
                               match Broker.contract_type o with
                               | Broker.CALL => false
                               | Broker.PUT => true
                               end
                               && (Scanner.expiration_date (Broker.listed o)
                                   =? exp)%Z) l)).
        { destruct (Lessons.has_key exp d) eqn:Hk.
          - apply IHget. apply IHkeys. now apply has_key_in.
          - assert (Hnot : ~ In exp (map (fun o => Scanner.expiration_date
                                                     (Broker.listed o)) l)).
            { intros H. apply IHkeys, has_key_in in H. congruence. }
            assert (Hnone : forall p : Broker.Listing -> bool,
                      filter (fun o => p o
                                && (Scanner.expiration_date (Broker.listed o)
                                    =? exp)%Z) l = []).
            { intros p. destruct (filter _ l) as [ | o tl] eqn:E;
                [reflexivity | ].
              assert (Ho : In o (filter (fun o => p o
                                && (Scanner.expiration_date (Broker.listed o)
                                    =? exp)%Z) l)) by (rewrite E; now left).
              apply filter_In in Ho. destruct Ho as [Ho Hp].
              apply andb_true_iff in Hp. destruct Hp as [_ Hp].
              apply Z.eqb_eq in Hp. elim Hnot. rewrite <- Hp.
              now apply (in_map (fun o => Scanner.expiration_date
                                            (Broker.listed o))). }
            now rewrite !Hnone. }
        destruct (Broker.contract_type opt); rewrite get_update, Z.eqb_refl,
          Hbase, Hold; cbn [fst snd andb]; now rewrite ?app_nil_r.
      * assert (Hl : In e (map (fun o => Scanner.expiration_date
                                           (Broker.listed o)) l)).
        { destruct Hin as [H | [H | []]]; [assumption | ].
          apply Z.eqb_neq in Ee. congruence. }
        rewrite (Z.eqb_sym exp e), Ee, !andb_false_r, !app_nil_r.
        destruct (Broker.contract_type opt); rewrite get_update, Ee, Hbase;
          now apply IHget.
Qed.

Lemma sorted_dates_head (l : list Z) (e : Z) (rest : list Z) :
  PyMore.sorted_on Z.ltb (fun d : Z => d) l = e :: rest ->
  In e l /\ forall x, In x l -> (e <= x)%Z.
Proof.
  intros H.
  pose proof (sorted_on_perm Z.ltb (fun d : Z => d) l) as Hperm.
  assert (Hs : StronglySorted Z.le (PyMore.sorted_on Z.ltb (fun d : Z => d) l)).
  { apply Sorted_StronglySorted; [intros a b c; lia | ].
    apply Sorted_weaken with (R1 := fun x y => Z.ltb y x = false).
    - intros a b Hab. apply Z.ltb_ge in Hab. exact Hab.
    - apply (sorted_on_sorted Z.ltb (fun d : Z => d)).
      intros a b Hab. apply Z.ltb_lt in Hab. apply Z.ltb_ge. lia. }
  rewrite H in Hperm, Hs. split.
  - apply (Permutation_in _ Hperm). now left.
  - intros x Hx. apply (Permutation_in _ (Permutation_sym Hperm)) in Hx.
    inversion Hs as [ | ? ? _ Hall]; subst. rewrite Forall_forall in Hall.
    destruct Hx as [<- | Hx]; [lia | now apply Hall].
Qed.

Lemma in_sorted_listing (x : Broker.Listing) (l : list Broker.Listing) :
  In x (PyMore.sorted_on Py.ltb
          (fun o => Scanner.strike_price (Broker.listed o)) l) -> In x l.
Proof. apply Permutation_in, sorted_on_perm. Qed.

(** X21: lesson 1 returns early on an empty response.  Otherwise it shows
    the earliest expiration of the response; the number of lines is the
    smallest of 10, the number of calls and the number of puts of that
    expiration, so calls without a put to sit beside are left out; each
    line pairs a call and a put of the response, both of that
    expiration, and stars each one exactly when its strike is less than 5
    away from the mid price. *)
Theorem lesson_1_chain_view (c : Broker.Client) (today : Z) (symbol : string)
  (days_to_expiry : Z) (quote : Broker.Quote)
  (options : list Broker.Listing) :
  Broker.get_stock_latest_quote c symbol = Ok quote ->
  Broker.get_option_contracts c
    (Broker.mkRequest symbol today (today + days_to_expiry) None 100)
  = Ok options ->
  (options = [] ->
   Lessons.lesson_1_get_options_chain c today symbol days_to_expiry
   = Returned None) /\
  (options <> [] ->
   exists view,
     Lessons.lesson_1_get_options_chain c today symbol days_to_expiry
     = Returned (Some view) /\
     (exists o, In o options /\
        Scanner.expiration_date (Broker.listed o)
        = Lessons.view_first_expiry view) /\
     (forall o, In o options ->
        (Lessons.view_first_expiry view
         <= Scanner.expiration_date (Broker.listed o))%Z) /\
     length (Lessons.view_rows view)
     = Nat.min
         (Nat.min 10
            (length
               (filter (fun o =>
                          match Broker.contract_type o with
                          | Broker.CALL => true
                          | Broker.PUT => false
                          end
                          && (Scanner.expiration_date (Broker.listed o)
                              =? Lessons.view_first_expiry view)%Z)
                       options)))
         (Nat.min 10
            (length
               (filter (fun o =>
                          match Broker.contract_type o with
                          | Broker.CALL => false
                          | Broker.PUT => true
                          end
                          && (Scanner.expiration_date (Broker.listed o)
                              =? Lessons.view_first_expiry view)%Z)
                       options))) /\
     forall row, In row (Lessons.view_rows view) ->
       In (Lessons.row_call row) options /\
       Broker.contract_type (Lessons.row_call row) = Broker.CALL /\
       Scanner.expiration_date (Broker.listed (Lessons.row_call row))
       = Lessons.view_first_expiry view /\
       In (Lessons.row_put row) options /\
       Broker.contract_type (Lessons.row_put row) = Broker.PUT /\
       Scanner.expiration_date (Broker.listed (Lessons.row_put row))
       = Lessons.view_first_expiry view /\
       (Lessons.row_call_mark row = true <->
        Rabs (Scanner.strike_price (Broker.listed (Lessons.row_call row))
              - Broker.mid quote) < 5) /\
       (Lessons.row_put_mark row = true <->
        Rabs (Scanner.strike_price (Broker.listed (Lessons.row_put row))
              - Broker.mid quote) < 5)).
Proof.
  intros Hq Hopts. unfold Lessons.lesson_1_get_options_chain.
  rewrite Hq, Hopts. cbn [PyMore.of_result PyMore.obind].
  split; [intros ->; reflexivity | ].
  intros Hne.
  destruct options as [ | o0 otl] eqn:Eopts; [now elim Hne | ].
  rewrite <- Eopts in *. cbn [Py.not_list].
  assert (Hnl : Py.not_list options = false) by (rewrite Eopts; reflexivity).
  rewrite Hnl.
  set (d := Lessons.group_by_expiry options).
  pose proof (group_by_expiry_spec options) as Hspec. fold d in Hspec.
  destruct (PyMore.sorted_on Z.ltb (fun e : Z => e) (map fst d))
    as [ | first rest] eqn:Ekeys.
  { pose proof (sorted_on_perm Z.ltb (fun e : Z => e) (map fst d)) as P.
    rewrite Ekeys in P. apply Permutation_nil in P.
    assert (Hin : In (Scanner.expiration_date (Broker.listed o0)) (map fst d)).
    { apply Hspec. rewrite Eopts. now left. }
    rewrite P in Hin. contradiction. }
  destruct (sorted_dates_head _ _ _ Ekeys) as [Hfirst Hmin].
  cbn [PyMore.index nth_error PyMore.obind].
  apply Hspec in Hfirst. rewrite (proj2 (Hspec first) Hfirst).
  cbn [PyMore.obind fst snd].
  eexists. split; [reflexivity | ].
  cbn [Lessons.view_first_expiry Lessons.view_rows].
  split.
  { apply in_map_iff in Hfirst. destruct Hfirst as [o [Ho Hin]]. now exists o. }
  split.
  { intros o Ho. apply Hmin. apply Hspec.
    now apply (in_map (fun o => Scanner.expiration_date (Broker.listed o))). }
  split.
  { rewrite length_map, length_combine, !slice_to_length_min.
    now rewrite !(Permutation_length (sorted_on_perm _ _ _)). }
  intros row Hrow. apply in_map_iff in Hrow. destruct Hrow as [[oc op] [<- Hin]].
  cbn [Lessons.row_call Lessons.row_put Lessons.row_call_mark
       Lessons.row_put_mark fst snd].
  pose proof (in_combine_l _ _ _ _ Hin) as Hc.
  pose proof (in_combine_r _ _ _ _ Hin) as Hp.
  apply in_slice_to, in_sorted_listing, filter_In in Hc.
  apply in_slice_to, in_sorted_listing, filter_In in Hp.
  destruct Hc as [Hc Hct], Hp as [Hp Hpt].
  apply andb_true_iff in Hct, Hpt.
  destruct Hct as [Hct Hce], Hpt as [Hpt Hpe].
  apply Z.eqb_eq in Hce, Hpe.
  split; [assumption | ].
  split; [destruct (Broker.contract_type oc); [reflexivity | discriminate] | ].
  split; [assumption | ]. split; [assumption | ].
  split; [destruct (Broker.contract_type op); [discriminate | reflexivity] | ].
  split; [assumption | ].
  unfold Guide.near_current_price. split; apply py_ltb_spec.
Qed.

Lemma lesson_1_chain_view_witness :
  exists view,
    Lessons.lesson_1_get_options_chain Samples.client 10 "SPY" 30
    = Returned (Some view) /\
    forall o,
      In o (Samples.answer (Broker.mkRequest "SPY" 10 (10 + 30) None 100)) ->
      (Lessons.view_first_expiry view
       <= Scanner.expiration_date (Broker.listed o))%Z.
Proof.
  assert (Hne : Samples.answer (Broker.mkRequest "SPY" 10 (10 + 30) None 100)
                <> []) by discriminate.
  destruct (proj2 (lesson_1_chain_view Samples.client 10 "SPY" 30
                     (Broker.mkQuote 101 99)
                     (Samples.answer
                        (Broker.mkRequest "SPY" 10 (10 + 30) None 100))
                     eq_refl eq_refl) Hne)
    as [view [E [_ [Hmin _]]]].
  exists view. split; assumption.
Defined.

Lemma strongly_sorted_filter {A : Type} (R : A -> A -> Prop)
  (f : A -> bool) (l : list A) :
  StronglySorted R l -> StronglySorted R (filter f l).
Proof.
  induction 1 as [ | a l Hs IH Hall]; cbn [filter]; [constructor | ].
  destruct (f a); [ | assumption]. constructor; [assumption | ].
  rewrite Forall_forall in *. intros x Hx. apply filter_In in Hx.
  now apply Hall.
Qed.

Lemma lesson_5_loop (c : Broker.Client) (today : Z) (symbol : string)
  (current_price : R) (ds : list Z) :
  forall acc,
  (forall days, In days ds ->
     exists calls,
       Broker.option_contracts c (Lessons.lesson_5_request today symbol days)
       = Ok calls) ->
  exists out,
    Lessons.for_loop (Lessons.lesson_5_step c today symbol current_price)
      ds acc = Returned (acc ++ out) /\
    map fst out = filter (Lessons.has_calls c today symbol) ds /\
    forall days atm, In (days, atm) out ->
      exists calls,
        Broker.option_contracts c
          (Lessons.lesson_5_request today symbol days) = Ok calls /\
        In atm calls /\
        forall x, In x calls ->
          Rabs (Scanner.strike_price atm - current_price)
          <= Rabs (Scanner.strike_price x - current_price).
Proof.
  induction ds as [ | d ds IH]; intros acc H.
  - exists []. rewrite app_nil_r. repeat split. intros ? ? [].
  - destruct (H d (or_introl eq_refl)) as [calls Hc].
    assert (H' : forall days, In days ds ->
              exists calls,
                Broker.option_contracts c
                  (Lessons.lesson_5_request today symbol days) = Ok calls)
      by (intros days Hd; apply H; now right).
    cbn [Lessons.for_loop filter]. unfold Lessons.lesson_5_step at 1.
    unfold Lessons.has_calls at 1. rewrite Hc. cbn [PyMore.of_result PyMore.obind].
    destruct calls as [ | k calls].
    + cbn [Py.not_list PyMore.obind]. destruct (IH acc H') as [out [E [Hk Hm]]].
      exists out. repeat split; assumption.
    + cbn [Py.not_list].
      pose proof (min_by_spec
                    (fun x => Rabs (Scanner.strike_price x - current_price))
                    (k :: calls)) as Hmin.
      destruct (PyMore.min_by _ (k :: calls)) as [atm | e];
        [ | destruct Hmin as [_ Hnil]; discriminate].
      cbn [PyMore.obind].
      destruct (IH (acc ++ [(d, atm)]) H') as [out [E [Hk Hm]]].
      exists ((d, atm) :: out). rewrite E, <- app_assoc. cbn [app map fst].
      split; [reflexivity | ]. split; [now rewrite Hk | ].
      intros days x [[= <- <-] | Hin]; [ | now apply Hm].
      exists (k :: calls). split; [assumption | exact Hmin].
Qed.

(** X22: lesson 5 asks for the calls expiring exactly 7, 30, 60 and 90 days
    from today.  When the quote and the four requests are answered it
    returns, and unlike lessons 2 to 4 an empty answer raises nothing:
    the table has one line for each of the four horizons that has calls,
    in that order, and none for the others; the contract of a line is
    one of those returned for its horizon, and none of them is struck
    closer to the mid price. *)
Theorem lesson_5_table (c : Broker.Client) (today : Z) (symbol : string)
  (quote : Broker.Quote) :
  Broker.get_stock_latest_quote c symbol = Ok quote ->
  (forall days, In days Lessons.expirations ->
     exists calls,
       Broker.option_contracts c (Lessons.lesson_5_request today symbol days)
       = Ok calls) ->
  exists lines,
    Lessons.lesson_5_time_decay c today symbol = Returned lines /\
    StronglySorted Z.lt (map fst lines) /\
    (forall days,
       In days (map fst lines) <->
       In days Lessons.expirations /\
       exists k calls,
         Broker.option_contracts c
           (Lessons.lesson_5_request today symbol days) = Ok (k :: calls)) /\
    forall days atm, In (days, atm) lines ->
      exists calls,
        Broker.option_contracts c
          (Lessons.lesson_5_request today symbol days) = Ok calls /\
        In atm calls /\
        forall x, In x calls ->
          Rabs (Scanner.strike_price atm - Broker.mid quote)
          <= Rabs (Scanner.strike_price x - Broker.mid quote).
Proof.
  intros Hq Hans. unfold Lessons.lesson_5_time_decay. rewrite Hq.
  cbn [PyMore.of_result PyMore.obind].
  destruct (lesson_5_loop c today symbol (Broker.mid quote)
              Lessons.expirations [] Hans) as [lines [E [Hk Hm]]].
  exists lines. cbn [app] in E. split; [exact E | ].
  split.
  { rewrite Hk. apply strongly_sorted_filter. unfold Lessons.expirations.
    repeat (constructor; [ | repeat (constructor; [lia | ]); constructor]).
    constructor. }
  split; [ | exact Hm].
  intros days. rewrite Hk, filter_In. unfold Lessons.has_calls.
  split; intros [Hin Hc]; (split; [exact Hin | ]).
  - destruct (Broker.option_contracts c _) as [[ | k calls] | e];
      try discriminate. now exists k, calls.
  - destruct Hc as [k [calls ->]]. reflexivity.
Qed.

Lemma lesson_5_table_witness :
  exists lines,
    Lessons.lesson_5_time_decay Samples.client 0 "SPY" = Returned lines /\
    StronglySorted Z.lt (map fst lines) /\
    (In 90%Z (map fst lines) <->
     In 90%Z Lessons.expirations /\
     exists k calls,
       Broker.option_contracts Samples.client
         (Lessons.lesson_5_request 0 "SPY" 90) = Ok (k :: calls)).
Proof.
  destruct (lesson_5_table Samples.client 0 "SPY" (Broker.mkQuote 101 99)
              eq_refl
              (fun days _ => ex_intro _ _ eq_refl))
    as [lines [E [Hs [Hk _]]]].
  exists lines. split; [exact E | ]. split; [exact Hs | apply Hk].
Defined.
